(** * LTI 1.3 launch flow of the Globe Expedition Journal backend

    A shallow embedding of [internal/lti] (state store, session manager,
    token validator, platform repository and the login/launch handlers)
    together with the properties its specification states about them.

    Go values are modelled as follows: strings and byte slices as [string],
    [uint] and [int] as [Z], [float64] as the floating-point numbers of
    the standard library, [time.Time] as a number of nanoseconds on the
    process clock, pointers to [StateData] as locations of an explicit heap,
    Go maps as [gmap], database tables as lists of rows. *)

From Stdlib Require Import ZArith Lia SpecFloat.
From stdpp Require Import gmap strings list fin_maps.

Open Scope Z_scope.

(** ** float64

    IEEE 754 binary64 with round-to-nearest-even, as the standard
    library specifies it ([SpecFloat]). *)
Module float64.

Definition prec : Z := 53.
Definition emax : Z := 1024.

(** [float64(z)] for an integer [z]. *)
Definition ofInt (z : Z) : spec_float := binary_normalize prec emax z 0 false.

Definition add : spec_float -> spec_float -> spec_float := SFadd prec emax.
Definition div : spec_float -> spec_float -> spec_float := SFdiv prec emax.

(** [int(f)]: the fraction is discarded. What Go does with a value that
    does not fit the integer type, an infinity or a NaN is left to the
    implementation; those get 0 here. *)
Definition toInt (f : spec_float) : Z :=
  match f with
  | S754_finite s m e =>
      let v := if 0 <=? e then Z.pos m * 2 ^ e else Z.pos m / 2 ^ (- e) in
      if s then - v else v
  | _ => 0
  end.

End float64.

(** ** package time *)
Module time.

(** [time.Time]: an instant, counted in nanoseconds from the zero [Time].
    Where a property needs it, the clock is assumed not to step backwards
    (the readings of [time.Now] carry the monotonic clock). *)
Definition Time := Z.

Definition IsZero (t : Time) : bool := bool_decide (t = 0).
(** [time.Duration] is an [int64] count of nanoseconds. *)
Definition Duration := Z.

Definition minDuration : Duration := - 2 ^ 63.
Definition maxDuration : Duration := 2 ^ 63 - 1.

Definition Nanosecond : Duration := 1.
Definition Second : Duration := 1000000000.
Definition Minute : Duration := 60 * Second.

(** [int64] wrap-around, for arithmetic on durations. *)
Definition wrap64 (z : Z) : Z := (z + 2 ^ 63) mod 2 ^ 64 - 2 ^ 63.

(** [t.Sub(u)]: the difference, saturated to the range of [Duration]. *)
Definition Sub (t u : Time) : Duration :=
  if decide (t - u < minDuration) then minDuration
  else if decide (maxDuration < t - u) then maxDuration
  else t - u.

(** [t.Add(d)]. *)
Definition Add (t : Time) (d : Duration) : Time := t + d.

(** [t.Truncate(time.Second)]: round down to a whole second. *)
Definition TruncateSecond (t : Time) : Time := t - t mod Second.

(** [d.Seconds()]:
    [sec := d / Second; nsec := d % Second;
     return float64(sec) + float64(nsec)/1e9]. *)
Definition Seconds (d : Duration) : spec_float :=
  let sec := Z.quot d Second in
  let nsec := Z.rem d Second in
  float64.add (float64.ofInt sec)
    (float64.div (float64.ofInt nsec) (float64.ofInt 1000000000)).

End time.

(** ** state.go *)
Module StateStore.

(** [StateData]: the state information of one LTI launch. *)
Record StateData := mkStateData {
  Nonce : string;
  TargetLinkURI : string;
  ClientID : string;
  CreatedAt : time.Time
}.

Definition setCreatedAt (now : time.Time) (d : StateData) : StateData :=
  {| Nonce := Nonce d; TargetLinkURI := TargetLinkURI d;
     ClientID := ClientID d; CreatedAt := now |}.

(** A [*StateData]: the address of a [StateData] object. *)
Definition ptr := positive.

(** The store holds pointers ([states map[string]*StateData]); the objects
    live in the heap they share with the callers of the store. *)
Record t := mk {
  heap : gmap ptr StateData;
  states : gmap string ptr
}.

(** [NewStateStore] (and the literal the tests build): an empty map. *)
Definition NewStateStore (h : gmap ptr StateData) : t :=
  {| heap := h; states := ∅ |}.

(** [&StateData{...}]: allocation of a fresh object by a caller. *)
Definition alloc (d : StateData) (s : t) : ptr * t :=
  let p := fresh (dom (heap s)) in
  (p, {| heap := <[p := d]> (heap s); states := states s |}).

(** [Store]: [data.CreatedAt = time.Now(); s.states[state] = data].
    [None] is the panic of the assignment through a nil (unallocated)
    pointer, which happens before the map is touched. *)
Definition Store (state : string) (data : ptr) (now : time.Time) (s : t)
  : option t :=
  match heap s !! data with
  | None => None
  | Some d =>
      Some {| heap := <[data := setCreatedAt now d]> (heap s);
              states := <[state := data]> (states s) |}
  end.

(** [Get]: look the state up and delete it when it is there. *)
Definition Get (state : string) (s : t) : option ptr * t :=
  match states s !! state with
  | Some data =>
      (Some data, {| heap := heap s; states := delete state (states s) |})
  | None => (None, s)
  end.

(** [Peek]: look the state up, leave the map alone. *)
Definition Peek (state : string) (s : t) : option ptr :=
  states s !! state.

(** The object behind a pointer the store returned. *)
Definition deref (s : t) (p : ptr) : option StateData := heap s !! p.

Definition ttl : time.Duration := 10 * time.Minute.

(** The test of the sweep: [now.Sub(data.CreatedAt) > 10*time.Minute].
    Pointers in the map are never nil ([Store] dereferences before it
    inserts, see [wf]), so the last branch is not reached. *)
Definition expired (now : time.Time) (h : gmap ptr StateData) (p : ptr)
  : bool :=
  match h !! p with
  | Some d => bool_decide (ttl < time.Sub now (CreatedAt d))
  | None => false
  end.

(** One tick of [cleanup]: the loop body, run by the ticker once a minute.
    Ranging over a Go map while deleting from it visits every entry that
    is not deleted before it is reached, so the body removes exactly the
    entries that satisfy the test. *)
Definition cleanup (now : time.Time) (s : t) : t :=
  {| heap := heap s;
     states := filter (fun kp => expired now (heap s) kp.2 = false)
                      (states s) |}.

(** What a client of the store can do, with the clock reading of the call
    where the code reads the clock: the calls of the store, the allocation
    of a [StateData], and an assignment through a [*StateData] it holds
    ([*data = d], or a write to one of the exported fields). The store
    keeps the pointer it was given and hands it out again, so such a write
    reaches the object of an entry. *)
Inductive call :=
| CallStore (state : string) (data : ptr) (now : time.Time)
| CallGet (state : string)
| CallPeek (state : string)
| Tick (now : time.Time)
| New (d : StateData)
| Assign (data : ptr) (d : StateData).

(** A panicking [Store], and a panicking assignment through a nil
    pointer, leave the store as it was. *)
Definition step (c : call) (s : t) : t :=
  match c with
  | CallStore state data now => default s (Store state data now s)
  | CallGet state => (Get state s).2
  | CallPeek _ => s
  | Tick now => cleanup now s
  | New d => (alloc d s).2
  | Assign data d =>
      match heap s !! data with
      | Some _ => {| heap := <[data := d]> (heap s); states := states s |}
      | None => s
      end
  end.

Definition run (cs : list call) (s : t) : t :=
  foldl (fun s c => step c s) s cs.

(** Whether a call stores under [state]. *)
Definition stores (state : string) (c : call) : Prop :=
  match c with
  | CallStore state' _ _ => state' = state
  | _ => False
  end.

(** Bookkeeping for the properties (not part of the program): the clock
    reading of the latest call, and the time of the latest successful
    [Store] per state token and per [StateData] object. *)
Record ghost := mkGhost {
  clock : time.Time;
  byState : gmap string time.Time;
  byPtr : gmap ptr time.Time
}.

Definition ghost0 (t0 : time.Time) : ghost :=
  {| clock := t0; byState := ∅; byPtr := ∅ |}.

Definition track (c : call) (s : t) (g : ghost) : ghost :=
  match c with
  | CallStore state data now =>
      match heap s !! data with
      | Some _ =>
          {| clock := now;
             byState := <[state := now]> (byState g);
             byPtr := <[data := now]> (byPtr g) |}
      | None =>
          {| clock := now; byState := byState g; byPtr := byPtr g |}
      end
  | Tick now => {| clock := now; byState := byState g; byPtr := byPtr g |}
  | _ => g
  end.

Definition runG (cs : list call) (sg : t * ghost) : t * ghost :=
  foldl (fun sg c => (step c sg.1, track c sg.1 sg.2)) sg cs.

(** The clock does not go backwards from one call to the next. *)
Fixpoint ordered (t0 : time.Time) (cs : list call) : Prop :=
  match cs with
  | [] => True
  | CallStore _ _ now :: cs' => t0 <= now /\ ordered now cs'
  | Tick now :: cs' => t0 <= now /\ ordered now cs'
  | _ :: cs' => ordered t0 cs'
  end.

(** No [StateData] object is handed to [Store] twice (the login handler
    allocates a new one for every call). *)
Fixpoint unshared (used : gset ptr) (cs : list call) : Prop :=
  match cs with
  | [] => True
  | CallStore _ data _ :: cs' =>
      (data ∉ used) /\ unshared ({[data]} ∪ used) cs'
  | _ :: cs' => unshared used cs'
  end.

(** No client assigns to a [StateData] while the store holds it. *)
Fixpoint handsOff (cs : list call) (s : t) : Prop :=
  match cs with
  | [] => True
  | c :: cs' =>
      match c with
      | Assign data _ => forall k, states s !! k <> Some data
      | _ => True
      end /\ handsOff cs' (step c s)
  end.

(** Every entry's object carries the time of the latest [Store] of that
    object, which is not before the entry's own insertion. *)
Definition stamped (sg : t * ghost) : Prop :=
  forall k p, states sg.1 !! k = Some p ->
    exists d ti tp,
      heap sg.1 !! p = Some d /\ byState sg.2 !! k = Some ti /\
      byPtr sg.2 !! p = Some tp /\ CreatedAt d = tp /\
      ti <= tp /\ tp <= clock sg.2.

(** Without sharing, the two times coincide. *)
Definition exclusive (used : gset ptr) (sg : t * ghost) : Prop :=
  forall k p, states sg.1 !! k = Some p ->
    p ∈ used /\ byState sg.2 !! k = byPtr sg.2 !! p.

(** Every pointer in the map is allocated. *)
Definition wf (s : t) : Prop :=
  forall k p, states s !! k = Some p -> is_Some (heap s !! p).

End StateStore.

(** ** The token library ([github.com/golang-jwt/jwt/v5])

    The library is not part of the repository. Its control flow is written
    out here because the session manager and the token validator pass it
    callbacks and options; the wire format (JSON and base64url) and the
    cryptographic primitives stay parameters. *)
Module jwt.

Inductive Hash := SHA256 | SHA384 | SHA512.

(** The signing methods the library registers, by Go type. *)
Inductive SigningMethod :=
| SigningMethodHMAC (h : Hash)
| SigningMethodRSA (h : Hash)
| SigningMethodRSAPSS (h : Hash)
| SigningMethodECDSA (h : Hash)
| SigningMethodEd25519
| signingMethodNone.

Definition SigningMethodHS256 : SigningMethod := SigningMethodHMAC SHA256.

Definition bits (h : Hash) : string :=
  match h with SHA256 => "256" | SHA384 => "384" | SHA512 => "512" end.

Definition Alg (m : SigningMethod) : string :=
  match m with
  | SigningMethodHMAC h => "HS" +:+ bits h
  | SigningMethodRSA h => "RS" +:+ bits h
  | SigningMethodRSAPSS h => "PS" +:+ bits h
  | SigningMethodECDSA h => "ES" +:+ bits h
  | SigningMethodEd25519 => "EdDSA"
  | signingMethodNone => "none"
  end.

Definition registered : list SigningMethod :=
  [SigningMethodHMAC SHA256; SigningMethodHMAC SHA384;
   SigningMethodHMAC SHA512;
   SigningMethodRSA SHA256; SigningMethodRSA SHA384; SigningMethodRSA SHA512;
   SigningMethodRSAPSS SHA256; SigningMethodRSAPSS SHA384;
   SigningMethodRSAPSS SHA512;
   SigningMethodECDSA SHA256; SigningMethodECDSA SHA384;
   SigningMethodECDSA SHA512;
   SigningMethodEd25519; signingMethodNone].

(** [GetSigningMethod]: the registered method of that name, if any. *)
Definition GetSigningMethod (alg : string) : option SigningMethod :=
  head (filter (fun m => Alg m = alg) registered).

(** Keys, as the [interface{}] a key function returns. *)
Inductive Key :=
| Bytes (k : string)
| PublicKey (k : string)
| UnsafeAllowNoneSignatureType.

#[global] Instance Key_eq_dec : EqDecision Key.
Proof. solve_decision. Defined.

(** The token header ([map[string]interface{}], string entries). *)
Abbreviation Header := (gmap string string).

Record RegisteredClaims := mkRegistered {
  Issuer : string;
  Subject : string;
  Audience : list string;
  ExpiresAt : option time.Time;
  NotBefore : option time.Time;
  IssuedAt : option time.Time;
  ID : string
}.

(** [NewNumericDate]: the time truncated to [TimePrecision], a second. *)
Definition NewNumericDate (t : time.Time) : option time.Time :=
  Some (time.TruncateSecond t).

(** The [Claims] interface, as far as the validator uses it. *)
Class Claims (C : Type) := { Registered : C -> RegisteredClaims }.

(** The wire format of tokens with claims of type [C]. *)
Class Codec (C : Type) := {
  (** [Token.SigningString]: the encoded header, a dot, the encoded
      claims. *)
  SigningString : Header -> C -> string;
  (** [EncodeSegment] and [DecodeSegment]: base64url. *)
  EncodeSegment : string -> string;
  DecodeSegment : string -> option string;
  (** The decoding steps of [ParseUnverified]: split the token at its
      two dots and decode header and claims; the result carries the text
      before the second dot and the signature segment after it. *)
  decodeParts : string -> option (Header * C * string * string)
}.

(** The cryptographic primitives. *)
Class Crypto := {
  (** [hmac.New(h, key)] applied to a message. *)
  hmacSum : Hash -> string -> string -> string;
  (** Verification for the asymmetric methods. *)
  verifyAsym : SigningMethod -> Key -> string -> string -> bool
}.

Record Token (C : Type) := mkToken {
  Raw : string;
  Method : SigningMethod;
  TokenHeader : Header;
  TokenClaims : C;
  Signature : string;
  Valid : bool
}.
Arguments mkToken {C}.
Arguments Raw {C}.
Arguments Method {C}.
Arguments TokenHeader {C}.
Arguments TokenClaims {C}.
Arguments Signature {C}.
Arguments Valid {C}.

Definition error := string.

(** [Keyfunc]: from the parsed, not yet verified token to a key. *)
Definition Keyfunc (C : Type) := Token C -> Key + error.

(** The parser options the repository uses. *)
Record Options := mkOptions {
  expectedIss : string;   (* [WithIssuer], empty when not given *)
  expectedAud : string    (* [WithAudience], empty when not given *)
}.

Definition noOptions : Options := {| expectedIss := ""; expectedAud := "" |}.

Section Library.
Context {C : Type} {claimsC : Claims C} {codec : Codec C}
        {crypto : Crypto}.

(** [NewWithClaims]. *)
Definition headerOf (m : SigningMethod) : Header :=
  <["typ" := "JWT"]> (<["alg" := Alg m]> ∅).

(** [SigningMethodHMAC.Sign]; the other methods are not used to sign. *)
Definition Sign (m : SigningMethod) (text : string) (key : Key)
  : string + error :=
  match m, key with
  | SigningMethodHMAC h, Bytes k => inl (hmacSum h k text)
  | SigningMethodHMAC _, _ => inr "key is of invalid type"
  | _, _ => inr "signing method not modelled"
  end.

(** [Token.SignedString]. *)
Definition SignedString (m : SigningMethod) (claims : C) (key : Key)
  : string + error :=
  let text := SigningString (headerOf m) claims in
  match Sign m text key with
  | inl sig => inl (text +:+ "." +:+ EncodeSegment sig)
  | inr e => inr e
  end.

(** [Verify] of each method. *)
Definition Verify (m : SigningMethod) (text sig : string) (key : Key)
  : bool :=
  match m, key with
  | SigningMethodHMAC h, Bytes k => bool_decide (hmacSum h k text = sig)
  | SigningMethodHMAC _, _ => false
  | signingMethodNone, UnsafeAllowNoneSignatureType =>
      bool_decide (sig = "")
  | signingMethodNone, _ => false
  | _, _ => verifyAsym m key text sig
  end.

(** [Validator.Validate] with the default settings (no leeway, no
    check of issued-at): the list of failed checks. *)
Definition Validate (o : Options) (now : time.Time)
    (r : RegisteredClaims) : list error :=
  (match ExpiresAt r with
   | Some exp => if decide (now < exp) then [] else ["token is expired"]
   | None => []
   end) ++
  (match NotBefore r with
   | Some nbf =>
       if decide (now < nbf) then ["token is not valid yet"] else []
   | None => []
   end) ++
  (if decide (expectedAud o = "") then []
   else if decide (Audience r = []) then ["aud claim is required"]
   else if decide (String.concat "" (Audience r) = "")
        then ["aud claim is required"]
   else if decide (expectedAud o ∈ Audience r) then []
   else ["token has invalid audience"]) ++
  (if decide (expectedIss o = "") then []
   else if decide (Issuer r = "") then ["iss claim is required"]
   else if decide (Issuer r = expectedIss o) then []
   else ["token has invalid issuer"]).

(** [Parser.ParseWithClaims]. The releases of the library differ in the
    order of some of the checks, which only changes the text of the error
    when several of them fail. *)
Definition ParseWithClaims (tokenString : string) (keyFunc : Keyfunc C)
    (o : Options) (now : time.Time) : Token C + error :=
  match decodeParts tokenString with
  | None => inr "token is malformed"
  | Some (hdr, claims, text, seg) =>
      match hdr !! "alg" with
      | None => inr "token is unverifiable: signing method (alg) is unspecified"
      | Some alg =>
          match GetSigningMethod alg with
          | None => inr "token is unverifiable: signing method (alg) is unavailable"
          | Some m =>
              match DecodeSegment seg with
              | None => inr "token is malformed: could not base64 decode signature"
              | Some sig =>
                  let token := mkToken tokenString m hdr claims sig false in
                  match keyFunc token with
                  | inr e =>
                      inr ("token is unverifiable: error while executing keyfunc: " +:+ e)
                  | inl key =>
                      if Verify m text sig key then
                        match Validate o now (Registered claims) with
                        | [] => inl (mkToken tokenString m hdr claims sig true)
                        | e :: _ => inr ("token has invalid claims: " +:+ e)
                        end
                      else inr "token signature is invalid"
                  end
              end
          end
      end
  end.

End Library.

End jwt.

(** ** UTF-8 in JSON strings ([unicode/utf8], [encoding/json])

    The claims of a token travel as JSON. [json.Marshal] writes a string
    rune by rune and writes U+FFFD for every byte at which
    [utf8.DecodeRuneInString] reports an encoding error of width 1;
    [json.Unmarshal] gives back what was written. *)
Module utf8.

Definition between (lo hi : nat) (a : Ascii.ascii) : bool :=
  ((lo <=? Ascii.nat_of_ascii a) && (Ascii.nat_of_ascii a <=? hi))%nat.

(** The ranges of the bytes that must follow the first byte of a
    well-formed sequence (the tables [first] and [acceptRanges] of the
    package); [None] for a byte that cannot start one. *)
Definition following (b : Ascii.ascii) : option (list (nat * nat)) :=
  let cont := (128, 191)%nat in
  if between 0 127 b then Some []
  else if between 194 223 b then Some [cont]
  else if between 224 224 b then Some [(160, 191)%nat; cont]
  else if between 225 236 b then Some [cont; cont]
  else if between 237 237 b then Some [(128, 159)%nat; cont]
  else if between 238 239 b then Some [cont; cont]
  else if between 240 240 b then Some [(144, 191)%nat; cont; cont]
  else if between 241 243 b then Some [cont; cont; cont]
  else if between 244 244 b then Some [(128, 143)%nat; cont; cont]
  else None.

Fixpoint accepts (ranges : list (nat * nat)) (s : string) : bool :=
  match ranges, s with
  | [], _ => true
  | (lo, hi) :: ranges', String a s' => between lo hi a && accepts ranges' s'
  | _ :: _, EmptyString => false
  end.

(** [utf8.DecodeRuneInString] on [String b rest]: the width of the rune at
    the front, [None] for an encoding error (which has width 1). *)
Definition width (b : Ascii.ascii) (rest : string) : option nat :=
  match following b with
  | Some ranges =>
      if accepts ranges rest then Some (S (length ranges)) else None
  | None => None
  end.

(** [utf8.ValidString]; [skip] counts the bytes of the current rune that
    are still to be passed over. *)
Fixpoint validFrom (skip : nat) (s : string) : bool :=
  match s with
  | EmptyString => true
  | String b rest =>
      match skip with
      | S k => validFrom k rest
      | O => match width b rest with
             | Some n => validFrom (n - 1) rest
             | None => false
             end
      end
  end.

Definition ValidString (s : string) : bool := validFrom 0 s.

(** U+FFFD, encoded. *)
Definition RuneError : string :=
  String (Ascii.ascii_of_nat 239)
    (String (Ascii.ascii_of_nat 191)
       (String (Ascii.ascii_of_nat 189) EmptyString)).

(** A string after [json.Marshal] and [json.Unmarshal]. *)
Fixpoint coerceFrom (skip : nat) (s : string) : string :=
  match s with
  | EmptyString => EmptyString
  | String b rest =>
      match skip with
      | S k => String b (coerceFrom k rest)
      | O => match width b rest with
             | Some n => String b (coerceFrom (n - 1) rest)
             | None => RuneError +:+ coerceFrom 0 rest
             end
      end
  end.

Definition coerce (s : string) : string := coerceFrom 0 s.

End utf8.

(** ** HMAC ([crypto/hmac])

    [hmac.New(h, key)] over a hash function [sum] with blocks of [size]
    bytes: a key longer than a block is replaced by its hash, the key is
    copied into a block of zero bytes, and the block is combined with the
    two pads. The hash function stays a parameter. *)
Module hmac.

Definition BlockSize (h : jwt.Hash) : nat :=
  match h with
  | jwt.SHA256 => 64
  | jwt.SHA384 | jwt.SHA512 => 128
  end%nat.

Fixpoint zeros (n : nat) : string :=
  match n with
  | O => EmptyString
  | S n' => String Ascii.zero (zeros n')
  end.

(** [copy(pad, key)] into a block of zero bytes. *)
Definition block (sum : string -> string) (size : nat) (key : string)
  : string :=
  let key := if (size <? String.length key)%nat then sum key else key in
  String.substring 0 size (key +:+ zeros size).

Definition xorByte (pad a : Ascii.ascii) : Ascii.ascii :=
  match pad, a with
  | Ascii.Ascii p0 p1 p2 p3 p4 p5 p6 p7,
    Ascii.Ascii a0 a1 a2 a3 a4 a5 a6 a7 =>
      Ascii.Ascii (xorb p0 a0) (xorb p1 a1) (xorb p2 a2) (xorb p3 a3)
        (xorb p4 a4) (xorb p5 a5) (xorb p6 a6) (xorb p7 a7)
  end.

Fixpoint xorPad (pad : Ascii.ascii) (s : string) : string :=
  match s with
  | EmptyString => EmptyString
  | String a rest => String (xorByte pad a) (xorPad pad rest)
  end.

Definition ipad : Ascii.ascii := Ascii.ascii_of_nat 54.
Definition opad : Ascii.ascii := Ascii.ascii_of_nat 92.

(** [Write(text)] and [Sum(nil)] on the result of [hmac.New]. *)
Definition Sum (sum : string -> string) (size : nat) (key text : string)
  : string :=
  let k := block sum size key in
  sum (xorPad opad k +:+ sum (xorPad ipad k +:+ text)).

(** The primitives of the token library with HMAC over the hash
    functions [sum]. *)
Definition crypto (sum : jwt.Hash -> string -> string)
    (verifyAsym : jwt.SigningMethod -> jwt.Key -> string -> string -> bool)
  : jwt.Crypto :=
  {| jwt.hmacSum := fun h key text => Sum (sum h) (BlockSize h) key text;
     jwt.verifyAsym := verifyAsym |}.

End hmac.

(** ** session.go *)
Module SessionManager.

Record SessionClaims := mkSessionClaims {
  RegisteredClaims : jwt.RegisteredClaims;
  UserID : Z;
  CanvasID : string;
  CourseID : string;
  Role : string
}.

#[global] Instance SessionClaims_Claims : jwt.Claims SessionClaims :=
  {| jwt.Registered := RegisteredClaims |}.

Record t := mk {
  secret : string;
  maxAge : time.Duration
}.

(** [NewSessionManager]: [time.Duration(maxAgeSeconds) * time.Second]. *)
Definition NewSessionManager (secret : string) (maxAgeSeconds : Z) : t :=
  {| secret := secret;
     maxAge := time.wrap64 (maxAgeSeconds * time.Second) |}.

Section WithLibrary.
Context {codec : jwt.Codec SessionClaims} {crypto : jwt.Crypto}.

Definition newClaims (m : t) (userID : Z) (canvasID courseID role : string)
    (now : time.Time) : SessionClaims :=
  {| RegisteredClaims :=
       {| jwt.Issuer := ""; jwt.Subject := ""; jwt.Audience := [];
          jwt.ExpiresAt := jwt.NewNumericDate (time.Add now (maxAge m));
          jwt.NotBefore := jwt.NewNumericDate now;
          jwt.IssuedAt := jwt.NewNumericDate now;
          jwt.ID := "" |};
     UserID := userID; CanvasID := canvasID;
     CourseID := courseID; Role := role |}.

(** [CreateToken]. *)
Definition CreateToken (m : t) (userID : Z)
    (canvasID courseID role : string) (now : time.Time)
  : string + jwt.error :=
  let claims := newClaims m userID canvasID courseID role now in
  jwt.SignedString jwt.SigningMethodHS256 claims (jwt.Bytes (secret m)).

(** The key function of [ValidateToken]. *)
Definition keyFunc (m : t) : jwt.Keyfunc SessionClaims :=
  fun token =>
    match jwt.Method token with
    | jwt.SigningMethodHMAC _ => inl (jwt.Bytes (secret m))
    | _ =>
        inr ("unexpected signing method: " +:+
             default "<nil>" (jwt.TokenHeader token !! "alg"))
    end.

(** [ValidateToken]. *)
Definition ValidateToken (m : t) (tokenString : string)
    (now : time.Time) : SessionClaims + jwt.error :=
  match jwt.ParseWithClaims tokenString (keyFunc m) jwt.noOptions now with
  | inr err => inr err
  | inl token =>
      if jwt.Valid token then inl (jwt.TokenClaims token)
      else inr "invalid token"
  end.

End WithLibrary.

(** The claims after [json.Marshal] (in [SignedString]) and
    [json.Unmarshal] (in [ParseWithClaims]): the user id comes back as it
    is, the dates in whole seconds, and the strings as [utf8.coerce]
    leaves them. *)
Definition decoded (c : SessionClaims) : SessionClaims :=
  let r := RegisteredClaims c in
  {| RegisteredClaims :=
       {| jwt.Issuer := utf8.coerce (jwt.Issuer r);
          jwt.Subject := utf8.coerce (jwt.Subject r);
          jwt.Audience := map utf8.coerce (jwt.Audience r);
          jwt.ExpiresAt := time.TruncateSecond <$> jwt.ExpiresAt r;
          jwt.NotBefore := time.TruncateSecond <$> jwt.NotBefore r;
          jwt.IssuedAt := time.TruncateSecond <$> jwt.IssuedAt r;
          jwt.ID := utf8.coerce (jwt.ID r) |};
     UserID := UserID c;
     CanvasID := utf8.coerce (CanvasID c);
     CourseID := utf8.coerce (CourseID c);
     Role := utf8.coerce (Role c) |}.

End SessionManager.

(** ** The database ([gorm.io/gorm] over SQLite, as the tests run it)

    The object-relational mapper and the database engine are not part of
    the repository. The two tables the launch flow touches are modelled as
    lists of rows, with the constraints the struct tags declare: an
    auto-incremented primary key, soft deletion through [DeletedAt], and
    the unique index on the issuer of a platform (which, being an index on
    the column alone, also covers rows that are soft-deleted). Column sizes
    are not enforced. *)
Module gorm.

Inductive error :=
| ErrRecordNotFound
| ErrDuplicatedKey     (* a primary key or unique index is violated *)
| ErrInvalidDB.        (* the connection is gone *)

(** [gorm.DeletedAt]: NULL, or the time of the soft deletion. *)
Definition DeletedAt := option time.Time.

End gorm.

(** The row types: [Platform] of the platform repository and [User] of
    [models/user.go]. *)
Record Platform := mkPlatform {
  pID : Z;
  Issuer : string;
  ClientID : string;
  DeploymentID : string;
  JWKSEndpoint : string;
  AuthEndpoint : string;
  TokenEndpoint : string;
  pName : string;
  pCreatedAt : time.Time;
  pUpdatedAt : time.Time;
  pDeletedAt : gorm.DeletedAt
}.

Record User := mkUser {
  uID : Z;
  CanvasUserID : string;
  CanvasInstanceURL : string;
  DisplayName : string;
  Email : string;
  uCreatedAt : time.Time;
  uUpdatedAt : time.Time;
  uDeletedAt : gorm.DeletedAt
}.

Definition withPlatformID (id : Z) (created : time.Time) (p : Platform)
  : Platform :=
  mkPlatform id (Issuer p) (ClientID p) (DeploymentID p) (JWKSEndpoint p)
    (AuthEndpoint p) (TokenEndpoint p) (pName p) created (pUpdatedAt p)
    (pDeletedAt p).

Definition withPlatformTimes (created updated : time.Time) (p : Platform)
  : Platform :=
  mkPlatform (pID p) (Issuer p) (ClientID p) (DeploymentID p)
    (JWKSEndpoint p) (AuthEndpoint p) (TokenEndpoint p) (pName p)
    created updated (pDeletedAt p).

Definition withPlatformDeleted (d : gorm.DeletedAt) (p : Platform)
  : Platform :=
  mkPlatform (pID p) (Issuer p) (ClientID p) (DeploymentID p)
    (JWKSEndpoint p) (AuthEndpoint p) (TokenEndpoint p) (pName p)
    (pCreatedAt p) (pUpdatedAt p) d.

Record DB := mkDB {
  down : bool;                    (* the connection is gone *)
  lti_platforms : list Platform;  (* table "lti_platforms" *)
  lti_platforms_seq : Z;          (* largest id handed out so far *)
  users : list User;              (* table "users" *)
  users_seq : Z
}.

Definition setPlatforms (rows : list Platform) (seq : Z) (db : DB) : DB :=
  mkDB (down db) rows seq (users db) (users_seq db).

Definition setUsers (rows : list User) (seq : Z) (db : DB) : DB :=
  mkDB (down db) (lti_platforms db) (lti_platforms_seq db) rows seq.

(** ** The platform repository *)
Module PlatformRepository.

Definition live (p : Platform) : bool := bool_decide (pDeletedAt p = None).

(** The row with the least primary key ([ORDER BY id LIMIT 1]). *)
Definition least (rows : list Platform) : option Platform :=
  foldr (fun p acc =>
           match acc with
           | Some q => if decide (pID p <= pID q) then Some p else Some q
           | None => Some p
           end) None rows.

(** [Where(cond).First(&platform)]: soft-deleted rows are not seen. *)
Definition First (cond : Platform -> bool) (db : DB)
  : Platform + gorm.error :=
  if down db then inr gorm.ErrInvalidDB
  else match least (filter (fun p => live p && cond p = true)
                           (lti_platforms db)) with
       | Some p => inl p
       | None => inr gorm.ErrRecordNotFound
       end.

Definition maxID (rows : list Platform) : Z :=
  foldr (fun p acc => Z.max (pID p) acc) 0 rows.

Definition hasID (id : Z) (rows : list Platform) : bool :=
  existsb (fun q => bool_decide (pID q = id)) rows.

(** Whether a row other than the one with primary key [id] holds the
    issuer: the unique index. *)
Definition issuerTaken (iss : string) (id : Z) (rows : list Platform)
  : bool :=
  existsb (fun q => bool_decide (Issuer q = iss) &&
                    negb (bool_decide (pID q = id))) rows.

Definition replaceRow (row : Platform) (rows : list Platform)
  : list Platform :=
  map (fun q => if decide (pID q = pID row) then row else q) rows.

Definition stampTimes (now : time.Time) (p : Platform) : Platform :=
  withPlatformTimes
    (if time.IsZero (pCreatedAt p) then now else pCreatedAt p)
    (if time.IsZero (pUpdatedAt p) then now else pUpdatedAt p) p.

(** The result of a call that takes a [*Platform]: the database, the
    struct of the caller after the call, and the error. When the call
    fails the struct is given back as it came: the mapper fills in the
    creation and update times of the struct before it runs the statement,
    so after a failed call the struct may carry them, and this is not
    tracked. The table and the error are. *)
Definition outcome : Type := DB * Platform * option gorm.error.

(** [db.Create(platform)]: INSERT. A zero primary key is replaced by the
    next id of the sequence; creation and update times are filled in
    when zero. *)
Definition dbCreate (p : Platform) (now : time.Time) (db : DB) : outcome :=
  if down db then (db, p, Some gorm.ErrInvalidDB)
  else
    let rows := lti_platforms db in
    let id := if decide (pID p = 0)
              then Z.max (lti_platforms_seq db) (maxID rows) + 1
              else pID p in
    let row := withPlatformID id
                 (if time.IsZero (pCreatedAt p) then now else pCreatedAt p)
                 (stampTimes now p) in
    if hasID id rows then (db, p, Some gorm.ErrDuplicatedKey)
    else if issuerTaken (Issuer p) id rows
         then (db, p, Some gorm.ErrDuplicatedKey)
    else (setPlatforms (rows ++ [row])
            (Z.max (lti_platforms_seq db) id) db, row, None).

(** [db.Save(platform)]: with a zero primary key it is [Create];
    otherwise UPDATE of all columns of the live row with that key, and,
    when no row was updated, INSERT ... ON CONFLICT (id) DO UPDATE. The
    update on conflict (the key belongs to a soft-deleted row) sets every
    column but the key and [created_at], which the row keeps. *)
Definition dbSave (p : Platform) (now : time.Time) (db : DB) : outcome :=
  if down db then (db, p, Some gorm.ErrInvalidDB)
  else if decide (pID p = 0) then dbCreate p now db
  else
    let rows := lti_platforms db in
    let row := withPlatformTimes (pCreatedAt p) now p in
    if issuerTaken (Issuer p) (pID p) rows
    then (db, p, Some gorm.ErrDuplicatedKey)
    else if existsb (fun q => bool_decide (pID q = pID p) && live q) rows
    then (setPlatforms (replaceRow row rows) (lti_platforms_seq db) db,
          row, None)
    else
      let row' := stampTimes now row in
      match find (fun q => bool_decide (pID q = pID p)) rows with
      | Some old =>
          let kept :=
            withPlatformTimes (pCreatedAt old) (pUpdatedAt row') row' in
          (setPlatforms (replaceRow kept rows) (lti_platforms_seq db) db,
           row', None)
      | None =>
          (setPlatforms (rows ++ [row'])
             (Z.max (lti_platforms_seq db) (pID p)) db, row', None)
      end.

(** [Create]. *)
Definition Create (platform : Platform) (now : time.Time) (db : DB)
  : outcome := dbCreate platform now db.

(** [FindByIssuer]. *)
Definition FindByIssuer (issuer : string) (db : DB)
  : Platform + gorm.error :=
  First (fun p => bool_decide (Issuer p = issuer)) db.

(** [FindByID]. *)
Definition FindByID (id : Z) (db : DB) : Platform + gorm.error :=
  First (fun p => bool_decide (pID p = id)) db.

(** [FindByClientID]. *)
Definition FindByClientID (clientID : string) (db : DB)
  : Platform + gorm.error :=
  First (fun p => bool_decide (ClientID p = clientID)) db.

(** [Update]. *)
Definition Update (platform : Platform) (now : time.Time) (db : DB)
  : outcome := dbSave platform now db.

(** [Delete]: soft deletion of the live row with that id. *)
Definition Delete (id : Z) (now : time.Time) (db : DB)
  : DB * option gorm.error :=
  if down db then (db, Some gorm.ErrInvalidDB)
  else
    (setPlatforms
       (map (fun q => if bool_decide (pID q = id) && live q
                      then withPlatformDeleted (Some now) q else q)
            (lti_platforms db))
       (lti_platforms_seq db) db, None).

(** [List]. *)
Definition List (db : DB) : list Platform + gorm.error :=
  if down db then inr gorm.ErrInvalidDB
  else inl (filter (fun p => live p = true) (lti_platforms db)).

(** [Upsert]. *)
Definition Upsert (platform : Platform) (now : time.Time) (db : DB)
  : outcome :=
  match FindByIssuer (Issuer platform) db with
  | inl existing =>
      Update (withPlatformID (pID existing) (pCreatedAt existing) platform)
             now db
  | inr _ => Create platform now db
  end.

(** What the table guarantees: primary keys are positive and unique,
    issuers are unique. *)
Definition consistent (db : DB) : Prop :=
  NoDup (map pID (lti_platforms db)) /\
  NoDup (map Issuer (lti_platforms db)) /\
  Forall (fun q => 0 < pID q) (lti_platforms db) /\
  0 <= lti_platforms_seq db.

(** The rows registered under an issuer, soft-deleted or not. *)
Definition recordsFor (issuer : string) (db : DB) : list Platform :=
  filter (fun p => Issuer p = issuer) (lti_platforms db).

End PlatformRepository.

(** ** jwt.go *)
Module JWTValidator.

(** A JSON value of an open-ended claim ([interface{}]); only strings
    are ever read. *)
Inductive json :=
| JString (s : string)
| JNumber (z : Z)
| JOther.

(** [map[string]interface{}]; [None] is the nil map. *)
Definition object := option (gmap string json).

Record LTIClaims := mkLTIClaims {
  RegisteredClaims : jwt.RegisteredClaims;
  Name : string;
  Email : string;
  Locale : string;
  MessageType : string;
  Version : string;
  DeploymentID : string;
  TargetLinkURI : string;
  ResourceLink : object;
  Roles : list string;
  Context : object;
  LaunchPresentation : object;
  Custom : object;
  Nonce : string;
  ToolPlatform : object
}.

#[global] Instance LTIClaims_Claims : jwt.Claims LTIClaims :=
  {| jwt.Registered := RegisteredClaims |}.

Definition field (o : object) (key : string) : string :=
  match o with
  | None => ""
  | Some m => match m !! key with Some (JString s) => s | _ => "" end
  end.

(** [GetContextID] and [GetContextLabel]. *)
Definition GetContextID (c : LTIClaims) : string := field (Context c) "id".
Definition GetContextLabel (c : LTIClaims) : string :=
  field (Context c) "label".

(** [HasRole]. *)
Definition HasRole (c : LTIClaims) (role : string) : bool :=
  existsb (fun r => bool_decide (r = role)) (Roles c).

(** [IsInstructor]. *)
Definition IsInstructor (c : LTIClaims) : bool :=
  existsb (HasRole c)
    ["http://purl.imsglobal.org/vocab/lis/v2/membership#Instructor";
     "http://purl.imsglobal.org/vocab/lis/v2/institution/person#Instructor"].

(** [IsLearner]. *)
Definition IsLearner (c : LTIClaims) : bool :=
  existsb (HasRole c)
    ["http://purl.imsglobal.org/vocab/lis/v2/membership#Learner";
     "http://purl.imsglobal.org/vocab/lis/v2/institution/person#Student"].

(** A [keyfunc.Keyfunc] of the key-set library, through its
    [KeyfuncCtx]. *)
Definition Keyfunc := jwt.Keyfunc LTIClaims.

(** [keyfunc.NewDefaultCtx]: the download of the key set of a URL, with
    its ten-second timeout; a parameter, as the network is. The library
    returns an error for a URL it cannot use (one that does not parse); a
    download that fails is no error: the library then returns a key
    function over an empty key set, which finds no key for any token. *)
Class KeySets := { NewDefaultCtx : string -> Keyfunc + jwt.error }.

Record t := mk { jwksCache : gmap string Keyfunc }.

(** [NewJWTValidator]. *)
Definition NewJWTValidator : t := {| jwksCache := ∅ |}.

Section WithLibrary.
Context {codec : jwt.Codec LTIClaims} {crypto : jwt.Crypto}
        {keysets : KeySets}.

(** [getKeyfunc]. *)
Definition getKeyfunc (v : t) (jwksURL : string)
  : (Keyfunc + jwt.error) * t :=
  match jwksCache v !! jwksURL with
  | Some kf => (inl kf, v)
  | None =>
      match NewDefaultCtx jwksURL with
      | inr err => (inr err, v)
      | inl kf => (inl kf, {| jwksCache := <[jwksURL := kf]> (jwksCache v) |})
      end
  end.

(** [ValidateToken]. *)
Definition ValidateToken (v : t) (tokenString : string)
    (platform : Platform) (expectedNonce : string) (now : time.Time)
  : (LTIClaims + jwt.error) * t :=
  match getKeyfunc v (JWKSEndpoint platform) with
  | (inr err, v') => (inr ("failed to get JWKS: " +:+ err), v')
  | (inl kf, v') =>
      match jwt.ParseWithClaims tokenString kf
              {| jwt.expectedIss := Issuer platform;
                 jwt.expectedAud := ClientID platform |} now with
      | inr err => (inr ("failed to parse token: " +:+ err), v')
      | inl token =>
          let claims := jwt.TokenClaims token in
          if negb (jwt.Valid token) then (inr "invalid token claims", v')
          else if decide (Nonce claims <> expectedNonce)
               then (inr "nonce mismatch", v')
          else if decide (MessageType claims <> "LtiResourceLinkRequest"
                          /\ MessageType claims <> "LtiDeepLinkingRequest")
               then (inr ("unsupported message type: " +:+
                          MessageType claims), v')
          else (inl claims, v')
      end
  end.

End WithLibrary.

End JWTValidator.

(** ** HTTP ([net/http], [net/url] and the gin context) *)
Module http.

Definition StatusFound : Z := 302.
Definition StatusBadRequest : Z := 400.
Definition StatusUnauthorized : Z := 401.
Definition StatusInternalServerError : Z := 500.

(** [url.Values], with its [Get] and [Set]. *)
Abbreviation Values := (gmap string (list string)).

Definition GetValue (v : Values) (key : string) : string :=
  match v !! key with Some (x :: _) => x | _ => "" end.

Definition SetValue (key value : string) (v : Values) : Values :=
  <[key := [value]]> v.

(** A parsed URL: what [String] prints in front of the query, and the
    query as [Query] decodes it. [Encode] and the decoding of a query
    are inverse to each other on [Values], so a URL whose [RawQuery] was
    set to [q.Encode()] is kept as the pair of its front part and [q]. *)
Record URL := mkURL {
  Front : string;
  Query : Values
}.

(** The request, as the handlers read it: the first value of each query
    and form parameter, the first value of each header under its
    canonical name, the host, and whether the connection has a TLS
    state. *)
Record Request := mkRequest {
  URLQuery : gmap string string;
  Form : gmap string string;
  Header : gmap string string;
  Host : string;
  TLS : bool
}.

(** [c.DefaultQuery(key, def)]. *)
Definition DefaultQuery (c : Request) (key def : string) : string :=
  default def (URLQuery c !! key).

(** [c.PostForm(key)]. *)
Definition PostForm (c : Request) (key : string) : string :=
  default "" (Form c !! key).

(** [r.Header.Get(key)]. *)
Definition HeaderGet (r : Request) (key : string) : string :=
  default "" (Header r !! key).

Record Cookie := mkCookie {
  Name : string;
  Value : string;
  MaxAge : Z;
  Path : string;
  Domain : string;
  Secure : bool;
  HttpOnly : bool
}.

Inductive Location :=
| ToURL (u : URL)        (* [Redirect(code, u.String())] *)
| ToString (s : string). (* [Redirect(code, s)] *)

(** What a handler wrote: the status, the message of a
    [gin.H{"error": ...}] body, the target of a redirect, the cookies. *)
Record Response := mkResponse {
  Status : Z;
  Error : option string;
  Redirect : option Location;
  Cookies : list Cookie
}.

(** [c.JSON(status, gin.H{"error": msg})]. *)
Definition JSONError (status : Z) (msg : string) : Response :=
  {| Status := status; Error := Some msg; Redirect := None; Cookies := [] |}.

(** The library functions the handlers call and the model leaves open. *)
Class Runtime := {
  (** [url.Parse], followed by [URL.Query] on its result. *)
  Parse : string -> option URL;
  (** [url.QueryEscape], which [SetCookie] applies to the value. *)
  QueryEscape : string -> string;
  (** [base64.URLEncoding.EncodeToString]. *)
  EncodeToString : string -> string
}.

End http.

(** [GenerateState] and [GenerateNonce] of state.go: 32 bytes from
    [rand.Read] ([None] when it fails), encoded. *)
Definition GenerateState `{http.Runtime} (random : option string)
  : string + string :=
  match random with
  | None => inr "rand: read failed"
  | Some b => inl (http.EncodeToString b)
  end.

Definition GenerateNonce `{http.Runtime} (random : option string)
  : string + string :=
  match random with
  | None => inr "rand: read failed"
  | Some b => inl (http.EncodeToString b)
  end.

(** ** handler.go *)
Module Handler.

Record t := mk {
  sessionManager : SessionManager.t;
  frontendURL : string
}.

(** The mutable parts a handler reaches through its fields. *)
Record World := mkWorld {
  db : DB;
  stateStore : StateStore.t;
  jwtValidator : JWTValidator.t
}.

(** [NewHandlerWithConfig] (the database and the stores are in [World]). *)
Definition NewHandlerWithConfig (secret : string) (maxAge : Z)
    (frontendURL : string) : t :=
  {| sessionManager := SessionManager.NewSessionManager secret maxAge;
     frontendURL := frontendURL |}.

Definition NewHandler : t :=
  NewHandlerWithConfig "change-me-in-production" 86400 "/".

(** [getLaunchURL]. *)
Definition getLaunchURL (r : http.Request) : string :=
  let scheme := if http.TLS r then "https" else "http" in
  let scheme :=
    if decide (http.HeaderGet r "X-Forwarded-Proto" <> "")
    then http.HeaderGet r "X-Forwarded-Proto" else scheme in
  let host :=
    if decide (http.HeaderGet r "X-Forwarded-Host" <> "")
    then http.HeaderGet r "X-Forwarded-Host" else http.Host r in
  scheme +:+ "://" +:+ host +:+ "/lti/launch".

(** The users table: [Where(...).First], [Create] (with the
    [BeforeCreate] hook of the model) and [Save]. *)
Definition userLive (u : User) : bool := bool_decide (uDeletedAt u = None).

Definition leastUser (rows : list User) : option User :=
  foldr (fun u acc =>
           match acc with
           | Some q => if decide (uID u <= uID q) then Some u else Some q
           | None => Some u
           end) None rows.

Definition firstUser (sub iss : string) (d : DB) : User + gorm.error :=
  if down d then inr gorm.ErrInvalidDB
  else match leastUser
               (filter (fun u => userLive u = true /\ CanvasUserID u = sub
                                 /\ CanvasInstanceURL u = iss) (users d)) with
       | Some u => inl u
       | None => inr gorm.ErrRecordNotFound
       end.

Definition maxUserID (rows : list User) : Z :=
  foldr (fun u acc => Z.max (uID u) acc) 0 rows.

Definition createUser (u : User) (now : time.Time) (d : DB)
  : DB * User * option gorm.error :=
  if down d then (d, u, Some gorm.ErrInvalidDB)
  else
    let id := if decide (uID u = 0)
              then Z.max (users_seq d) (maxUserID (users d)) + 1
              else uID u in
    let row := mkUser id (CanvasUserID u) (CanvasInstanceURL u)
                 (DisplayName u) (Email u)
                 (if time.IsZero (uCreatedAt u) then now else uCreatedAt u)
                 (if time.IsZero (uUpdatedAt u) then now else uUpdatedAt u)
                 (uDeletedAt u) in
    if existsb (fun q => bool_decide (uID q = id)) (users d)
    then (d, u, Some gorm.ErrDuplicatedKey)
    else (setUsers (users d ++ [row]) (Z.max (users_seq d) id) d, row, None).

(** [h.db.Save(&user)] on a user that was just read (its key is set and
    its row is live): UPDATE of all columns, with the update time set in
    the row and in the struct. The handler drops the error. *)
Definition saveUser (u : User) (now : time.Time) (d : DB) : DB * User :=
  if down d then (d, u)
  else
    let row := mkUser (uID u) (CanvasUserID u) (CanvasInstanceURL u)
                 (DisplayName u) (Email u) (uCreatedAt u) now
                 (uDeletedAt u) in
    (setUsers
       (map (fun q => if bool_decide (uID q = uID u) && userLive q
                      then row else q) (users d))
       (users_seq d) d, row).

Definition setDisplay (name email : string) (u : User) : User :=
  mkUser (uID u) (CanvasUserID u) (CanvasInstanceURL u) name email
    (uCreatedAt u) (uUpdatedAt u) (uDeletedAt u).

(** [findOrCreateUser]. *)
Definition findOrCreateUser (claims : JWTValidator.LTIClaims)
    (platform : Platform) (now : time.Time) (d : DB)
  : (User + gorm.error) * DB :=
  let sub := jwt.Subject (JWTValidator.RegisteredClaims claims) in
  match firstUser sub (Issuer platform) d with
  | inr gorm.ErrRecordNotFound =>
      let user := mkUser 0 sub (Issuer platform)
                    (JWTValidator.Name claims) (JWTValidator.Email claims)
                    0 0 None in
      match createUser user now d with
      | (d', _, Some err) => (inr err, d')
      | (d', user', None) => (inl user', d')
      end
  | inr err => (inr err, d)
  | inl user =>
      let name :=
        if decide (JWTValidator.Name claims <> ""
                   /\ DisplayName user <> JWTValidator.Name claims)
        then Some (JWTValidator.Name claims) else None in
      let email :=
        if decide (JWTValidator.Email claims <> ""
                   /\ Email user <> JWTValidator.Email claims)
        then Some (JWTValidator.Email claims) else None in
      let user' := setDisplay (default (DisplayName user) name)
                     (default (Email user) email) user in
      if decide (name = None /\ email = None) then (inl user, d)
      else let (d', saved) := saveUser user' now d in (inl saved, d')
  end.

Section WithLibrary.
Context {runtime : http.Runtime}
        {ltiCodec : jwt.Codec JWTValidator.LTIClaims}
        {sessionCodec : jwt.Codec SessionManager.SessionClaims}
        {crypto : jwt.Crypto} {keysets : JWTValidator.KeySets}.

(** [LoginInitiation]. [random1] and [random2] are what [rand.Read]
    gives to [GenerateState] and to [GenerateNonce]. *)
Definition LoginInitiation (h : t) (c : http.Request)
    (random1 random2 : option string) (now : time.Time) (w : World)
  : http.Response * World :=
  let iss := http.DefaultQuery c "iss" (http.PostForm c "iss") in
  let loginHint :=
    http.DefaultQuery c "login_hint" (http.PostForm c "login_hint") in
  let targetLinkURI :=
    http.DefaultQuery c "target_link_uri"
      (http.PostForm c "target_link_uri") in
  let clientID :=
    http.DefaultQuery c "client_id" (http.PostForm c "client_id") in
  let ltiMessageHint :=
    http.DefaultQuery c "lti_message_hint"
      (http.PostForm c "lti_message_hint") in
  if decide (iss = "") then
    (http.JSONError http.StatusBadRequest "missing iss parameter", w)
  else if decide (loginHint = "") then
    (http.JSONError http.StatusBadRequest "missing login_hint parameter", w)
  else if decide (targetLinkURI = "") then
    (http.JSONError http.StatusBadRequest
       "missing target_link_uri parameter", w)
  else
  match PlatformRepository.FindByIssuer iss (db w) with
  | inr _ =>
      (http.JSONError http.StatusBadRequest "unknown platform issuer", w)
  | inl platform =>
  if decide (clientID <> "" /\ clientID <> ClientID platform) then
    (http.JSONError http.StatusBadRequest "client_id mismatch", w)
  else
  match GenerateState random1 with
  | inr _ =>
      (http.JSONError http.StatusInternalServerError
         "failed to generate state", w)
  | inl state =>
  match GenerateNonce random2 with
  | inr _ =>
      (http.JSONError http.StatusInternalServerError
         "failed to generate nonce", w)
  | inl nonce =>
  let (data, store1) :=
    StateStore.alloc
      (StateStore.mkStateData nonce targetLinkURI (ClientID platform) 0)
      (stateStore w) in
  let store2 := default store1 (StateStore.Store state data now store1) in
  let w' := mkWorld (db w) store2 (jwtValidator w) in
  match http.Parse (AuthEndpoint platform) with
  | None =>
      (http.JSONError http.StatusInternalServerError
         "invalid auth endpoint", w')
  | Some authURL =>
      let launchURL := getLaunchURL c in
      let q := http.Query authURL in
      let q := http.SetValue "scope" "openid" q in
      let q := http.SetValue "response_type" "id_token" q in
      let q := http.SetValue "client_id" (ClientID platform) q in
      let q := http.SetValue "redirect_uri" launchURL q in
      let q := http.SetValue "login_hint" loginHint q in
      let q := http.SetValue "state" state q in
      let q := http.SetValue "response_mode" "form_post" q in
      let q := http.SetValue "nonce" nonce q in
      let q := http.SetValue "prompt" "none" q in
      let q := if decide (ltiMessageHint <> "")
               then http.SetValue "lti_message_hint" ltiMessageHint q else q in
      ({| http.Status := http.StatusFound; http.Error := None;
          http.Redirect :=
            Some (http.ToURL (http.mkURL (http.Front authURL) q));
          http.Cookies := [] |}, w')
  end
  end
  end
  end.

(** What [Launch] did: its response ([None] when it panicked on a nil
    [StateData]), the world it leaves, and the session tokens it
    created. *)
Record Effects := mkEffects {
  response : option http.Response;
  after : World;
  minted : list string
}.

Definition respond (r : http.Response) (w : World) : Effects :=
  {| response := Some r; after := w; minted := [] |}.

(** [Launch]. *)
Definition Launch (h : t) (c : http.Request) (now : time.Time)
    (w : World) : Effects :=
  let idToken := http.PostForm c "id_token" in
  let state := http.PostForm c "state" in
  if decide (idToken = "") then
    respond (http.JSONError http.StatusBadRequest "missing id_token") w
  else if decide (state = "") then
    respond (http.JSONError http.StatusBadRequest "missing state") w
  else
  match StateStore.Get state (stateStore w) with
  | (None, _) =>
      respond (http.JSONError http.StatusBadRequest
                 "invalid or expired state") w
  | (Some data, store1) =>
  let w1 := mkWorld (db w) store1 (jwtValidator w) in
  match StateStore.deref store1 data with
  | None => {| response := None; after := w1; minted := [] |}
  | Some stateData =>
  match PlatformRepository.FindByClientID
          (StateStore.ClientID stateData) (db w) with
  | inr _ =>
      respond (http.JSONError http.StatusBadRequest "platform not found") w1
  | inl platform =>
  match JWTValidator.ValidateToken (jwtValidator w) idToken platform
          (StateStore.Nonce stateData) now with
  | (inr err, v') =>
      respond (http.JSONError http.StatusUnauthorized
                 ("token validation failed: " +:+ err))
              (mkWorld (db w) store1 v')
  | (inl claims, v') =>
  match findOrCreateUser claims platform now (db w) with
  | (inr _, d') =>
      respond (http.JSONError http.StatusInternalServerError
                 "failed to process user")
              (mkWorld d' store1 v')
  | (inl user, d') =>
  let w2 := mkWorld d' store1 v' in
  let role := if JWTValidator.IsInstructor claims
              then "instructor" else "learner" in
  match SessionManager.CreateToken (sessionManager h) (uID user)
          (jwt.Subject (JWTValidator.RegisteredClaims claims))
          (JWTValidator.GetContextID claims) role now with
  | inr _ =>
      respond (http.JSONError http.StatusInternalServerError
                 "failed to create session") w2
  | inl sessionToken =>
      let cookie :=
        {| http.Name := "session";
           http.Value := http.QueryEscape sessionToken;
           http.MaxAge :=
             float64.toInt
               (time.Seconds (SessionManager.maxAge (sessionManager h)));
           http.Path := "/";
           http.Domain := "";
           http.Secure := http.TLS c;
           http.HttpOnly := true |} in
      let redirectURL :=
        if decide (StateStore.TargetLinkURI stateData <> "")
        then StateStore.TargetLinkURI stateData else frontendURL h in
      {| response :=
           Some {| http.Status := http.StatusFound; http.Error := None;
                   http.Redirect := Some (http.ToString redirectURL);
                   http.Cookies := [cookie] |};
         after := w2;
         minted := [sessionToken] |}
  end
  end
  end
  end
  end
  end.




End WithLibrary.

End Handler.

(** ** The authentication middleware ([internal/middleware/auth.go])

    The handlers of a gin chain are written with [c.Next] as an argument:
    every middleware of the file either aborts and returns, which ends the
    chain, or calls [c.Next()] as its last statement, which runs the
    handlers after it. *)
Module Middleware.

Definition StatusForbidden : Z := 403.

Definition ContextKeyUserID : string := "user_id".
Definition ContextKeyCanvasID : string := "canvas_id".
Definition ContextKeyCourseID : string := "course_id".
Definition ContextKeyRole : string := "role".
Definition ContextKeyClaims : string := "session_claims".

(** A value kept in the context ([any]), with its dynamic type: [uint],
    [string] or [*lti.SessionClaims]. *)
Inductive any :=
| Uint (n : Z)
| Str (s : string)
| Claims (c : SessionManager.SessionClaims).

(** The part of [gin.Context] the middleware works on: the request, the
    cookies [net/http] reads from it (the first one of each name, with its
    value as it was sent), the keys of [c.Set], and the response of
    [AbortWithStatusJSON] once the chain was aborted. *)
Record Context := mkContext {
  Request : http.Request;
  RequestCookies : gmap string string;
  Keys : gmap string any;
  Aborted : option http.Response
}.

Definition HandlerFunc : Type := (Context -> Context) -> Context -> Context.

(** The handlers of a route, run from the first. *)
Fixpoint chain (hs : list HandlerFunc) (c : Context) : Context :=
  match hs with
  | [] => c
  | h :: rest => h (chain rest) c
  end.

(** [c.AbortWithStatusJSON(status, gin.H{"error": msg})]. *)
Definition AbortWithStatusJSON (status : Z) (msg : string) (c : Context)
  : Context :=
  {| Request := Request c; RequestCookies := RequestCookies c;
     Keys := Keys c; Aborted := Some (http.JSONError status msg) |}.

(** [c.Set(key, value)] and [c.Get(key)]. *)
Definition SetKey (key : string) (value : any) (c : Context) : Context :=
  {| Request := Request c; RequestCookies := RequestCookies c;
     Keys := <[key := value]> (Keys c); Aborted := Aborted c |}.

Definition Get (c : Context) (key : string) : option any := Keys c !! key.

(** [url.QueryUnescape], [None] when it fails. *)
Class Unescape := {
  QueryUnescape : string -> option string
}.

(** [c.Cookie(name)]: an error when the request has no such cookie;
    otherwise the unescaped value, the error of the unescaping dropped
    (the value is then empty). *)
Definition Cookie {unescape : Unescape} (c : Context) (name : string)
  : option string :=
  match RequestCookies c !! name with
  | None => None
  | Some v => Some (default "" (QueryUnescape v))
  end.

(** [strings.SplitN(s, " ", 2)]: [s] cut at its first space, if it has
    one. *)
Fixpoint cut (s : string) : option (string * string) :=
  match s with
  | EmptyString => None
  | String a rest =>
      if Ascii.eqb a (Ascii.ascii_of_nat 32) then Some (EmptyString, rest)
      else match cut rest with
           | Some (x, y) => Some (String a x, y)
           | None => None
           end
  end.

Definition SplitN2 (s : string) : list string :=
  match cut s with
  | Some (x, y) => [x; y]
  | None => [s]
  end.

(** [strings.EqualFold] against a word of ASCII letters other than k and
    s, where Unicode case folding relates an ASCII letter only to the
    ASCII letter of the other case: the bytes are compared with the
    upper-case letters mapped to lower case. *)
Definition lower (a : Ascii.ascii) : Ascii.ascii :=
  let n := Ascii.nat_of_ascii a in
  if ((65 <=? n) && (n <=? 90))%nat then Ascii.ascii_of_nat (n + 32) else a.

Fixpoint lowerString (s : string) : string :=
  match s with
  | EmptyString => EmptyString
  | String a rest => String (lower a) (lowerString rest)
  end.

Definition EqualFold (s t : string) : bool :=
  String.eqb (lowerString s) (lowerString t).

(** [extractToken]. *)
Definition extractToken {unescape : Unescape} (c : Context) : string :=
  let fromHeader :=
    let authHeader := http.HeaderGet (Request c) "Authorization" in
    if decide (authHeader = "") then ""
    else match SplitN2 authHeader with
         | [scheme; token] =>
             if EqualFold scheme "Bearer" then token else authHeader
         | _ => authHeader
         end in
  match Cookie c "session" with
  | Some token => if decide (token <> "") then token else fromHeader
  | None => fromHeader
  end.

(** The five [c.Set] calls of the two authentication middlewares. *)
Definition setClaims (claims : SessionManager.SessionClaims) (c : Context)
  : Context :=
  SetKey ContextKeyClaims (Claims claims)
    (SetKey ContextKeyRole (Str (SessionManager.Role claims))
       (SetKey ContextKeyCourseID (Str (SessionManager.CourseID claims))
          (SetKey ContextKeyCanvasID (Str (SessionManager.CanvasID claims))
             (SetKey ContextKeyUserID (Uint (SessionManager.UserID claims))
                c)))).

Section WithLibrary.
Context {codec : jwt.Codec SessionManager.SessionClaims}
        {crypto : jwt.Crypto} {unescape : Unescape}.

(** [AuthMiddleware]; [now] is the time of its call of [ValidateToken]. *)
Definition AuthMiddleware (sessionManager : SessionManager.t)
    (now : time.Time) : HandlerFunc :=
  fun next c =>
    let token := extractToken c in
    if decide (token = "") then
      AbortWithStatusJSON http.StatusUnauthorized
        "missing or invalid authorization" c
    else
      match SessionManager.ValidateToken sessionManager token now with
      | inr _ =>
          AbortWithStatusJSON http.StatusUnauthorized
            "invalid or expired session" c
      | inl claims => next (setClaims claims c)
      end.

(** [OptionalAuthMiddleware]. *)
Definition OptionalAuthMiddleware (sessionManager : SessionManager.t)
    (now : time.Time) : HandlerFunc :=
  fun next c =>
    let token := extractToken c in
    if decide (token = "") then next c
    else
      match SessionManager.ValidateToken sessionManager token now with
      | inr _ => next c
      | inl claims => next (setClaims claims c)
      end.

End WithLibrary.

(** [RequireRole]. *)
Definition RequireRole (requiredRole : string) : HandlerFunc :=
  fun next c =>
    match Get c ContextKeyRole with
    | None =>
        AbortWithStatusJSON http.StatusUnauthorized
          "authentication required" c
    | Some role =>
        match role with
        | Str roleStr =>
            if decide (roleStr <> requiredRole) then
              AbortWithStatusJSON StatusForbidden
                "insufficient permissions" c
            else next c
        | _ =>
            AbortWithStatusJSON StatusForbidden "insufficient permissions" c
        end
    end.

(** [RequireInstructor]. *)
Definition RequireInstructor : HandlerFunc := RequireRole "instructor".

(** [GetUserID], [GetCanvasID], [GetCourseID], [GetRole] and
    [GetSessionClaims]: the value and whether it was there with the
    expected type. *)
Definition GetUserID (c : Context) : Z * bool :=
  match Get c ContextKeyUserID with
  | Some (Uint userID) => (userID, true)
  | _ => (0, false)
  end.

Definition GetCanvasID (c : Context) : string * bool :=
  match Get c ContextKeyCanvasID with
  | Some (Str canvasID) => (canvasID, true)
  | _ => ("", false)
  end.

Definition GetCourseID (c : Context) : string * bool :=
  match Get c ContextKeyCourseID with
  | Some (Str courseID) => (courseID, true)
  | _ => ("", false)
  end.

Definition GetRole (c : Context) : string * bool :=
  match Get c ContextKeyRole with
  | Some (Str role) => (role, true)
  | _ => ("", false)
  end.

Definition GetSessionClaims (c : Context)
  : option SessionManager.SessionClaims * bool :=
  match Get c ContextKeyClaims with
  | Some (Claims claims) => (Some claims, true)
  | _ => (None, false)
  end.

(** [IsAuthenticated], [IsInstructor] and [IsLearner]. *)
Definition IsAuthenticated (c : Context) : bool :=
  bool_decide (is_Some (Get c ContextKeyUserID)).

Definition IsInstructor (c : Context) : bool :=
  let (role, ok) := GetRole c in ok && bool_decide (role = "instructor").

Definition IsLearner (c : Context) : bool :=
  let (role, ok) := GetRole c in ok && bool_decide (role = "learner").

End Middleware.

(** Instances of the state store used to exercise the properties. *)
Module StateStoreDemo.
Import StateStore.

Definition sec (n : Z) : time.Time := n * time.Second.

Definition demo_data : StateData :=
  mkStateData "nonce-1" "https://app.example/start" "client-123" 0.

(** One entry, stored at 5ns. *)
Definition demo_store : t :=
  run [New demo_data; CallStore "st-1" 1%positive 5] (NewStateStore ∅).

(** A store created at time 0 whose sweep ticks every minute: an entry
    stored 30s in, then the ticks of minutes 1 to 10. *)
Definition minute_ticks : list call :=
  map (fun n => Tick (sec (60 * n))) [1; 2; 3; 4; 5; 6; 7; 8; 9; 10].

Definition swept_store : t :=
  run ([New demo_data; CallStore "st-1" 1%positive (sec 30)]
         ++ minute_ticks)
      (NewStateStore ∅).

(** One object stored under two states, at 10ns and at 20ns. *)
Definition shared_calls : list call :=
  [New demo_data; CallStore "a" 1%positive 10; CallStore "b" 1%positive 20].

(** Two objects, each stored once. *)
Definition fresh_calls : list call :=
  [New demo_data; CallStore "a" 1%positive 10;
   New demo_data; CallStore "b" 2%positive 20].

(** An object stored ten minutes in, whose [CreatedAt] the caller then
    sets back to time 0 through the pointer it kept. *)
Definition backdated_calls : list call :=
  [New demo_data; CallStore "a" 1%positive (sec 600);
   Assign 1%positive (setCreatedAt 0 demo_data)].

End StateStoreDemo.

(** A small instance of the library parameters, used to exercise the
    properties of the session manager: the signing text is a three-letter
    tag, segments are not encoded, and the message authentication code is
    the key written in front of the message. *)
Module SessionDemo.
Import SessionManager.

Definition manager : t := NewSessionManager "test-secret-key-12345" 3600.
Definition other : t := NewSessionManager "secret-2" 3600.

Definition issued : time.Time := 1700000000 * time.Second + 250.

Definition claims : SessionClaims :=
  newClaims manager 123 "canvas-user-1" "course-456" "instructor" issued.

(** The same claims under a header that names an asymmetric method. *)
Definition rsHeader : jwt.Header :=
  jwt.headerOf (jwt.SigningMethodRSA jwt.SHA256).

Definition decode (s : string)
  : option (jwt.Header * SessionClaims * string * string) :=
  let text := String.substring 0 3 s in
  let seg := String.substring 4 (String.length s - 4) s in
  if decide (String.substring 3 1 s = ".") then
    if decide (text = "H.C") then
      Some (jwt.headerOf jwt.SigningMethodHS256, claims, text, seg)
    else if decide (text = "R.C") then Some (rsHeader, claims, text, seg)
    else None
  else None.

Definition codec : jwt.Codec SessionClaims :=
  {| jwt.SigningString := fun h _ =>
       if decide (h = rsHeader) then "R.C" else "H.C";
     jwt.EncodeSegment := fun s => s;
     jwt.DecodeSegment := fun s => Some s;
     jwt.decodeParts := decode |}.

Definition crypto : jwt.Crypto :=
  {| jwt.hmacSum := fun h k text => jwt.bits h +:+ k +:+ "/" +:+ text;
     jwt.verifyAsym := fun _ _ _ _ => true |}.

Definition token : string := "H.C.256test-secret-key-12345/H.C".
Definition rsToken : string := "R.C.sig".

(** Two managers whose secrets differ in a trailing zero byte. *)
Definition short : t := NewSessionManager "k" 3600.
Definition padded : t :=
  NewSessionManager ("k" +:+ String Ascii.zero EmptyString) 3600.

(** A Canvas id that is not valid UTF-8 (the single byte 0xFF), the claims
    [CreateToken] makes with it, and a wire format in which the token of
    given claims decodes to these claims as JSON gives them back. *)
Definition invalid : string := String (Ascii.ascii_of_nat 255) EmptyString.

Definition invalidClaims : SessionClaims :=
  newClaims manager 123 invalid "course-456" "instructor" issued.

Definition afterTag (s : string) : option string :=
  match s with
  | String a (String b (String c (String d rest))) =>
      if decide (String a (String b (String c (String d EmptyString)))
                 = "H.C.")
      then Some rest else None
  | _ => None
  end.

Definition jsonCodec (c : SessionClaims) : jwt.Codec SessionClaims :=
  {| jwt.SigningString := fun _ _ => "H.C";
     jwt.EncodeSegment := fun s => s;
     jwt.DecodeSegment := fun s => Some s;
     jwt.decodeParts := fun s =>
       match afterTag s with
       | Some seg =>
           Some (jwt.headerOf jwt.SigningMethodHS256, decoded c, "H.C", seg)
       | None => None
       end |}.

End SessionDemo.

(** A registered platform, a small instance of the library parameters and
    the requests of one login and launch, used to exercise the properties
    of the validator and of the handlers. *)
Module LaunchDemo.

Definition t0 : time.Time := 1700000000 * time.Second.

Definition canvas : Platform :=
  mkPlatform 0 "https://canvas.example.com" "client-123" ""
    "https://canvas.example.com/.well-known/jwks"
    "https://canvas.example.com/api/lti/authorize" "" "Canvas" 0 0 None.

(** The same platform, registered with an authorization endpoint that
    ends in a line feed, and with one that has a query of its own. *)
Definition lf : string := String (Ascii.ascii_of_nat 10) "".

Definition canvasBadEndpoint : Platform :=
  mkPlatform 0 "https://canvas.example.com" "client-123" ""
    "https://canvas.example.com/.well-known/jwks"
    ("https://canvas.example.com/api/lti/authorize" +:+ lf)
    "" "Canvas" 0 0 None.

Definition canvasQueryEndpoint : Platform :=
  mkPlatform 0 "https://canvas.example.com" "client-123" ""
    "https://canvas.example.com/.well-known/jwks"
    "https://canvas.example.com/api/lti/authorize?lti_message_hint=kept"
    "" "Canvas" 0 0 None.

Definition emptyDB : DB := mkDB false [] 0 [] 0.

Definition register (p : Platform) : DB :=
  (PlatformRepository.Create p t0 emptyDB).1.1.

Definition world (p : Platform) : Handler.World :=
  Handler.mkWorld (register p) (StateStore.NewStateStore ∅)
    JWTValidator.NewJWTValidator.

(** [url.Parse] on the addresses of this module: an address with a
    control character is refused, the query of the third endpoint is
    split off, any other address has no query. *)
Definition hasCTL (s : string) : bool :=
  existsb (fun a => (Ascii.nat_of_ascii a <? 32)%nat ||
                    (Ascii.nat_of_ascii a =? 127)%nat)
          (String.list_ascii_of_string s).

Definition parse (s : string) : option http.URL :=
  if hasCTL s then None
  else if decide (s = AuthEndpoint canvasQueryEndpoint)
  then Some (http.mkURL "https://canvas.example.com/api/lti/authorize"
               {["lti_message_hint" := ["kept"]]})
  else Some (http.mkURL s ∅).

Definition runtime : http.Runtime :=
  {| http.Parse := parse;
     http.QueryEscape := fun s => s;
     http.EncodeToString := fun s => s |}.

Definition instructor : string :=
  "http://purl.imsglobal.org/vocab/lis/v2/membership#Instructor".

Definition idClaims (nonce : string) : JWTValidator.LTIClaims :=
  JWTValidator.mkLTIClaims
    (jwt.mkRegistered "https://canvas.example.com" "user-42" ["client-123"]
       (Some (t0 + 3600 * time.Second)) None (Some t0) "")
    "Ada" "ada@example.com" "" "LtiResourceLinkRequest" "1.3.0" "" ""
    None [instructor] (Some {["id" := JWTValidator.JString "course-9"]})
    None None nonce None.

Definition rs256 : jwt.Header :=
  jwt.headerOf (jwt.SigningMethodRSA jwt.SHA256).

(** Two identity tokens: one carrying the nonce of the login below, one
    carrying the nonce of an earlier login. *)
Definition ltiDecode (s : string)
  : option (jwt.Header * JWTValidator.LTIClaims * string * string) :=
  if decide (s = "id.fresh.sig")
  then Some (rs256, idClaims "nonce-b2", "id.fresh", "sig")
  else if decide (s = "id.stale.sig")
  then Some (rs256, idClaims "nonce-old", "id.stale", "sig")
  else None.

Definition ltiCodec : jwt.Codec JWTValidator.LTIClaims :=
  {| jwt.SigningString := fun _ _ => "id.fresh";
     jwt.EncodeSegment := fun s => s;
     jwt.DecodeSegment := fun s => Some s;
     jwt.decodeParts := ltiDecode |}.

Definition crypto : jwt.Crypto :=
  {| jwt.hmacSum := fun h k text => jwt.bits h +:+ k +:+ "/" +:+ text;
     jwt.verifyAsym := fun _ key _ sig =>
       bool_decide (key = jwt.PublicKey "canvas-key" /\ sig = "sig") |}.

Definition keysets : JWTValidator.KeySets :=
  {| JWTValidator.NewDefaultCtx := fun url =>
       if decide (url = JWKSEndpoint canvas)
       then inl (fun _ => inl (jwt.PublicKey "canvas-key"))
       else inl (fun _ => inr "key not found") |}.

Definition handler : Handler.t := Handler.NewHandler.

(** The login request of the specification's scenario. *)
Definition loginRequest : http.Request :=
  http.mkRequest
    (list_to_map [("iss", "https://canvas.example.com");
                  ("login_hint", "user123");
                  ("target_link_uri", "https://app.com/launch")])
    ∅ ∅ "localhost:8080" false.

Definition login (p : Platform) : http.Response * Handler.World :=
  Handler.LoginInitiation (runtime := runtime) handler loginRequest
    (Some "state-b1") (Some "nonce-b2") t0 (world p).

(** The launch that answers it, over plain HTTP behind a proxy that
    terminates TLS. *)
Definition launchRequest (idToken : string) : http.Request :=
  http.mkRequest ∅
    (list_to_map [("id_token", idToken); ("state", "state-b1")])
    {["X-Forwarded-Proto" := "https"]} "localhost:8080" false.

Definition launch (idToken : string) : Handler.Effects :=
  Handler.Launch (runtime := runtime) (ltiCodec := ltiCodec)
    (sessionCodec := SessionDemo.codec) (crypto := crypto)
    (keysets := keysets) handler (launchRequest idToken)
    (t0 + 5 * time.Second) (login canvas).2.

(** The database once the user of [idClaims] has launched, and the claims
    of a later launch of the same user under a new name and without an
    email address. *)
Definition enrolled : DB :=
  (Handler.findOrCreateUser (idClaims "nonce-b2") canvas t0
     (register canvas)).2.

Definition renamed : JWTValidator.LTIClaims :=
  JWTValidator.mkLTIClaims
    (jwt.mkRegistered "https://canvas.example.com" "user-42" ["client-123"]
       (Some (t0 + 7200 * time.Second)) None (Some t0) "")
    "Ada Lovelace" "" "" "LtiResourceLinkRequest" "1.3.0" "" ""
    None [instructor] None None None "nonce-c3" None.

End LaunchDemo.

(** A registry in which a platform was registered and then deleted. *)
Module RegistryDemo.

Definition registered : DB :=
  (PlatformRepository.Create LaunchDemo.canvas LaunchDemo.t0
     LaunchDemo.emptyDB).1.1.

Definition deleted : DB :=
  (PlatformRepository.Delete 1 (LaunchDemo.t0 + 1) registered).1.

(** The platform again, with a new client id. *)
Definition again : Platform :=
  mkPlatform 0 "https://canvas.example.com" "client-456" ""
    "https://canvas.example.com/.well-known/jwks"
    "https://canvas.example.com/api/lti/authorize" "" "Updated" 0 0 None.

End RegistryDemo.

(** Further instances for the properties of the validator: a key set that
    does not know the key of the token, and a platform whose key set cannot
    be downloaded. *)
Module ValidatorDemo.

(** Every key set holds keys of others only. *)
Definition strangerKeys : JWTValidator.KeySets :=
  {| JWTValidator.NewDefaultCtx := fun _ =>
       inl (fun _ => inr "key not found") |}.

(** No platform is reachable: every download fails, and the library
    hands out a key function over an empty key set. *)
Definition offline : JWTValidator.KeySets :=
  {| JWTValidator.NewDefaultCtx := fun _ =>
       inl (fun _ => inr "key not found") |}.

(** No URL is accepted by the library. *)
Definition malformed : JWTValidator.KeySets :=
  {| JWTValidator.NewDefaultCtx := fun _ =>
       inr "failed to parse given URL" |}.

(** The validator after it has validated a token of the platform once. *)
Definition warm : JWTValidator.t :=
  (JWTValidator.ValidateToken (codec := LaunchDemo.ltiCodec)
     (crypto := LaunchDemo.crypto) (keysets := LaunchDemo.keysets)
     JWTValidator.NewJWTValidator "id.fresh.sig"
     (withPlatformID 1 LaunchDemo.t0 LaunchDemo.canvas) "nonce-b2"
     LaunchDemo.t0).2.

End ValidatorDemo.

(** Requests with a session cookie or an Authorization header, for the
    middleware. Unescaping fails on a percent sign and leaves any other
    value as it is. *)
Module MiddlewareDemo.

Definition unescape : Middleware.Unescape :=
  {| Middleware.QueryUnescape := fun s =>
       if existsb (fun a => Ascii.eqb a (Ascii.ascii_of_nat 37))
            (String.list_ascii_of_string s)
       then None else Some s |}.

Definition withCookie (value header : string) : Middleware.Context :=
  Middleware.mkContext
    (http.mkRequest ∅ ∅ {["Authorization" := header]} "localhost:8080" false)
    {["session" := value]} ∅ None.

Definition withHeader (header : string) : Middleware.Context :=
  Middleware.mkContext
    (http.mkRequest ∅ ∅ {["Authorization" := header]} "localhost:8080" false)
    ∅ ∅ None.

Definition anonymous : Middleware.Context :=
  Middleware.mkContext (http.mkRequest ∅ ∅ ∅ "localhost:8080" false)
    ∅ ∅ None.

(** A moment within the life of [SessionDemo.token]. *)
Definition during : time.Time := SessionDemo.issued + 60 * time.Second.

End MiddlewareDemo.

(* ================================================================== *)
(** * Properties *)

Section StateStoreFacts.
Import StateStore.

Lemma Get_found state s p :
  states s !! state = Some p ->
  Get state s = (Some p, mk (heap s) (delete state (states s))).
Proof. intros H. unfold Get. by rewrite H. Qed.

Lemma Get_absent state s :
  states s !! state = None -> Get state s = (None, s).
Proof. intros H. unfold Get. by rewrite H. Qed.

Lemma step_keeps_absent state c s :
  ~ stores state c ->
  states s !! state = None ->
  states (step c s) !! state = None.
Proof.
  intros Hc Hs. destruct c as [k p now|k|k|now|d|p d]; simpl in *.
  - unfold Store. destruct (heap s !! p); simpl; [|done].
    rewrite lookup_insert_ne; [done|]. intros ->. by apply Hc.
  - unfold Get. destruct (states s !! k) eqn:E; simpl; [|done].
    destruct (decide (k = state)) as [->|Hne].
    + by rewrite lookup_delete_eq.
    + by rewrite lookup_delete_ne.
  - done.
  - apply map_lookup_filter_None. by left.
  - done.
  - by destruct (heap s !! p).
Qed.

Lemma run_keeps_absent state cs : forall s,
  Forall (fun c => ~ stores state c) cs ->
  states s !! state = None ->
  states (run cs s) !! state = None.
Proof.
  induction cs as [|c cs IH]; intros s Hcs Hs; [done|].
  inversion Hcs; subst. simpl. apply IH; [done|].
  by apply step_keeps_absent.
Qed.

End StateStoreFacts.

(** C1: a successful [Get] on a stored state returns the stored pointer
    (hence the stored data, which lives in the heap [Get] leaves alone) and
    removes the entry; after it, and after any further calls none of which
    stores that state again, [Get] returns not-found. In particular the
    second of two [Get]s in a row fails. *)
Theorem C1_get_consumes_state (state : string) (s : StateStore.t)
    (p : StateStore.ptr) (d : StateStore.StateData) :
  StateStore.states s !! state = Some p ->
  StateStore.heap s !! p = Some d ->
  let r := StateStore.Get state s in
  r.1 = Some p /\
  StateStore.deref r.2 p = Some d /\
  StateStore.states r.2 !! state = None /\
  (StateStore.Get state r.2).1 = None /\
  forall cs : list StateStore.call,
    Forall (fun c => ~ StateStore.stores state c) cs ->
    (StateStore.Get state (StateStore.run cs r.2)).1 = None.
Proof.
  intros Hs Hd r. subst r. rewrite (Get_found _ _ _ Hs). simpl.
  assert (Hgone : delete state (StateStore.states s) !! state = None)
    by apply lookup_delete_eq.
  repeat split; try done.
  - unfold StateStore.Get. simpl. by rewrite Hgone.
  - intros cs Hcs.
    rewrite Get_absent; [done|].
    by apply run_keeps_absent.
Qed.

Lemma C1_get_consumes_state_witness :
  (StateStore.Get "st-1"
     (StateStore.Get "st-1" StateStoreDemo.demo_store).2).1 = None.
Proof.
  refine (proj1 (proj2 (proj2 (proj2
    (C1_get_consumes_state "st-1" StateStoreDemo.demo_store 1%positive
       (StateStore.setCreatedAt 5 StateStoreDemo.demo_data) _ _))))); vm_compute; reflexivity.
Defined.

Section SweepFacts.
Import StateStore.

Lemma cleanup_lookup now s state :
  states (cleanup now s) !! state =
  match states s !! state with
  | Some p => if expired now (heap s) p then None else Some p
  | None => None
  end.
Proof.
  unfold cleanup. simpl.
  destruct (states s !! state) as [p|] eqn:E.
  - destruct (expired now (heap s) p) eqn:Ex.
    + apply map_lookup_filter_None. right. intros x Hx. simpl.
      rewrite E in Hx. injection Hx as <-. by rewrite Ex.
    + apply map_lookup_filter_Some. by split.
  - apply map_lookup_filter_None. by left.
Qed.

End SweepFacts.

(** C3, as stated, fails: [Get] does not look at [CreatedAt]. A store whose
    sweep has ticked every minute up to minute 10 still holds the entry
    stored at 0:30; at 10:40 that entry is 610s old, more than the TTL, and
    [Get] returns it. *)
Lemma C3_counterexample :
  let s := StateStoreDemo.swept_store in
  let now := StateStoreDemo.sec 640 in
  exists d,
    StateStore.states s !! "st-1" = Some 1%positive /\
    StateStore.heap s !! 1%positive = Some d /\
    StateStore.ttl < time.Sub now (StateStore.CreatedAt d) /\
    (StateStore.Get "st-1" s).1 = Some 1%positive.
Proof.
  exists (StateStore.setCreatedAt (StateStoreDemo.sec 30)
            StateStoreDemo.demo_data).
  vm_compute. repeat split; reflexivity.
Qed.

(** C3, amended: expiry is the work of the periodic sweep. An entry whose
    creation timestamp is more than the 10-minute TTL in the past when the
    sweep runs is removed by it, never consumed or not, and from then on
    [Get] on its state returns not-found (until the state is stored again);
    an entry that is not older than the TTL survives the sweep. *)
Theorem C3_sweep_expires_state (state : string) (s : StateStore.t)
    (p : StateStore.ptr) (d : StateStore.StateData) (now : time.Time) :
  StateStore.states s !! state = Some p ->
  StateStore.heap s !! p = Some d ->
  let s' := StateStore.cleanup now s in
  (StateStore.ttl < time.Sub now (StateStore.CreatedAt d) ->
     (StateStore.Get state s').1 = None /\
     forall cs : list StateStore.call,
       Forall (fun c => ~ StateStore.stores state c) cs ->
       (StateStore.Get state (StateStore.run cs s')).1 = None) /\
  (time.Sub now (StateStore.CreatedAt d) <= StateStore.ttl ->
     (StateStore.Get state s').1 = Some p /\
     StateStore.deref s' p = Some d).
Proof.
  intros Hs Hd s'.
  assert (Hl := cleanup_lookup now s state). rewrite Hs in Hl.
  unfold StateStore.expired in Hl. rewrite Hd in Hl.
  split; intros Hage.
  - rewrite bool_decide_eq_true_2 in Hl by done.
    split.
    + by rewrite Get_absent.
    + intros cs Hcs. rewrite Get_absent; [done|].
      by apply run_keeps_absent.
  - rewrite bool_decide_eq_false_2 in Hl by lia.
    split.
    + subst s'. by rewrite (Get_found _ _ _ Hl).
    + done.
Qed.

Lemma C3_sweep_expires_state_witness :
  (StateStore.Get "st-1"
     (StateStore.cleanup (StateStoreDemo.sec 660)
        StateStoreDemo.swept_store)).1 = None.
Proof.
  refine (proj1 (proj1
    (C3_sweep_expires_state "st-1" StateStoreDemo.swept_store 1%positive
       (StateStore.setCreatedAt (StateStoreDemo.sec 30)
          StateStoreDemo.demo_data)
       (StateStoreDemo.sec 660) _ _) _)); vm_compute; reflexivity.
Defined.

Section CreatedAtFacts.
Import StateStore.

Lemma later_clock s g g' :
  byState g' = byState g -> byPtr g' = byPtr g -> clock g <= clock g' ->
  stamped (s, g) -> stamped (s, g').
Proof.
  intros Hs Hp Hc I k p Hk. destruct (I k p Hk) as (d & ti & tp & ?).
  exists d, ti, tp. simpl in *. rewrite Hs, Hp. intuition lia.
Qed.

Lemma fewer_states s s' g :
  heap s' = heap s ->
  (forall k p, states s' !! k = Some p -> states s !! k = Some p) ->
  stamped (s, g) -> stamped (s', g).
Proof.
  intros Hh Hsub I k p Hk. simpl in *. rewrite Hh. by apply I, Hsub.
Qed.

Lemma cleanup_sub now s k p :
  states (cleanup now s) !! k = Some p -> states s !! k = Some p.
Proof.
  rewrite cleanup_lookup. destruct (states s !! k); [|done].
  by destruct (expired _ _ _).
Qed.

Lemma Get_sub state s k p :
  states (Get state s).2 !! k = Some p -> states s !! k = Some p.
Proof.
  unfold Get. destruct (states s !! state) eqn:E; simpl; [|done].
  intros H. apply lookup_delete_Some in H. tauto.
Qed.

Lemma Get_heap state s : heap (Get state s).2 = heap s.
Proof. unfold Get. by destruct (states s !! state). Qed.

Lemma step_stamped c s g :
  match c with
  | CallStore _ _ now | Tick now => clock g <= now
  | Assign data _ => forall k, states s !! k <> Some data
  | _ => True
  end ->
  stamped (s, g) -> stamped (step c s, track c s g).
Proof.
  intros Hc I. destruct c as [k0 p0 now|k0|k0|now|d0|p0 d0]; simpl.
  - unfold Store. destruct (heap s !! p0) as [d0|] eqn:Hp0; simpl.
    + intros k p Hk. simpl in *.
      destruct (decide (k = k0)) as [->|Hne].
      * rewrite lookup_insert_eq in Hk. injection Hk as <-.
        exists (setCreatedAt now d0), now, now.
        rewrite !lookup_insert_eq. simpl. repeat split; try done; lia.
      * rewrite lookup_insert_ne in Hk by done.
        destruct (I k p Hk) as (d & ti & tp & Hd & Hti & Htp & Hc1 & ? & ?).
        simpl in *. rewrite (lookup_insert_ne _ k0 k) by done.
        destruct (decide (p = p0)) as [->|Hpne].
        -- exists (setCreatedAt now d0), ti, now.
           rewrite !lookup_insert_eq. simpl.
           repeat split; try done; lia.
        -- exists d, ti, tp.
           rewrite !(lookup_insert_ne _ p0 p) by done.
           repeat split; try done; lia.
    + by apply (later_clock s g).
  - apply (fewer_states s); [apply Get_heap|apply Get_sub|done].
  - done.
  - apply (later_clock (cleanup now s) g); try done.
    apply (fewer_states s); [done|apply cleanup_sub|done].
  - intros k p Hk. simpl in *.
    destruct (I k p Hk) as (d & ti & tp & Hd & ?).
    exists d, ti, tp. split; [|done]. simpl in *.
    rewrite lookup_insert_ne; [done|].
    intros <-.
    assert (Hin : fresh (dom (heap s)) ∈ dom (heap s))
      by (apply elem_of_dom; eauto).
    by apply is_fresh in Hin.
  - destruct (heap s !! p0) eqn:Hp0; [|done].
    intros k p Hk. simpl in *.
    destruct (I k p Hk) as (d & ti & tp & Hd & ?).
    exists d, ti, tp. split; [|done]. simpl in *.
    rewrite lookup_insert_ne; [done|]. intros <-. by apply (Hc k).
Qed.

Lemma runG_stamped cs : forall sg,
  ordered (clock sg.2) cs -> handsOff cs sg.1 -> stamped sg ->
  stamped (runG cs sg).
Proof.
  induction cs as [|c cs IH]; intros [s g] Ho Hh I; [done|].
  simpl in Hh. destruct Hh as [Hc Hh]. simpl. apply IH.
  - destruct c; simpl in *; try tauto.
    + destruct (heap s !! data); simpl; tauto.
  - done.
  - apply step_stamped; [|done]. destruct c; simpl in *; tauto.
Qed.

Lemma step_exclusive c s g used :
  match c with CallStore _ p _ => p ∉ used | _ => True end ->
  exclusive used (s, g) ->
  exclusive (match c with CallStore _ p _ => {[p]} ∪ used | _ => used end)
            (step c s, track c s g).
Proof.
  intros Hc I. destruct c as [k0 p0 now|k0|k0|now|d0|p0 d0]; simpl.
  - unfold Store. destruct (heap s !! p0) as [d0|] eqn:Hp0; simpl.
    + intros k p Hk. simpl in *.
      destruct (decide (k = k0)) as [->|Hne].
      * rewrite lookup_insert_eq in Hk. injection Hk as <-.
        rewrite !lookup_insert_eq. split; [set_solver|done].
      * rewrite lookup_insert_ne in Hk by done.
        destruct (I k p Hk) as [Hin Heq]. simpl in *.
        assert (p <> p0) by (intros ->; done).
        rewrite !lookup_insert_ne by done. split; [set_solver|done].
    + intros k p Hk. destruct (I k p Hk). split; [set_solver|done].
  - intros k p Hk. apply Get_sub in Hk. by apply I.
  - done.
  - intros k p Hk. apply cleanup_sub in Hk. by apply I.
  - done.
  - by destruct (heap s !! p0).
Qed.

Lemma runG_exclusive cs : forall sg used,
  unshared used cs -> exclusive used sg ->
  exists used', exclusive used' (runG cs sg).
Proof.
  induction cs as [|c cs IH]; intros [s g] used Hu I; [by exists used|].
  simpl.
  eapply (IH (step c s, track c s g)).
  2:{ apply step_exclusive; [|exact I]. destruct c; simpl in *; tauto. }
  destruct c; simpl in *; tauto.
Qed.

End CreatedAtFacts.

(** C10, as stated, fails in its consequence. [Store] writes through the
    pointer it is given and the store keeps that pointer. So storing one
    [StateData] object under a second state re-stamps the entry of the
    first: the object stored under "a" at 10ns and under "b" at 20ns leaves
    the entry of "a" with a [CreatedAt] of 20ns, not its insertion time.
    And a caller that kept the pointer can set [CreatedAt] back after the
    [Store]: the entry inserted at minute 10 and then set back to time 0
    has a [CreatedAt] other than its insertion time, and the sweep of
    minute 11 removes it as expired. *)
Lemma C10_counterexample :
  let sg := StateStore.runG StateStoreDemo.shared_calls
              (StateStore.NewStateStore ∅, StateStore.ghost0 0) in
  let back := StateStore.runG StateStoreDemo.backdated_calls
                (StateStore.NewStateStore ∅, StateStore.ghost0 0) in
  StateStore.ordered 0 StateStoreDemo.shared_calls /\
  (exists d,
     StateStore.states sg.1 !! "a" = Some 1%positive /\
     StateStore.heap sg.1 !! 1%positive = Some d /\
     StateStore.byState sg.2 !! "a" = Some 10 /\
     StateStore.CreatedAt d = 20 /\
     StateStore.CreatedAt d <> 10) /\
  StateStore.ordered 0 StateStoreDemo.backdated_calls /\
  (exists d,
     StateStore.states back.1 !! "a" = Some 1%positive /\
     StateStore.heap back.1 !! 1%positive = Some d /\
     StateStore.byState back.2 !! "a" = Some (StateStoreDemo.sec 600) /\
     StateStore.CreatedAt d = 0 /\
     StateStore.CreatedAt d <> StateStoreDemo.sec 600 /\
     StateStore.Peek "a"
       (StateStore.cleanup (StateStoreDemo.sec 660) back.1) = None).
Proof.
  split; [simpl; lia|]. split.
  { exists (StateStore.setCreatedAt 20 StateStoreDemo.demo_data).
    vm_compute. repeat split; try reflexivity. discriminate. }
  split; [vm_compute; repeat split; discriminate|].
  exists (StateStore.setCreatedAt 0 StateStoreDemo.demo_data).
  vm_compute. repeat split; try reflexivity. discriminate.
Qed.

(** C10, amended: [Store state data] at time [now] overwrites the
    [CreatedAt] of the object [data] points to with [now], whatever value
    the caller supplied, and maps [state] to that object. Consequently, on
    a clock that does not go backwards and as long as no caller assigns to
    an object while the store holds it, every entry's [CreatedAt] is the
    time of the latest [Store] of its object: never earlier than the
    entry's own insertion (no entry is backdated through [Store]), and
    equal to it when no object is stored twice. The store keeps the
    caller's pointer, so an assignment through it does reach the entry: it
    gives the entry any [CreatedAt] the caller likes, and one that is more
    than the TTL in the past lets the next sweep remove the entry. *)
Theorem C10_store_stamps_created_at :
  (forall state data now s d,
     StateStore.heap s !! data = Some d ->
     exists s',
       StateStore.Store state data now s = Some s' /\
       StateStore.states s' !! state = Some data /\
       StateStore.heap s' !! data = Some (StateStore.setCreatedAt now d) /\
       StateStore.CreatedAt (StateStore.setCreatedAt now d) = now) /\
  (forall cs t0 h0,
     StateStore.ordered t0 cs ->
     StateStore.handsOff cs (StateStore.NewStateStore h0) ->
     let sg := StateStore.runG cs
                 (StateStore.NewStateStore h0, StateStore.ghost0 t0) in
     forall k p, StateStore.states sg.1 !! k = Some p ->
       exists d inserted,
         StateStore.heap sg.1 !! p = Some d /\
         StateStore.byState sg.2 !! k = Some inserted /\
         StateStore.byPtr sg.2 !! p = Some (StateStore.CreatedAt d) /\
         inserted <= StateStore.CreatedAt d /\
         (StateStore.unshared ∅ cs -> StateStore.CreatedAt d = inserted)) /\
  (forall s k p d t now,
     StateStore.states s !! k = Some p ->
     StateStore.heap s !! p = Some d ->
     let s' := StateStore.step
                 (StateStore.Assign p (StateStore.setCreatedAt t d)) s in
     StateStore.Peek k s' = Some p /\
     StateStore.deref s' p = Some (StateStore.setCreatedAt t d) /\
     (StateStore.ttl < time.Sub now t ->
      StateStore.Peek k (StateStore.cleanup now s') = None)).
Proof.
  split; [|split].
  - intros state data now s d Hd. unfold StateStore.Store. rewrite Hd.
    eexists. split; [reflexivity|]. simpl.
    by rewrite !lookup_insert_eq.
  - intros cs t0 h0 Ho Hh sg k p Hk.
    assert (I : StateStore.stamped sg).
    { subst sg. apply runG_stamped; [done|done|]. intros k' p' H'.
      simpl in H'. by rewrite lookup_empty in H'. }
    destruct (I k p Hk) as (d & ti & tp & Hd & Hti & Htp & Hc & Hle & _).
    exists d, ti. subst tp. repeat split; try done.
    intros Hu.
    destruct (runG_exclusive cs
                (StateStore.NewStateStore h0, StateStore.ghost0 t0) ∅ Hu)
      as [used' E].
    { intros k' p' H'. simpl in H'. by rewrite lookup_empty in H'. }
    destruct (E k p Hk) as [_ Heq]. subst sg.
    pose proof (eq_trans (eq_sym Hti) (eq_trans Heq Htp)) as Hsame.
    by injection Hsame.
  - intros s k p d t now Hk Hd s'.
    assert (Hs' : s' = StateStore.mk
                         (<[p := StateStore.setCreatedAt t d]>
                            (StateStore.heap s)) (StateStore.states s)).
    { subst s'. simpl. by rewrite Hd. }
    rewrite Hs'. unfold StateStore.Peek, StateStore.deref.
    cbn [StateStore.heap StateStore.states].
    rewrite lookup_insert_eq. split; [done|]. split; [done|].
    intros Hold. rewrite cleanup_lookup.
    cbn [StateStore.heap StateStore.states]. rewrite Hk.
    unfold StateStore.expired. rewrite lookup_insert_eq.
    cbn [StateStore.CreatedAt StateStore.setCreatedAt].
    by rewrite bool_decide_eq_true_2.
Qed.

Lemma C10_store_stamps_created_at_witness :
  let sg := StateStore.runG StateStoreDemo.fresh_calls
              (StateStore.NewStateStore ∅, StateStore.ghost0 0) in
  exists d inserted,
    StateStore.heap sg.1 !! 1%positive = Some d /\
    StateStore.byState sg.2 !! "a" = Some inserted /\
    StateStore.byPtr sg.2 !! 1%positive = Some (StateStore.CreatedAt d) /\
    inserted <= StateStore.CreatedAt d /\
    (StateStore.unshared ∅ StateStoreDemo.fresh_calls ->
     StateStore.CreatedAt d = inserted).
Proof.
  refine (proj1 (proj2 C10_store_stamps_created_at)
            StateStoreDemo.fresh_calls 0 ∅ _ _ "a" 1%positive _).
  - simpl. lia.
  - simpl. tauto.
  - vm_compute. reflexivity.
Defined.

Section SessionFacts.
Import SessionManager.
Context {codec : jwt.Codec SessionClaims} {crypto : jwt.Crypto}.

Lemma GetSigningMethod_sound alg m :
  jwt.GetSigningMethod alg = Some m -> jwt.Alg m = alg.
Proof.
  intros H. apply head_Some_elem_of, list_elem_of_filter in H. tauto.
Qed.

Lemma GetSigningMethod_HMAC h :
  jwt.GetSigningMethod (jwt.Alg (jwt.SigningMethodHMAC h))
  = Some (jwt.SigningMethodHMAC h).
Proof. by destruct h. Qed.

(** What a successful [ValidateToken] has checked. *)
Lemma ValidateToken_inv m tok now c :
  ValidateToken m tok now = inl c ->
  exists hdr text seg h sig,
    jwt.decodeParts tok = Some (hdr, c, text, seg) /\
    hdr !! "alg" = Some (jwt.Alg (jwt.SigningMethodHMAC h)) /\
    jwt.DecodeSegment seg = Some sig /\
    sig = jwt.hmacSum h (secret m) text /\
    jwt.Validate jwt.noOptions now (RegisteredClaims c) = [].
Proof.
  unfold ValidateToken, jwt.ParseWithClaims.
  destruct (jwt.decodeParts tok) as [[[[hdr c'] text] seg]|]; [|done].
  destruct (hdr !! "alg") as [alg|] eqn:Halg; [|done].
  destruct (jwt.GetSigningMethod alg) as [mth|] eqn:Hm; [|done].
  destruct (jwt.DecodeSegment seg) as [sig|] eqn:Hseg; [|done].
  unfold keyFunc at 1. simpl.
  apply GetSigningMethod_sound in Hm. subst alg.
  destruct mth as [h| | | | |]; try done.
  simpl. case_bool_decide as Hsig; [|done].
  destruct (jwt.Validate _ _ _) eqn:Hv; [|done].
  simpl. intros [= <-]. by exists hdr, text, seg, h, sig.
Qed.

Lemma Validate_expired o now r exp :
  jwt.ExpiresAt r = Some exp -> exp <= now -> jwt.Validate o now r <> [].
Proof.
  intros He Hle. unfold jwt.Validate. rewrite He.
  destruct (decide (now < exp)); [lia|]. done.
Qed.

Lemma Validate_unexpired o now r exp :
  jwt.Validate o now r = [] -> jwt.ExpiresAt r = Some exp -> now < exp.
Proof.
  intros Hv He.
  destruct (decide (now < exp)) as [|Hn]; [done|].
  exfalso. apply (Validate_expired o now r exp); [done|lia|done].
Qed.

End SessionFacts.

(** C6: [ValidateToken] of the session manager returns an error for a token
    whose header names a signing algorithm outside the expected symmetric
    scheme (HMAC: the key function accepts exactly the methods of Go type
    [SigningMethodHMAC], that is HS256, HS384 and HS512), and for a token
    whose expiry timestamp has passed; when it returns claims, the token
    names an HMAC algorithm, its signature is the HMAC of its signing text
    under the manager's secret, and its expiry, if it has one, lies in the
    future. Conversely a token of any of the three HMAC algorithms that is
    signed under the secret and whose time claims hold is accepted. *)
Theorem C6_session_validate_rejects
    (codec : jwt.Codec SessionManager.SessionClaims) (crypto : jwt.Crypto)
    (m : SessionManager.t) (tok : string) (now : time.Time) :
  (forall hdr c text seg,
     jwt.decodeParts tok = Some (hdr, c, text, seg) ->
     (forall h, hdr !! "alg" <> Some (jwt.Alg (jwt.SigningMethodHMAC h))) ->
     exists e, SessionManager.ValidateToken m tok now = inr e) /\
  (forall hdr c text seg exp,
     jwt.decodeParts tok = Some (hdr, c, text, seg) ->
     jwt.ExpiresAt (SessionManager.RegisteredClaims c) = Some exp ->
     exp <= now ->
     exists e, SessionManager.ValidateToken m tok now = inr e) /\
  (forall c,
     SessionManager.ValidateToken m tok now = inl c ->
     exists hdr text seg h sig,
       jwt.decodeParts tok = Some (hdr, c, text, seg) /\
       hdr !! "alg" = Some (jwt.Alg (jwt.SigningMethodHMAC h)) /\
       jwt.DecodeSegment seg = Some sig /\
       sig = jwt.hmacSum h (SessionManager.secret m) text /\
       (forall exp,
          jwt.ExpiresAt (SessionManager.RegisteredClaims c) = Some exp ->
          now < exp)) /\
  (forall hdr c text seg h,
     jwt.decodeParts tok = Some (hdr, c, text, seg) ->
     hdr !! "alg" = Some (jwt.Alg (jwt.SigningMethodHMAC h)) ->
     jwt.DecodeSegment seg
     = Some (jwt.hmacSum h (SessionManager.secret m) text) ->
     jwt.Validate jwt.noOptions now (SessionManager.RegisteredClaims c) = [] ->
     SessionManager.ValidateToken m tok now = inl c).
Proof.
  split; [|split; [|split]].
  4:{ intros hdr c text seg h Hd Ha Hs Hv.
      unfold SessionManager.ValidateToken, jwt.ParseWithClaims.
      rewrite Hd. cbv beta iota. rewrite Ha, GetSigningMethod_HMAC.
      cbv beta iota. rewrite Hs. cbn.
      rewrite bool_decide_eq_true_2 by done. cbn in Hv. by rewrite Hv. }
  - intros hdr c text seg Hd Halg.
    destruct (SessionManager.ValidateToken m tok now) as [c'|e] eqn:E;
      [|by exists e].
    apply ValidateToken_inv in E
      as (hdr' & text' & seg' & h & sig & Hd' & Ha & _).
    rewrite Hd in Hd'. injection Hd' as <- _ _ _. by destruct (Halg h).
  - intros hdr c text seg exp Hd He Hle.
    destruct (SessionManager.ValidateToken m tok now) as [c'|e] eqn:E;
      [|by exists e].
    apply ValidateToken_inv in E
      as (hdr' & text' & seg' & h & sig & Hd' & _ & _ & _ & Hv).
    rewrite Hd in Hd'. injection Hd' as _ <- _ _.
    by destruct (Validate_expired jwt.noOptions now _ exp He Hle Hv).
  - intros c E.
    apply ValidateToken_inv in E
      as (hdr & text & seg & h & sig & Hd & Ha & Hs & Hsig & Hv).
    exists hdr, text, seg, h, sig. repeat split; try done.
    intros exp He. eapply Validate_unexpired; eauto.
Qed.

Lemma C6_session_validate_rejects_witness :
  (exists e,
     SessionManager.ValidateToken (codec := SessionDemo.codec)
       (crypto := SessionDemo.crypto)
       SessionDemo.manager SessionDemo.rsToken SessionDemo.issued = inr e) /\
  (exists e,
     SessionManager.ValidateToken (codec := SessionDemo.codec)
       (crypto := SessionDemo.crypto)
       SessionDemo.manager SessionDemo.token
       (SessionDemo.issued + 3601 * time.Second) = inr e).
Proof.
  split.
  - refine (proj1 (C6_session_validate_rejects SessionDemo.codec
              SessionDemo.crypto SessionDemo.manager SessionDemo.rsToken
              SessionDemo.issued)
              SessionDemo.rsHeader SessionDemo.claims "R.C" "sig" _ _).
    + vm_compute. reflexivity.
    + intros []; vm_compute; discriminate.
  - refine (proj1 (proj2 (C6_session_validate_rejects SessionDemo.codec
              SessionDemo.crypto SessionDemo.manager SessionDemo.token
              (SessionDemo.issued + 3601 * time.Second)))
              (jwt.headerOf jwt.SigningMethodHS256) SessionDemo.claims "H.C"
              "256test-secret-key-12345/H.C"
              (1700003600 * time.Second) _ _ _).
    + vm_compute. reflexivity.
    + vm_compute. reflexivity.
    + vm_compute. discriminate.
Defined.

Section SessionRoundTrip.
Import SessionManager.
Context {codec : jwt.Codec SessionClaims} {crypto : jwt.Crypto}.

Lemma TruncateSecond_le t : time.TruncateSecond t <= t.
Proof.
  unfold time.TruncateSecond, time.Second.
  pose proof (Z.mod_pos_bound t 1000000000). lia.
Qed.

(** Validation of a token in the shape [CreateToken] gives it. *)
Lemma ValidateToken_created m2 tok c text sig now :
  jwt.decodeParts tok
    = Some (jwt.headerOf jwt.SigningMethodHS256, c, text,
            jwt.EncodeSegment sig) ->
  jwt.DecodeSegment (jwt.EncodeSegment sig) = Some sig ->
  jwt.Validate jwt.noOptions now (RegisteredClaims c) = [] ->
  ValidateToken m2 tok now =
    if bool_decide (jwt.hmacSum jwt.SHA256 (secret m2) text = sig)
    then inl c else inr "token signature is invalid".
Proof.
  intros Hd Hs Hv. unfold ValidateToken, jwt.ParseWithClaims.
  rewrite Hd. cbv beta iota.
  assert (Ha : jwt.headerOf jwt.SigningMethodHS256 !! "alg" = Some "HS256")
    by reflexivity.
  rewrite Ha.
  change (jwt.GetSigningMethod "HS256") with (Some jwt.SigningMethodHS256).
  cbv beta iota. rewrite Hs. cbn.
  case_bool_decide; [|done]. cbn in Hv. by rewrite Hv.
Qed.

Lemma TruncateSecond_idem t :
  time.TruncateSecond (time.TruncateSecond t) = time.TruncateSecond t.
Proof.
  unfold time.TruncateSecond, time.Second.
  assert (H : (t - t mod 1000000000) mod 1000000000 = 0).
  { rewrite Zminus_mod_idemp_r, Z.sub_diag. done. }
  rewrite H. lia.
Qed.

Lemma coerce_valid s : forall skip,
  utf8.validFrom skip s = true -> utf8.coerceFrom skip s = s.
Proof.
  induction s as [|b rest IH]; intros skip; [done|]. simpl.
  destruct skip as [|k].
  - destruct (utf8.width b rest) as [n|]; [|done].
    intros H. by rewrite IH.
  - intros H. by rewrite IH.
Qed.

(** The claims [CreateToken] makes are valid, as they come back from the
    wire, from the moment of their creation until their expiry. *)
Lemma decoded_valid m u e c r now now' :
  now <= now' ->
  now' < time.TruncateSecond (time.Add now (maxAge m)) ->
  jwt.Validate jwt.noOptions now'
    (RegisteredClaims (decoded (newClaims m u e c r now))) = [].
Proof.
  intros Hle Hexp. unfold jwt.Validate. simpl.
  rewrite !TruncateSecond_idem.
  destruct (decide (now' < _)) as [|Hn]; [|by destruct Hn].
  pose proof (TruncateSecond_le now).
  destruct (decide (now' < time.TruncateSecond now)); [lia|done].
Qed.

End SessionRoundTrip.

Section HMACKeys.

Lemma substring_all s : String.substring 0 (String.length s) s = s.
Proof. induction s as [|a s IH]; [done|]. simpl. by rewrite IH. Qed.

Lemma substring_zeros n m :
  (n <= m)%nat -> String.substring 0 n (hmac.zeros m) = hmac.zeros n.
Proof.
  revert m. induction n as [|n IH]; intros m H.
  - by destruct m.
  - destruct m as [|m]; [lia|]. simpl. rewrite IH; [done|lia].
Qed.

Lemma substring_app key rest n :
  (String.length key <= n)%nat ->
  String.substring 0 n (key +:+ rest)
  = key +:+ String.substring 0 (n - String.length key) rest.
Proof.
  revert n. induction key as [|a key IH]; intros n H; simpl in *.
  - by rewrite Nat.sub_0_r.
  - destruct n as [|n]; [lia|]. simpl. rewrite IH; [done|lia].
Qed.

(** [hmac.New] does not tell a key from the same key with a zero byte
    after it, as long as both fit into a block. *)
Lemma block_zero_padded sum size key :
  (String.length key < size)%nat ->
  hmac.block sum size (key +:+ String Ascii.zero EmptyString)
  = hmac.block sum size key.
Proof.
  intros H. unfold hmac.block.
  assert (Hlen : String.length (key +:+ String Ascii.zero EmptyString)
                 = S (String.length key)).
  { clear H. induction key as [|a key IH]; [done|]. simpl. by rewrite IH. }
  rewrite Hlen.
  destruct (Nat.ltb_spec size (S (String.length key))) as [|_]; [lia|].
  destruct (Nat.ltb_spec size (String.length key)) as [|_]; [lia|].
  assert (Happ : (key +:+ String Ascii.zero EmptyString) +:+ hmac.zeros size
                 = key +:+ hmac.zeros (S size)).
  { clear. induction key as [|a key IH]; [done|].
    change (String a ((key +:+ String Ascii.zero EmptyString)
                      +:+ hmac.zeros size)
            = String a (key +:+ hmac.zeros (S size))).
    by rewrite IH. }
  rewrite Happ, !substring_app by lia.
  rewrite !substring_zeros by lia. done.
Qed.

Lemma hmac_zero_padded sum verifyAsym h key text :
  (String.length key < hmac.BlockSize h)%nat ->
  jwt.hmacSum (Crypto := hmac.crypto sum verifyAsym) h
    (key +:+ String Ascii.zero EmptyString) text
  = jwt.hmacSum (Crypto := hmac.crypto sum verifyAsym) h key text.
Proof.
  intros H. simpl. unfold hmac.Sum. by rewrite block_zero_padded.
Qed.

End HMACKeys.

(** C5, as stated, fails in both halves. A different secret does not make
    validation fail: HMAC copies the key into a block of zero bytes, so
    the managers with the secrets "k" and "k" followed by a zero byte
    accept each other's tokens, whatever the hash function. And the
    claims do not come back exactly for all inputs: they travel as JSON,
    so a Canvas id that is not valid UTF-8 (here the byte 0xFF) comes
    back as U+FFFD. *)
Lemma C5_counterexample :
  (forall (sum : jwt.Hash -> string -> string)
          (verifyAsym : jwt.SigningMethod -> jwt.Key -> string -> string
                        -> bool),
     exists tok cl,
       SessionManager.secret SessionDemo.padded
       <> SessionManager.secret SessionDemo.short /\
       SessionManager.CreateToken
         (codec := SessionDemo.jsonCodec SessionDemo.claims)
         (crypto := hmac.crypto sum verifyAsym) SessionDemo.short 123
         "canvas-user-1" "course-456" "instructor" SessionDemo.issued
       = inl tok /\
       SessionManager.ValidateToken
         (codec := SessionDemo.jsonCodec SessionDemo.claims)
         (crypto := hmac.crypto sum verifyAsym) SessionDemo.padded tok
         (SessionDemo.issued + 1) = inl cl) /\
  (exists tok cl,
     SessionManager.CreateToken
       (codec := SessionDemo.jsonCodec SessionDemo.invalidClaims)
       (crypto := SessionDemo.crypto) SessionDemo.manager 123
       SessionDemo.invalid "course-456" "instructor" SessionDemo.issued
     = inl tok /\
     SessionManager.ValidateToken
       (codec := SessionDemo.jsonCodec SessionDemo.invalidClaims)
       (crypto := SessionDemo.crypto) SessionDemo.manager tok
       (SessionDemo.issued + 1) = inl cl /\
     SessionManager.CanvasID cl <> SessionDemo.invalid).
Proof.
  split.
  - intros sum verifyAsym.
    eexists _, (SessionManager.decoded SessionDemo.claims).
    split; [vm_compute; discriminate|]. split; [reflexivity|].
    rewrite (ValidateToken_created
               (codec := SessionDemo.jsonCodec SessionDemo.claims)
               (crypto := hmac.crypto sum verifyAsym) SessionDemo.padded _
               (SessionManager.decoded SessionDemo.claims) "H.C"
               (hmac.Sum (sum jwt.SHA256) 64 "k" "H.C")
               (SessionDemo.issued + 1)).
    + rewrite bool_decide_eq_true_2; [done|].
      apply (hmac_zero_padded sum verifyAsym jwt.SHA256 "k" "H.C").
      simpl. lia.
    + reflexivity.
    + reflexivity.
    + vm_compute. reflexivity.
  - eexists _, _. split; [reflexivity|]. split; [vm_compute; reflexivity|].
    vm_compute. discriminate.
Qed.

(** C5, amended. A token made by [CreateToken m u e c r] validates, under
    the same manager, from its creation until its expiry, to the claims
    JSON gives back: exactly [u], and [e], [c] and [r] with every byte that
    is not valid UTF-8 replaced by U+FFFD, hence exactly [e], [c] and [r]
    when these are valid UTF-8. Under another manager the token is
    accepted, with the same claims, when that manager's secret gives the
    signing text the HMAC of the token, and rejected otherwise; that the
    secrets differ does not decide this (see the counterexample). The wire
    format is a parameter of the library model: the statement asks that
    the token decodes to the claims as JSON gives them back. *)
Theorem C5_session_round_trip
    (codec : jwt.Codec SessionManager.SessionClaims) (crypto : jwt.Crypto)
    (m : SessionManager.t) (u : Z) (e c r : string)
    (now now' : time.Time) :
  let claims := SessionManager.newClaims m u e c r now in
  let text := jwt.SigningString (jwt.headerOf jwt.SigningMethodHS256) claims in
  let sig := jwt.hmacSum jwt.SHA256 (SessionManager.secret m) text in
  let tok := text +:+ "." +:+ jwt.EncodeSegment sig in
  jwt.decodeParts tok
    = Some (jwt.headerOf jwt.SigningMethodHS256,
            SessionManager.decoded claims, text, jwt.EncodeSegment sig) ->
  jwt.DecodeSegment (jwt.EncodeSegment sig) = Some sig ->
  now <= now' ->
  now' < time.TruncateSecond (time.Add now (SessionManager.maxAge m)) ->
  SessionManager.CreateToken m u e c r now = inl tok /\
  (exists cl,
     SessionManager.ValidateToken m tok now' = inl cl /\
     SessionManager.UserID cl = u /\
     SessionManager.CanvasID cl = utf8.coerce e /\
     SessionManager.CourseID cl = utf8.coerce c /\
     SessionManager.Role cl = utf8.coerce r /\
     (utf8.ValidString e = true -> utf8.ValidString c = true ->
      utf8.ValidString r = true ->
      (SessionManager.UserID cl, SessionManager.CanvasID cl,
       SessionManager.CourseID cl, SessionManager.Role cl) = (u, e, c, r))) /\
  (forall m2 : SessionManager.t,
     (jwt.hmacSum jwt.SHA256 (SessionManager.secret m2) text = sig ->
      SessionManager.ValidateToken m2 tok now'
      = SessionManager.ValidateToken m tok now') /\
     (jwt.hmacSum jwt.SHA256 (SessionManager.secret m2) text <> sig ->
      exists err, SessionManager.ValidateToken m2 tok now' = inr err)).
Proof.
  intros claims text sig tok Hd Hs Hle Hexp.
  pose proof (decoded_valid m u e c r now now' Hle Hexp) as Hv.
  fold claims in Hv.
  assert (Hsame : SessionManager.ValidateToken m tok now'
                  = inl (SessionManager.decoded claims)).
  { rewrite (ValidateToken_created m tok _ text sig now' Hd Hs Hv).
    by rewrite bool_decide_eq_true_2. }
  split; [done|]. split.
  - exists (SessionManager.decoded claims). split; [done|].
    split; [done|]. split; [done|]. split; [done|]. split; [done|].
    intros He Hc Hr. simpl. unfold utf8.coerce.
    by rewrite !coerce_valid.
  - intros m2. split.
    + intros Hmac. rewrite Hsame.
      rewrite (ValidateToken_created m2 tok _ text sig now' Hd Hs Hv).
      by rewrite bool_decide_eq_true_2.
    + intros Hmac. eexists.
      rewrite (ValidateToken_created m2 tok _ text sig now' Hd Hs Hv).
      by rewrite bool_decide_eq_false_2.
Qed.

Lemma C5_session_round_trip_witness :
  (exists cl,
     SessionManager.ValidateToken (codec := SessionDemo.codec)
       (crypto := SessionDemo.crypto)
       SessionDemo.manager SessionDemo.token (SessionDemo.issued + 1) = inl cl /\
     SessionManager.UserID cl = 123 /\
     SessionManager.CanvasID cl = "canvas-user-1" /\
     SessionManager.CourseID cl = "course-456" /\
     SessionManager.Role cl = "instructor") /\
  (exists err,
     SessionManager.ValidateToken (codec := SessionDemo.codec)
       (crypto := SessionDemo.crypto)
       SessionDemo.other SessionDemo.token (SessionDemo.issued + 1) = inr err).
Proof.
  pose proof (C5_session_round_trip SessionDemo.codec SessionDemo.crypto
                SessionDemo.manager 123 "canvas-user-1" "course-456"
                "instructor" SessionDemo.issued (SessionDemo.issued + 1)) as W.
  cbv zeta in W.
  destruct W as (_ & (cl & Hcl & _ & _ & _ & _ & Hexact) & Hother).
  - vm_compute. reflexivity.
  - reflexivity.
  - vm_compute. discriminate.
  - vm_compute. reflexivity.
  - split.
    + exists cl. split; [exact Hcl|].
      specialize (Hexact eq_refl eq_refl eq_refl).
      injection Hexact as Hu He Hc Hr. by repeat split.
    + apply (proj2 (Hother SessionDemo.other)). vm_compute. discriminate.
Defined.

Section ValidatorFacts.
Import JWTValidator.
Context {codec : jwt.Codec LTIClaims} {crypto : jwt.Crypto}
        {keysets : KeySets}.

(** The claims of a token the parser accepts are the claims the token
    decodes to. *)
Lemma ParseWithClaims_claims tok (kf : jwt.Keyfunc LTIClaims) o now token :
  jwt.ParseWithClaims tok kf o now = inl token ->
  exists hdr text seg,
    jwt.decodeParts tok = Some (hdr, jwt.TokenClaims token, text, seg) /\
    jwt.Valid token = true /\
    jwt.Validate o now (RegisteredClaims (jwt.TokenClaims token)) = [].
Proof.
  unfold jwt.ParseWithClaims.
  destruct (jwt.decodeParts tok) as [[[[hdr c] text] seg]|]; [|done].
  destruct (hdr !! "alg") as [alg|]; [|done].
  destruct (jwt.GetSigningMethod alg) as [m|]; [|done].
  destruct (jwt.DecodeSegment seg) as [sig|]; [|done].
  cbv beta iota zeta.
  destruct (kf _) as [key|]; [|done].
  destruct (jwt.Verify m text sig key); [|done].
  destruct (jwt.Validate _ _ _) eqn:Hv; [|done].
  intros [= <-]. simpl. by exists hdr, text, seg.
Qed.

Lemma ValidateToken_nonce v tok platform nonce now claims v' :
  ValidateToken v tok platform nonce now = (inl claims, v') ->
  Nonce claims = nonce /\
  exists hdr text seg, jwt.decodeParts tok = Some (hdr, claims, text, seg).
Proof.
  unfold ValidateToken.
  destruct (getKeyfunc v _) as [[kf|err] v1]; [|done].
  destruct (jwt.ParseWithClaims _ _ _ _) as [token|err] eqn:Hp; [|done].
  apply ParseWithClaims_claims in Hp as (hdr & text & seg & Hd & _ & _).
  destruct (negb _); [done|].
  destruct (decide (Nonce _ <> nonce)) as [|Heq]; [done|].
  destruct (decide (_ /\ _)); [done|].
  intros [= <- <-]. split.
  - by destruct (decide (Nonce (jwt.TokenClaims token) = nonce)).
  - by exists hdr, text, seg.
Qed.

End ValidatorFacts.

(** C2: whatever the token, the platform and the expected nonce, and
    whatever the key set and the signature check say, [ValidateToken] of
    the token validator returns an error, and no claims, when the nonce
    claim the token carries is not equal, as a string, to the expected
    nonce; the claims it does return carry the expected nonce. When the
    signature, the issuer and the audience are all valid (the parser
    accepts the token), the error is the nonce mismatch. *)
Theorem C2_validate_rejects_nonce_mismatch
    (codec : jwt.Codec JWTValidator.LTIClaims) (crypto : jwt.Crypto)
    (keysets : JWTValidator.KeySets)
    (v : JWTValidator.t) (tok : string) (platform : Platform)
    (expectedNonce : string) (now : time.Time) :
  (forall hdr claims text seg,
     jwt.decodeParts tok = Some (hdr, claims, text, seg) ->
     JWTValidator.Nonce claims <> expectedNonce ->
     exists err,
       (JWTValidator.ValidateToken v tok platform expectedNonce now).1
       = inr err) /\
  (forall claims,
     (JWTValidator.ValidateToken v tok platform expectedNonce now).1
     = inl claims ->
     JWTValidator.Nonce claims = expectedNonce) /\
  (forall kf v' token,
     JWTValidator.getKeyfunc v (JWKSEndpoint platform) = (inl kf, v') ->
     jwt.ParseWithClaims tok kf
       (jwt.mkOptions (Issuer platform) (ClientID platform)) now
     = inl token ->
     JWTValidator.Nonce (jwt.TokenClaims token) <> expectedNonce ->
     JWTValidator.ValidateToken v tok platform expectedNonce now
     = (inr "nonce mismatch", v')).
Proof.
  split; [|split].
  3:{ intros kf v' token Hkf Hp Hne. unfold JWTValidator.ValidateToken.
      rewrite Hkf, Hp.
      apply ParseWithClaims_claims in Hp as (_ & _ & _ & _ & -> & _).
      simpl. by destruct (decide (_ <> expectedNonce)). }
  - intros hdr claims text seg Hd Hne.
    destruct (JWTValidator.ValidateToken v tok platform expectedNonce now)
      as [[c|err] v'] eqn:E; [|by exists err].
    apply ValidateToken_nonce in E as [Hn (hdr' & text' & seg' & Hd')].
    rewrite Hd in Hd'. injection Hd' as _ <- _ _. by destruct Hne.
  - intros claims E.
    destruct (JWTValidator.ValidateToken v tok platform expectedNonce now)
      as [r v'] eqn:E'. simpl in E. subst r.
    by apply ValidateToken_nonce in E' as [Hn _].
Qed.

Lemma C2_validate_rejects_nonce_mismatch_witness :
  exists err,
    (JWTValidator.ValidateToken (codec := LaunchDemo.ltiCodec)
       (crypto := LaunchDemo.crypto) (keysets := LaunchDemo.keysets)
       JWTValidator.NewJWTValidator "id.stale.sig" LaunchDemo.canvas
       "nonce-b2" LaunchDemo.t0).1 = inr err.
Proof.
  refine (proj1 (C2_validate_rejects_nonce_mismatch LaunchDemo.ltiCodec
            LaunchDemo.crypto LaunchDemo.keysets JWTValidator.NewJWTValidator
            "id.stale.sig" LaunchDemo.canvas "nonce-b2" LaunchDemo.t0)
            LaunchDemo.rs256 (LaunchDemo.idClaims "nonce-old")
            "id.stale" "sig" _ _).
  - vm_compute. reflexivity.
  - vm_compute. discriminate.
Defined.

Section LaunchFacts.
Import Handler.
Context {runtime : http.Runtime}
        {ltiCodec : jwt.Codec JWTValidator.LTIClaims}
        {sessionCodec : jwt.Codec SessionManager.SessionClaims}
        {crypto : jwt.Crypto} {keysets : JWTValidator.KeySets}.



End LaunchFacts.





(** C7, as stated, fails in two places. A registered platform whose
    authorization endpoint does not parse as a URL (here it ends in a line
    feed) makes a well-formed login request end in a 500, after the state
    was stored; and an endpoint that has a lti_message_hint in its own
    query keeps it in the redirect although the request provided none. *)
Lemma C7_counterexample :
  let c := LaunchDemo.loginRequest in
  (exists platform,
     http.DefaultQuery c "iss" (http.PostForm c "iss") <> "" /\
     http.DefaultQuery c "login_hint" (http.PostForm c "login_hint") <> "" /\
     http.DefaultQuery c "target_link_uri"
       (http.PostForm c "target_link_uri") <> "" /\
     http.DefaultQuery c "client_id" (http.PostForm c "client_id") = "" /\
     PlatformRepository.FindByIssuer "https://canvas.example.com"
       (Handler.db (LaunchDemo.world LaunchDemo.canvasBadEndpoint))
     = inl platform /\
     http.Status (LaunchDemo.login LaunchDemo.canvasBadEndpoint).1
     = http.StatusInternalServerError /\
     http.Status (LaunchDemo.login LaunchDemo.canvasBadEndpoint).1
     <> http.StatusFound) /\
  (exists u,
     http.DefaultQuery c "lti_message_hint"
       (http.PostForm c "lti_message_hint") = "" /\
     http.Redirect (LaunchDemo.login LaunchDemo.canvasQueryEndpoint).1
     = Some (http.ToURL u) /\
     http.Query u !! "lti_message_hint" = Some ["kept"]).
Proof.
  split.
  - eexists. vm_compute. repeat split; try reflexivity; discriminate.
  - eexists. vm_compute. repeat split; reflexivity.
Qed.

(** Reads a parameter off a query built by a chain of [SetValue]. *)
Ltac query_lookup :=
  repeat (rewrite lookup_insert_ne by discriminate);
  try rewrite lookup_insert_eq; reflexivity.

Section LoginFacts.
Import Handler.
Context {runtime : http.Runtime}.

Lemma Store_fresh state d now s :
  let (data, store1) := StateStore.alloc d s in
  let store2 := default store1 (StateStore.Store state data now store1) in
  StateStore.Peek state store2 = Some data /\
  StateStore.deref store2 data = Some (StateStore.setCreatedAt now d).
Proof.
  unfold StateStore.alloc, StateStore.Store, StateStore.Peek,
    StateStore.deref. simpl.
  rewrite lookup_insert_eq. simpl. by rewrite !lookup_insert_eq.
Qed.

End LoginFacts.

(** C7, amended: a login request with non-empty iss, login_hint and
    target_link_uri, whose issuer resolves to a registered platform and
    whose client_id, when supplied, is the platform's, is answered with a
    302 to the platform's authorization endpoint provided the two random
    draws succeed and the endpoint parses as a URL (otherwise the answer is
    a 500). The query of the redirect has scope=openid,
    response_type=id_token, the platform's client_id, redirect_uri,
    login_hint, state, response_mode=form_post, nonce and prompt=none; it
    has the request's lti_message_hint when that is non-empty, and else
    whatever the endpoint's own query had under that name. The state store
    then holds, under the state of the redirect, an entry with the nonce of
    the redirect. *)
Theorem C7_login_redirects_to_platform
    (runtime : http.Runtime) (h : Handler.t) (c : http.Request)
    (random1 random2 : option string) (now : time.Time) (w : Handler.World)
    (platform : Platform) :
  let iss := http.DefaultQuery c "iss" (http.PostForm c "iss") in
  let loginHint :=
    http.DefaultQuery c "login_hint" (http.PostForm c "login_hint") in
  let targetLinkURI :=
    http.DefaultQuery c "target_link_uri"
      (http.PostForm c "target_link_uri") in
  let clientID :=
    http.DefaultQuery c "client_id" (http.PostForm c "client_id") in
  let ltiMessageHint :=
    http.DefaultQuery c "lti_message_hint"
      (http.PostForm c "lti_message_hint") in
  let res := Handler.LoginInitiation h c random1 random2 now w in
  iss <> "" -> loginHint <> "" -> targetLinkURI <> "" ->
  PlatformRepository.FindByIssuer iss (Handler.db w) = inl platform ->
  clientID = "" \/ clientID = ClientID platform ->
  ((random1 = None \/ random2 = None
    \/ http.Parse (AuthEndpoint platform) = None) ->
   http.Status res.1 = http.StatusInternalServerError) /\
  (forall b1 b2 authURL,
     random1 = Some b1 -> random2 = Some b2 ->
     http.Parse (AuthEndpoint platform) = Some authURL ->
     let state := http.EncodeToString b1 in
     let nonce := http.EncodeToString b2 in
     exists q,
       res.1 = http.mkResponse http.StatusFound None
                 (Some (http.ToURL (http.mkURL (http.Front authURL) q))) [] /\
       q !! "scope" = Some ["openid"] /\
       q !! "response_type" = Some ["id_token"] /\
       q !! "client_id" = Some [ClientID platform] /\
       q !! "redirect_uri" = Some [Handler.getLaunchURL c] /\
       q !! "login_hint" = Some [loginHint] /\
       q !! "state" = Some [state] /\
       q !! "response_mode" = Some ["form_post"] /\
       q !! "nonce" = Some [nonce] /\
       q !! "prompt" = Some ["none"] /\
       q !! "lti_message_hint" =
         (if decide (ltiMessageHint <> "") then Some [ltiMessageHint]
          else http.Query authURL !! "lti_message_hint") /\
       Handler.db res.2 = Handler.db w /\
       exists data stateData,
         StateStore.Peek state (Handler.stateStore res.2) = Some data /\
         StateStore.deref (Handler.stateStore res.2) data = Some stateData /\
         StateStore.Nonce stateData = nonce /\
         StateStore.TargetLinkURI stateData = targetLinkURI /\
         StateStore.ClientID stateData = ClientID platform /\
         StateStore.CreatedAt stateData = now).
Proof.
  intros iss loginHint targetLinkURI clientID ltiMessageHint res
    Hiss Hhint Htarget Hfind Hclient.
  subst res. unfold Handler.LoginInitiation.
  fold iss loginHint targetLinkURI clientID ltiMessageHint.
  destruct (decide (iss = "")); [done|].
  destruct (decide (loginHint = "")); [done|].
  destruct (decide (targetLinkURI = "")); [done|].
  rewrite Hfind.
  destruct (decide (clientID <> "" /\ clientID <> ClientID platform))
    as [[? ?]|_]; [by destruct Hclient|].
  split.
  - intros Hfail.
    unfold GenerateState, GenerateNonce.
    destruct random1 as [b1|]; [|done].
    destruct random2 as [b2|]; [|done].
    destruct (StateStore.alloc _ _) as [data store1].
    destruct (http.Parse (AuthEndpoint platform)) as [u|] eqn:HP.
    + destruct Hfail as [?|[?|?]]; discriminate.
    + reflexivity.
  - intros b1 b2 authURL -> -> HP.
    unfold GenerateState, GenerateNonce.
    set (state := http.EncodeToString b1).
    set (nonce := http.EncodeToString b2).
    pose proof (Store_fresh state
                  (StateStore.mkStateData nonce targetLinkURI
                     (ClientID platform) 0) now (Handler.stateStore w))
      as Hstore.
    destruct (StateStore.alloc _ _) as [data store1].
    destruct Hstore as [Hpeek Hderef].
    rewrite HP. cbv zeta. unfold fst, snd.
    eexists. split; [reflexivity|].
    unfold http.SetValue.
    destruct (decide (ltiMessageHint <> "")).
    + repeat (split; [query_lookup|]).
      exists data. eexists. by repeat split.
    + repeat (split; [query_lookup|]).
      exists data. eexists. by repeat split.
Qed.

Lemma C7_login_redirects_to_platform_witness :
  exists q,
    (LaunchDemo.login LaunchDemo.canvas).1
    = http.mkResponse http.StatusFound None
        (Some (http.ToURL
                 (http.mkURL "https://canvas.example.com/api/lti/authorize"
                    q))) [] /\
    q !! "client_id" = Some ["client-123"] /\
    q !! "state" = Some ["state-b1"] /\
    q !! "nonce" = Some ["nonce-b2"] /\
    exists data stateData,
      StateStore.Peek "state-b1"
        (Handler.stateStore (LaunchDemo.login LaunchDemo.canvas).2)
      = Some data /\
      StateStore.deref
        (Handler.stateStore (LaunchDemo.login LaunchDemo.canvas).2) data
      = Some stateData /\
      StateStore.Nonce stateData = "nonce-b2".
Proof.
  pose proof (C7_login_redirects_to_platform LaunchDemo.runtime
                LaunchDemo.handler LaunchDemo.loginRequest
                (Some "state-b1") (Some "nonce-b2") LaunchDemo.t0
                (LaunchDemo.world LaunchDemo.canvas)
                (withPlatformID 1 LaunchDemo.t0
                   (withPlatformTimes LaunchDemo.t0 LaunchDemo.t0
                      LaunchDemo.canvas))) as W.
  simpl in W.
  destruct W as [_ W].
  - vm_compute. discriminate.
  - vm_compute. discriminate.
  - vm_compute. discriminate.
  - vm_compute. reflexivity.
  - left. reflexivity.
  - destruct (W "state-b1" "nonce-b2"
                (http.mkURL "https://canvas.example.com/api/lti/authorize" ∅)
                eq_refl eq_refl eq_refl)
      as (q & Hres & _ & _ & Hc & _ & _ & Hs & _ & Hn & _ & _ & _
          & data & sd & Hp & Hd & Hnonce & _).
    exists q. split; [exact Hres|]. split; [exact Hc|].
    split; [exact Hs|]. split; [exact Hn|].
    exists data, sd. by repeat split.
Defined.

Section RegistryFacts.
Import PlatformRepository.

Lemma least_elem rows p : least rows = Some p -> p ∈ rows.
Proof.
  revert p. induction rows as [|q rows IH]; intros p; simpl; [done|].
  destruct (least rows) as [r|].
  - destruct (decide (pID q <= pID r)); intros [= <-].
    + apply list_elem_of_here.
    + apply list_elem_of_further. by apply IH.
  - intros [= <-]. apply list_elem_of_here.
Qed.

Lemma least_none rows : least rows = None -> rows = [].
Proof.
  destruct rows as [|q rows]; simpl; [done|].
  destruct (least rows); [|done]. by destruct (decide _).
Qed.

Lemma First_found cond db p :
  First cond db = inl p ->
  down db = false /\ p ∈ lti_platforms db /\ live p = true /\ cond p = true.
Proof.
  unfold First. destruct (down db); [done|].
  destruct (least _) as [q|] eqn:E; [|done]. intros [= <-].
  apply least_elem, list_elem_of_filter in E as [Hc Hin].
  apply andb_true_iff in Hc. tauto.
Qed.

Lemma elem_of_map {B} (f : Platform -> B) (rows : list Platform) p :
  p ∈ rows -> f p ∈ map f rows.
Proof.
  intros H. apply list_elem_of_In, in_map. by apply list_elem_of_In.
Qed.

Lemma same_key_same_row {B} (f : Platform -> B) (rows : list Platform) p q :
  NoDup (map f rows) -> p ∈ rows -> q ∈ rows -> f p = f q -> p = q.
Proof.
  induction rows as [|r rows IH]; intros Hnd Hp Hq Heq.
  - by apply elem_of_nil in Hp.
  - simpl in Hnd. apply NoDup_cons in Hnd as [Hr Hnd].
    apply elem_of_cons in Hp as [->|Hp];
      apply elem_of_cons in Hq as [->|Hq]; try done.
    + destruct Hr. rewrite Heq. by apply elem_of_map.
    + destruct Hr. rewrite <- Heq. by apply elem_of_map.
    + by apply IH.
Qed.

Lemma issuerTaken_false iss id (rows : list Platform) :
  (forall q, q ∈ rows -> Issuer q = iss -> pID q = id) ->
  issuerTaken iss id rows = false.
Proof.
  intros H. unfold issuerTaken. apply not_true_is_false. intros Ht.
  apply existsb_exists in Ht as (q & Hin & Hq).
  apply andb_true_iff in Hq as [Hi Hn].
  apply bool_decide_eq_true in Hi. apply negb_true_iff in Hn.
  apply bool_decide_eq_false in Hn. apply Hn, H; [|done].
  by apply list_elem_of_In.
Qed.

Lemma replaceRow_ids row (rows : list Platform) :
  map pID (replaceRow row rows) = map pID rows.
Proof.
  unfold replaceRow. rewrite map_map. apply map_ext. intros q.
  by destruct (decide (pID q = pID row)).
Qed.

Lemma replaceRow_issuers row (rows : list Platform) :
  (forall q, q ∈ rows -> pID q = pID row -> Issuer q = Issuer row) ->
  map Issuer (replaceRow row rows) = map Issuer rows.
Proof.
  intros H. unfold replaceRow. rewrite map_map.
  apply map_ext_in. intros q Hin.
  destruct (decide (pID q = pID row)); [|done].
  symmetry. apply H; [|done]. by apply list_elem_of_In.
Qed.

Lemma replaceRow_elem row (rows : list Platform) q :
  q ∈ rows -> pID q = pID row -> row ∈ replaceRow row rows.
Proof.
  intros Hin Hid. unfold replaceRow.
  apply list_elem_of_In, in_map_iff. exists q.
  split; [|by apply list_elem_of_In].
  by destruct (decide (pID q = pID row)).
Qed.

Lemma no_record iss (rows : list Platform) :
  (forall r, r ∈ rows -> Issuer r <> iss) ->
  filter (fun p => Issuer p = iss) rows = [].
Proof.
  induction rows as [|q rows IH]; intros H; [done|].
  rewrite filter_cons.
  destruct (decide (Issuer q = iss)) as [Heq|].
  - destruct (H q); [apply list_elem_of_here|done].
  - apply IH. intros r Hr. apply H. by apply list_elem_of_further.
Qed.

Lemma recordsFor_unique iss db row :
  NoDup (map Issuer (lti_platforms db)) ->
  row ∈ lti_platforms db -> Issuer row = iss ->
  length (recordsFor iss db) = 1%nat.
Proof.
  unfold recordsFor. induction (lti_platforms db) as [|q rows IH];
    intros Hnd Hin Hiss.
  - by apply elem_of_nil in Hin.
  - simpl in Hnd. apply NoDup_cons in Hnd as [Hq Hnd].
    rewrite filter_cons.
    apply elem_of_cons in Hin as [<-|Hin].
    + destruct (decide (Issuer row = iss)); [|done]. simpl. f_equal.
      apply length_zero_iff_nil.
      apply no_record. intros r Hr Heq.
      destruct Hq. rewrite Hiss, <- Heq. by apply elem_of_map.
    + destruct (decide (Issuer q = iss)) as [Heq|]; [|by apply IH].
      destruct Hq. rewrite Heq, <- Hiss. by apply elem_of_map.
Qed.

(** When a live platform has the issuer, [Upsert] updates its row: same
    id, same creation time, the caller's other fields; no row is added. *)
Lemma Upsert_updates_existing p now db existing :
  consistent db ->
  FindByIssuer (Issuer p) db = inl existing ->
  let row := withPlatformTimes (pCreatedAt existing) now
               (withPlatformID (pID existing) (pCreatedAt existing) p) in
  let db' := setPlatforms (replaceRow row (lti_platforms db))
               (lti_platforms_seq db) db in
  Upsert p now db = (db', row, None) /\
  pID row = pID existing /\
  length (lti_platforms db') = length (lti_platforms db) /\
  length (recordsFor (Issuer p) db') = 1%nat /\
  consistent db'.
Proof.
  intros (Hids & Hiss & Hpos & Hseq) Hfind row db'.
  unfold Upsert. rewrite Hfind.
  apply First_found in Hfind as (Hup & Hin & Hlive & Hcond).
  apply bool_decide_eq_true in Hcond.
  assert (Hid0 : pID existing <> 0).
  { rewrite Forall_forall in Hpos. specialize (Hpos _ Hin). lia. }
  assert (Hsame : forall q, q ∈ lti_platforms db ->
                    Issuer q = Issuer p -> q = existing).
  { intros q Hq Heq.
    apply (same_key_same_row Issuer (lti_platforms db)); try done.
    by rewrite Heq. }
  assert (Hmaps : map Issuer (replaceRow row (lti_platforms db))
                  = map Issuer (lti_platforms db)).
  { apply replaceRow_issuers. intros q Hq Hid. simpl.
    assert (q = existing) as ->; [|done].
    by apply (same_key_same_row pID (lti_platforms db)). }
  split; [|split; [done|split; [|split]]].
  - unfold Update, dbSave. rewrite Hup. simpl.
    destruct (decide (pID existing = 0)); [done|].
    rewrite issuerTaken_false.
    2:{ intros q Hq Heq. by rewrite (Hsame q Hq Heq). }
    replace (existsb _ (lti_platforms db)) with true; [done|].
    symmetry. apply existsb_exists. exists existing.
    split; [by apply list_elem_of_In|].
    rewrite Hlive. by rewrite bool_decide_eq_true_2.
  - simpl. unfold replaceRow. by rewrite length_map.
  - apply (recordsFor_unique (Issuer p) db' row); simpl.
    + by rewrite Hmaps.
    + by apply (replaceRow_elem row _ existing).
    + done.
  - unfold consistent. simpl.
    rewrite replaceRow_ids, Hmaps. repeat split; try done.
    apply Forall_forall. intros q Hq.
    apply list_elem_of_In, in_map_iff in Hq as (q' & <- & Hq').
    apply list_elem_of_In in Hq'.
    rewrite Forall_forall in Hpos.
    destruct (decide (pID q' = pID row)).
    + simpl. specialize (Hpos _ Hin). lia.
    + by apply Hpos.
Qed.

End RegistryFacts.

Section RegistryCreation.
Import PlatformRepository.

Lemma maxID_bound (rows : list Platform) q : q ∈ rows -> pID q <= maxID rows.
Proof.
  induction rows as [|r rows IH]; intros Hin.
  - by apply elem_of_nil in Hin.
  - simpl. apply elem_of_cons in Hin as [->|Hin]; [lia|].
    specialize (IH Hin). lia.
Qed.

Lemma maxID_nonneg (rows : list Platform) : 0 <= maxID rows.
Proof. induction rows; simpl; lia. Qed.

Lemma hasID_false id (rows : list Platform) :
  (forall q, q ∈ rows -> pID q <> id) -> hasID id rows = false.
Proof.
  intros H. unfold hasID. apply not_true_is_false. intros Ht.
  apply existsb_exists in Ht as (q & Hin & Hq).
  apply bool_decide_eq_true in Hq. apply (H q); [|done].
  by apply list_elem_of_In.
Qed.

Lemma FindByIssuer_none iss db :
  down db = false ->
  (forall q, q ∈ lti_platforms db -> Issuer q = iss -> live q = false) ->
  FindByIssuer iss db = inr gorm.ErrRecordNotFound.
Proof.
  intros Hup H. unfold FindByIssuer, First. rewrite Hup.
  destruct (least _) as [q|] eqn:E; [|done].
  apply least_elem, list_elem_of_filter in E as [Hc Hin].
  apply andb_true_iff in Hc as [Hl Hi]. apply bool_decide_eq_true in Hi.
  by rewrite (H q Hin Hi) in Hl.
Qed.

(** When no row holds the issuer, [Upsert] of a platform without an id
    adds one row, under a new id. *)
Lemma Upsert_creates_missing p now db :
  consistent db -> down db = false ->
  recordsFor (Issuer p) db = [] -> pID p = 0 ->
  let id := Z.max (lti_platforms_seq db) (maxID (lti_platforms db)) + 1 in
  let row := withPlatformID id
               (if time.IsZero (pCreatedAt p) then now else pCreatedAt p)
               (stampTimes now p) in
  let db' := setPlatforms (lti_platforms db ++ [row])
               (Z.max (lti_platforms_seq db) id) db in
  Upsert p now db = (db', row, None) /\
  recordsFor (Issuer p) db' = [row] /\
  consistent db'.
Proof.
  intros (Hids & Hiss & Hpos & Hseq) Hup Hnone Hzero id row db'.
  assert (Hno : forall q, q ∈ lti_platforms db -> Issuer q <> Issuer p).
  { intros q Hq Heq.
    by apply (filter_nil_not_elem_of _ _ q Hnone Heq). }
  assert (Hfresh : forall q, q ∈ lti_platforms db -> pID q <> id).
  { intros q Hq. pose proof (maxID_bound _ _ Hq). subst id. lia. }
  split; [|split].
  - unfold Upsert. rewrite FindByIssuer_none; [|done|].
    2:{ intros q Hq Heq. by destruct (Hno q Hq). }
    unfold Create, dbCreate. rewrite Hup.
    destruct (decide (pID p = 0)); [|done]. fold id.
    rewrite hasID_false by done.
    rewrite issuerTaken_false; [done|].
    intros q Hq Heq. by destruct (Hno q Hq).
  - unfold recordsFor. simpl. rewrite filter_app.
    fold (recordsFor (Issuer p) db). rewrite Hnone. simpl.
    rewrite filter_cons. by destruct (decide (Issuer row = Issuer p)).
  - unfold consistent. simpl. rewrite !map_app. simpl.
    pose proof (maxID_nonneg (lti_platforms db)).
    repeat split.
    + apply NoDup_app. repeat split; [done| |apply NoDup_singleton].
      intros x Hx Hx'. apply list_elem_of_singleton in Hx'. subst x.
      apply list_elem_of_In, in_map_iff in Hx as (q & Hq & Hin).
      apply list_elem_of_In in Hin. by destruct (Hfresh q Hin).
    + apply NoDup_app. repeat split; [done| |apply NoDup_singleton].
      intros x Hx Hx'. apply list_elem_of_singleton in Hx'. subst x.
      apply list_elem_of_In, in_map_iff in Hx as (q & Hq & Hin).
      apply list_elem_of_In in Hin. by destruct (Hno q Hin).
    + apply Forall_app. split; [done|].
      apply Forall_singleton. subst row id. simpl. lia.
    + subst id. lia.
Qed.

(** When the only row that holds the issuer is soft-deleted, [Upsert]
    neither updates nor creates: it fails on the unique index and leaves
    the table as it was. *)
Lemma Upsert_fails_on_deleted p now db gone :
  consistent db -> down db = false ->
  gone ∈ lti_platforms db -> Issuer gone = Issuer p -> live gone = false ->
  Upsert p now db = (db, p, Some gorm.ErrDuplicatedKey).
Proof.
  intros (Hids & Hiss & Hpos & Hseq) Hup Hin Heq Hdead.
  unfold Upsert. rewrite FindByIssuer_none; [|done|].
  2:{ intros q Hq Hq'.
      assert (q = gone) as ->; [|done].
      apply (same_key_same_row Issuer (lti_platforms db)); try done.
      by rewrite Heq. }
  unfold Create, dbCreate. rewrite Hup.
  set (id := if decide (pID p = 0) then _ else _).
  destruct (hasID id (lti_platforms db)) eqn:Hhas; [done|].
  replace (issuerTaken _ _ _) with true; [done|].
  symmetry. apply existsb_exists. exists gone.
  split; [by apply list_elem_of_In|].
  rewrite bool_decide_eq_true_2 by done. simpl.
  apply negb_true_iff, not_true_is_false. intros Hid.
  apply bool_decide_eq_true in Hid.
  assert (hasID id (lti_platforms db) = true); [|congruence].
  apply existsb_exists. exists gone.
  split; [by apply list_elem_of_In|]. by apply bool_decide_eq_true.
Qed.

End RegistryCreation.

(** C8, at the input where the code departs from it. After a platform was
    registered and deleted (a soft deletion: the row stays, marked), no
    platform with the issuer is found; yet [Upsert] of the issuer does not
    create one, and does not update the marked row either: the insert runs
    into the unique index on the issuer, [Upsert] returns the error, and the
    table is unchanged, without a live record of the issuer. *)
Theorem C8_upsert_fails_after_delete :
  let db := RegistryDemo.deleted in
  let p := RegistryDemo.again in
  let now := LaunchDemo.t0 + 2 in
  PlatformRepository.consistent db /\
  PlatformRepository.FindByIssuer (Issuer p) db = inr gorm.ErrRecordNotFound /\
  PlatformRepository.List db = inl [] /\
  PlatformRepository.Upsert p now db = (db, p, Some gorm.ErrDuplicatedKey) /\
  PlatformRepository.FindByIssuer (Issuer p)
    (PlatformRepository.Upsert p now db).1.1 = inr gorm.ErrRecordNotFound.
Proof.
  repeat split; try (vm_compute; reflexivity).
  - vm_compute. apply NoDup_singleton.
  - vm_compute. apply NoDup_singleton.
  - vm_compute. apply Forall_singleton. reflexivity.
  - vm_compute. discriminate.
Qed.

Section RegistryTwice.
Import PlatformRepository.

Lemma FindByIssuer_live db row :
  consistent db -> down db = false ->
  row ∈ lti_platforms db -> live row = true ->
  FindByIssuer (Issuer row) db = inl row.
Proof.
  intros (Hids & Hiss & _) Hup Hin Hlive.
  unfold FindByIssuer, First. rewrite Hup.
  destruct (least _) as [q|] eqn:E.
  - apply least_elem, list_elem_of_filter in E as [Hc Hq].
    apply andb_true_iff in Hc as [_ Hi]. apply bool_decide_eq_true in Hi.
    f_equal. by apply (same_key_same_row Issuer (lti_platforms db)).
  - apply least_none in E.
    assert (row ∈ filter (fun p => live p && bool_decide (Issuer p = Issuer row)
                                   = true) (lti_platforms db)) as Hrow.
    { apply list_elem_of_filter. split; [|done].
      rewrite Hlive. by rewrite bool_decide_eq_true_2. }
    rewrite E in Hrow. by apply elem_of_nil in Hrow.
Qed.

(** Registering an issuer that is not in the table and then registering
    it again leaves one record of it, under the id of the first call. *)
Lemma Upsert_twice_one_record p1 p2 now1 now2 db :
  consistent db -> down db = false ->
  recordsFor (Issuer p1) db = [] -> pID p1 = 0 -> pDeletedAt p1 = None ->
  Issuer p2 = Issuer p1 ->
  let first := Upsert p1 now1 db in
  let second := Upsert p2 now2 first.1.1 in
  first.2 = None /\ second.2 = None /\
  pID second.1.2 = pID first.1.2 /\
  length (recordsFor (Issuer p1) first.1.1) = 1%nat /\
  length (recordsFor (Issuer p1) second.1.1) = 1%nat.
Proof.
  intros Hc Hup Hnone Hzero Hlive Hsame first second.
  destruct (Upsert_creates_missing p1 now1 db Hc Hup Hnone Hzero)
    as (Hfirst & Hrec & Hc').
  subst second first. rewrite Hfirst. simpl.
  set (row := withPlatformID _ _ _) in *.
  set (db' := setPlatforms _ _ _) in *.
  assert (Hfind : FindByIssuer (Issuer p2) db' = inl row).
  { rewrite Hsame. change (Issuer p1) with (Issuer row).
    apply FindByIssuer_live; try done.
    - simpl. apply elem_of_app. right. apply list_elem_of_here.
    - unfold live. simpl. by rewrite Hlive. }
  destruct (Upsert_updates_existing p2 now2 db' row Hc' Hfind)
    as (Hsecond & Hid & _ & Hone & _).
  rewrite Hsecond. simpl. rewrite Hrec.
  repeat split; try done. by rewrite <- Hsame.
Qed.

End RegistryTwice.

(* ================================================================== *)
(** * Further properties of the state store *)

Section StoreComposition.
Import StateStore.

Lemma Sub_mono t t' u : t <= t' -> time.Sub t u <= time.Sub t' u.
Proof.
  intros H. unfold time.Sub, time.minDuration, time.maxDuration.
  repeat case_decide; lia.
Qed.

Lemma expired_later now later h p :
  now <= later -> expired now h p = true -> expired later h p = true.
Proof.
  intros Hle. unfold expired. destruct (h !! p) as [d|]; [|done].
  intros He. apply bool_decide_eq_true in He. apply bool_decide_eq_true.
  pose proof (Sub_mono now later (CreatedAt d) Hle). lia.
Qed.

Lemma store_ext (s1 s2 : t) :
  heap s1 = heap s2 -> states s1 = states s2 -> s1 = s2.
Proof. destruct s1, s2. simpl. by intros -> ->. Qed.

Lemma step_wf c s : wf s -> wf (step c s).
Proof.
  intros W. destruct c as [k p now|k|k|now|d|p d]; simpl.
  - unfold Store. destruct (heap s !! p) as [d|] eqn:Hp; simpl; [|done].
    intros k' p' Hk. simpl in *.
    destruct (decide (p' = p)) as [->|Hne].
    + rewrite lookup_insert_eq. by eexists.
    + rewrite lookup_insert_ne by done.
      destruct (decide (k' = k)) as [->|Hk'].
      * rewrite lookup_insert_eq in Hk. by injection Hk as <-.
      * rewrite lookup_insert_ne in Hk by done. by apply (W k').
  - intros k' p' Hk. rewrite Get_heap. apply Get_sub in Hk. by apply (W k').
  - done.
  - intros k' p' Hk. apply cleanup_sub in Hk. by apply (W k').
  - intros k' p' Hk. simpl in *.
    destruct (W k' p' Hk) as [d' Hd'].
    exists d'. rewrite lookup_insert_ne; [done|].
    intros <-.
    assert (Hin : fresh (dom (heap s)) ∈ dom (heap s))
      by (apply elem_of_dom; eauto).
    by apply is_fresh in Hin.
  - destruct (heap s !! p) as [d0|] eqn:Hp; [|done].
    intros k' p' Hk. simpl in *.
    destruct (decide (p' = p)) as [->|Hne].
    + rewrite lookup_insert_eq. by eexists.
    + rewrite lookup_insert_ne by done. by apply (W k').
Qed.

Lemma run_wf cs : forall s, wf s -> wf (run cs s).
Proof.
  induction cs as [|c cs IH]; intros s W; [done|].
  simpl. apply IH. by apply step_wf.
Qed.

End StoreComposition.

(** X1: what [Store] puts under a state is what [Peek] and [Get] give back:
    the same object, with the nonce, target link and client id it had and
    the time of the call as creation time. Neither the [Store] nor the
    [Get] that consumes the entry touches the entry of any other state or
    any other object. *)
Theorem X1_store_then_get_returns_entry (state : string)
    (data : StateStore.ptr) (now : time.Time) (s : StateStore.t)
    (d : StateStore.StateData) :
  StateStore.heap s !! data = Some d ->
  exists s',
    StateStore.Store state data now s = Some s' /\
    StateStore.Peek state s' = Some data /\
    (StateStore.Get state s').1 = Some data /\
    StateStore.deref (StateStore.Get state s').2 data
    = Some (StateStore.mkStateData (StateStore.Nonce d)
              (StateStore.TargetLinkURI d) (StateStore.ClientID d) now) /\
    (forall k, k <> state ->
       StateStore.Peek k s' = StateStore.Peek k s /\
       StateStore.Peek k (StateStore.Get state s').2 = StateStore.Peek k s) /\
    (forall p, p <> data -> StateStore.deref s' p = StateStore.deref s p).
Proof.
  intros Hd. unfold StateStore.Store. rewrite Hd. eexists.
  split; [reflexivity|].
  unfold StateStore.Peek, StateStore.Get, StateStore.deref. simpl.
  rewrite !lookup_insert_eq. simpl. rewrite lookup_insert_eq.
  repeat split; try done.
  - by rewrite lookup_insert_ne.
  - rewrite lookup_delete_ne by done. by rewrite lookup_insert_ne.
  - intros p Hp. by rewrite lookup_insert_ne.
Qed.

Lemma X1_store_then_get_returns_entry_witness :
  exists s',
    StateStore.Store "st-2" 1%positive 9 StateStoreDemo.demo_store = Some s' /\
    StateStore.Peek "st-2" s' = Some 1%positive /\
    (StateStore.Get "st-2" s').1 = Some 1%positive /\
    StateStore.Peek "st-1" (StateStore.Get "st-2" s').2 = Some 1%positive.
Proof.
  destruct (X1_store_then_get_returns_entry "st-2" 1%positive 9
              StateStoreDemo.demo_store
              (StateStore.setCreatedAt 5 StateStoreDemo.demo_data))
    as (s' & Hs & Hp & Hg & _ & Hk & _).
  - vm_compute. reflexivity.
  - exists s'. repeat split; try done.
    destruct (Hk "st-1") as [_ ->]; [discriminate|].
    vm_compute. reflexivity.
Defined.

(** X2: [Store] on a state that is already in the store overwrites its
    entry: the store has as many entries as before, the state now leads to
    the new object, and one [Get] consumes it for good (the entry it
    replaced does not come back). *)
Theorem X2_store_overwrites_entry (state : string)
    (old data : StateStore.ptr) (now : time.Time) (s : StateStore.t)
    (d : StateStore.StateData) :
  StateStore.states s !! state = Some old ->
  StateStore.heap s !! data = Some d ->
  exists s',
    StateStore.Store state data now s = Some s' /\
    StateStore.Peek state s' = Some data /\
    size (StateStore.states s') = size (StateStore.states s) /\
    StateStore.Peek state (StateStore.Get state s').2 = None /\
    (StateStore.Get state (StateStore.Get state s').2).1 = None.
Proof.
  intros Hold Hd. unfold StateStore.Store. rewrite Hd. eexists.
  split; [reflexivity|].
  unfold StateStore.Peek, StateStore.Get. simpl.
  rewrite !lookup_insert_eq. simpl. rewrite lookup_delete_eq.
  repeat split; try done.
  rewrite <- (insert_delete_id (StateStore.states s) state old) at 2 by done.
  rewrite <- insert_delete_eq.
  rewrite !map_size_insert_None by apply lookup_delete_eq. done.
Qed.

Lemma X2_store_overwrites_entry_witness :
  exists s',
    StateStore.Store "st-1" 1%positive 9 StateStoreDemo.demo_store = Some s' /\
    size (StateStore.states s') = 1%nat /\
    (StateStore.Get "st-1" (StateStore.Get "st-1" s').2).1 = None.
Proof.
  destruct (X2_store_overwrites_entry "st-1" 1%positive 1%positive 9
              StateStoreDemo.demo_store
              (StateStore.setCreatedAt 5 StateStoreDemo.demo_data))
    as (s' & Hs & _ & Hsize & _ & Hg).
  - vm_compute. reflexivity.
  - vm_compute. reflexivity.
  - exists s'. repeat split; try done.
Defined.

(** X3: a sweep only removes entries and leaves the objects alone; every
    entry it leaves is at most ten minutes old at the time of the sweep;
    sweeping twice at one time is sweeping once, and a sweep at a later
    time makes an earlier one redundant. *)
Theorem X3_sweep_keeps_only_fresh_entries (now : time.Time)
    (s : StateStore.t) :
  StateStore.heap (StateStore.cleanup now s) = StateStore.heap s /\
  (forall k p, StateStore.states (StateStore.cleanup now s) !! k = Some p ->
     StateStore.states s !! k = Some p) /\
  (forall k p d,
     StateStore.states (StateStore.cleanup now s) !! k = Some p ->
     StateStore.heap s !! p = Some d ->
     time.Sub now (StateStore.CreatedAt d) <= StateStore.ttl) /\
  StateStore.cleanup now (StateStore.cleanup now s) = StateStore.cleanup now s /\
  (forall later, now <= later ->
     StateStore.cleanup later (StateStore.cleanup now s)
     = StateStore.cleanup later s).
Proof.
  assert (Hcomp : forall later, now <= later ->
     StateStore.cleanup later (StateStore.cleanup now s)
     = StateStore.cleanup later s).
  { intros later Hle. apply store_ext; [done|]. apply map_eq. intros k.
    rewrite !cleanup_lookup. simpl.
    destruct (StateStore.states s !! k) as [p|]; [|done].
    destruct (StateStore.expired now _ p) eqn:E1; [|done].
    by rewrite (expired_later now later _ p Hle E1). }
  repeat split.
  - apply cleanup_sub.
  - intros k p d Hk Hd. rewrite cleanup_lookup in Hk.
    destruct (StateStore.states s !! k) as [p'|]; [|done].
    destruct (StateStore.expired now _ p') eqn:E; [done|].
    injection Hk as ->. unfold StateStore.expired in E. rewrite Hd in E.
    apply bool_decide_eq_false in E. lia.
  - by apply Hcomp.
  - exact Hcomp.
Qed.

(** X4: in a store that was built through its own operations every pointer
    in the map points to an allocated object, whatever the order and the
    arguments of the calls, and whatever the callers assign through the
    pointers they hold: what [Peek] or [Get] hands out can always be
    dereferenced. *)
Theorem X4_stored_pointers_are_allocated (cs : list StateStore.call)
    (h0 : gmap StateStore.ptr StateStore.StateData) :
  let s := StateStore.run cs (StateStore.NewStateStore h0) in
  StateStore.wf s /\
  (forall k p, StateStore.Peek k s = Some p -> is_Some (StateStore.deref s p)) /\
  (forall k p, (StateStore.Get k s).1 = Some p ->
     is_Some (StateStore.deref (StateStore.Get k s).2 p)).
Proof.
  intros s.
  assert (W : StateStore.wf s).
  { apply run_wf. intros k p H. simpl in H. by rewrite lookup_empty in H. }
  split; [done|]. split.
  - intros k p Hk. by apply (W k).
  - intros k p. unfold StateStore.Get.
    destruct (StateStore.states s !! k) as [q|] eqn:E; simpl; [|done].
    intros [= ->]. by apply (W k).
Qed.

(* ================================================================== *)
(** * Further properties of the token validator *)

Section ValidatorGuarantees.
Import JWTValidator.
Context {codec : jwt.Codec LTIClaims} {crypto : jwt.Crypto}
        {keysets : KeySets}.

Lemma HasRole_elem c role : HasRole c role = true <-> role ∈ Roles c.
Proof.
  unfold HasRole. rewrite existsb_exists. split.
  - intros (r & Hin & Hr). apply bool_decide_eq_true in Hr. subst.
    by apply list_elem_of_In.
  - intros Hin. exists role. split; [by apply list_elem_of_In|].
    by apply bool_decide_eq_true.
Qed.

Lemma Validate_nil_inv o now r :
  jwt.Validate o now r = [] ->
  (forall exp, jwt.ExpiresAt r = Some exp -> now < exp) /\
  (forall nbf, jwt.NotBefore r = Some nbf -> nbf <= now) /\
  (jwt.expectedAud o <> "" -> jwt.expectedAud o ∈ jwt.Audience r) /\
  (jwt.expectedIss o <> "" -> jwt.Issuer r = jwt.expectedIss o).
Proof.
  unfold jwt.Validate. intros H.
  apply app_eq_nil in H as [He H]. apply app_eq_nil in H as [Hn H].
  apply app_eq_nil in H as [Ha Hi].
  repeat split.
  - intros exp Hexp. rewrite Hexp in He. by destruct (decide (now < exp)).
  - intros nbf Hnbf. rewrite Hnbf in Hn.
    destruct (decide (now < nbf)); [done|lia].
  - intros Hne. repeat case_decide; done.
  - intros Hne. repeat case_decide; done.
Qed.

(** What the validator has established when it returns claims. *)
Lemma ValidateToken_accepts_inv v tok platform nonce now claims v' :
  ValidateToken v tok platform nonce now = (inl claims, v') ->
  exists kf token,
    getKeyfunc v (JWKSEndpoint platform) = (inl kf, v') /\
    jwt.ParseWithClaims tok kf
      (jwt.mkOptions (Issuer platform) (ClientID platform)) now = inl token /\
    jwt.TokenClaims token = claims /\
    Nonce claims = nonce /\
    (MessageType claims = "LtiResourceLinkRequest"
     \/ MessageType claims = "LtiDeepLinkingRequest").
Proof.
  unfold ValidateToken.
  destruct (getKeyfunc v _) as [[kf|err] v1]; [|done].
  destruct (jwt.ParseWithClaims _ _ _ _) as [token|err] eqn:Hp; [|done].
  destruct (negb _); [done|].
  destruct (decide (Nonce _ <> nonce)) as [|Heq]; [done|].
  destruct (decide (_ /\ _)) as [|Hm]; [done|].
  intros [= <- <-]. exists kf, token. repeat split; try done.
  - by destruct (decide (Nonce (jwt.TokenClaims token) = nonce)).
  - destruct (decide (MessageType (jwt.TokenClaims token)
                      = "LtiResourceLinkRequest")); [by left|].
    destruct (decide (MessageType (jwt.TokenClaims token)
                      = "LtiDeepLinkingRequest")); [by right|].
    by destruct Hm.
Qed.

(** The parser accepts a token only with a key from the key function and
    a signature that verifies under it. *)
Lemma ParseWithClaims_verified tok (kf : jwt.Keyfunc LTIClaims) o now token :
  jwt.ParseWithClaims tok kf o now = inl token ->
  exists text seg key,
    jwt.decodeParts tok
    = Some (jwt.TokenHeader token, jwt.TokenClaims token, text, seg) /\
    jwt.TokenHeader token !! "alg" = Some (jwt.Alg (jwt.Method token)) /\
    jwt.DecodeSegment seg = Some (jwt.Signature token) /\
    kf (jwt.mkToken tok (jwt.Method token) (jwt.TokenHeader token)
          (jwt.TokenClaims token) (jwt.Signature token) false) = inl key /\
    jwt.Verify (jwt.Method token) text (jwt.Signature token) key = true.
Proof.
  unfold jwt.ParseWithClaims.
  destruct (jwt.decodeParts tok) as [[[[hdr c] text] seg]|]; [|done].
  destruct (hdr !! "alg") as [alg|] eqn:Ha; [|done].
  destruct (jwt.GetSigningMethod alg) as [m|] eqn:Hm; [|done].
  destruct (jwt.DecodeSegment seg) as [sig|] eqn:Hs; [|done].
  cbv beta iota zeta.
  destruct (kf _) as [key|] eqn:Hk; [|done].
  destruct (jwt.Verify m text sig key) eqn:Hv; [|done].
  destruct (jwt.Validate _ _ _); [|done].
  intros [= <-]. simpl. exists text, seg, key.
  apply GetSigningMethod_sound in Hm. subst alg. by repeat split.
Qed.

Lemma getKeyfunc_error v url err v' :
  getKeyfunc v url = (inr err, v') -> v' = v.
Proof.
  unfold getKeyfunc. destruct (jwksCache v !! url); [done|].
  destruct (NewDefaultCtx url); [done|]. by intros [= _ <-].
Qed.

Lemma getKeyfunc_cached v url kf v' :
  getKeyfunc v url = (inl kf, v') -> jwksCache v' !! url = Some kf.
Proof.
  unfold getKeyfunc. destruct (jwksCache v !! url) as [kf0|] eqn:Hc.
  - by intros [= <- <-].
  - destruct (NewDefaultCtx url); [|done].
    intros [= <- <-]. simpl. by rewrite lookup_insert_eq.
Qed.

End ValidatorGuarantees.

(** X5: the role tests of the claims are membership tests on the roles
    list: [HasRole] holds exactly for the listed roles, [IsInstructor]
    exactly when one of the two instructor URIs is listed, [IsLearner]
    exactly when the learner or the student URI is listed. Order and
    repetition of roles do not matter, and without roles both are false. *)
Theorem X5_role_tests_are_membership (c : JWTValidator.LTIClaims) :
  (forall role,
     JWTValidator.HasRole c role = true <-> role ∈ JWTValidator.Roles c) /\
  (JWTValidator.IsInstructor c = true <->
     "http://purl.imsglobal.org/vocab/lis/v2/membership#Instructor"
       ∈ JWTValidator.Roles c
     \/ "http://purl.imsglobal.org/vocab/lis/v2/institution/person#Instructor"
       ∈ JWTValidator.Roles c) /\
  (JWTValidator.IsLearner c = true <->
     "http://purl.imsglobal.org/vocab/lis/v2/membership#Learner"
       ∈ JWTValidator.Roles c
     \/ "http://purl.imsglobal.org/vocab/lis/v2/institution/person#Student"
       ∈ JWTValidator.Roles c) /\
  (forall c' : JWTValidator.LTIClaims,
     JWTValidator.Roles c' ≡ₚ JWTValidator.Roles c ->
     JWTValidator.IsInstructor c' = JWTValidator.IsInstructor c /\
     JWTValidator.IsLearner c' = JWTValidator.IsLearner c) /\
  (JWTValidator.Roles c = [] ->
     JWTValidator.IsInstructor c = false /\ JWTValidator.IsLearner c = false).
Proof.
  assert (Hi : forall c0,
    JWTValidator.IsInstructor c0 = true <->
     "http://purl.imsglobal.org/vocab/lis/v2/membership#Instructor"
       ∈ JWTValidator.Roles c0
     \/ "http://purl.imsglobal.org/vocab/lis/v2/institution/person#Instructor"
       ∈ JWTValidator.Roles c0).
  { intros c0. unfold JWTValidator.IsInstructor. simpl.
    rewrite orb_false_r, orb_true_iff, !HasRole_elem. done. }
  assert (Hl : forall c0,
    JWTValidator.IsLearner c0 = true <->
     "http://purl.imsglobal.org/vocab/lis/v2/membership#Learner"
       ∈ JWTValidator.Roles c0
     \/ "http://purl.imsglobal.org/vocab/lis/v2/institution/person#Student"
       ∈ JWTValidator.Roles c0).
  { intros c0. unfold JWTValidator.IsLearner. simpl.
    rewrite orb_false_r, orb_true_iff, !HasRole_elem. done. }
  split; [apply HasRole_elem|]. split; [apply Hi|]. split; [apply Hl|].
  split.
  - intros c' Hperm. split.
    + apply eq_true_iff_eq. rewrite (Hi c'), (Hi c).
      by setoid_rewrite Hperm.
    + apply eq_true_iff_eq. rewrite (Hl c'), (Hl c).
      by setoid_rewrite Hperm.
  - intros Hnil. split; apply not_true_is_false; intros H.
    + apply Hi in H. rewrite Hnil in H.
      destruct H as [H|H]; by apply elem_of_nil in H.
    + apply Hl in H. rewrite Hnil in H.
      destruct H as [H|H]; by apply elem_of_nil in H.
Qed.

(** X6: the key set of a URL is asked for once. Once [NewDefaultCtx] has
    returned a key function, whatever keys it holds, the validator answers
    from its cache with that key function, whatever a new call would give
    (also when the platform is no longer reachable, or has changed its
    keys); the cached key functions of other URLs are as before. Nothing is
    cached only when [NewDefaultCtx] returns an error. (The library returns
    no error when the download fails: the key function over an empty key
    set that it returns then is cached like any other.) *)
Theorem X6_key_set_is_cached (keysets later : JWTValidator.KeySets)
    (v : JWTValidator.t) (jwksURL : string) :
  (forall kf v',
     JWTValidator.getKeyfunc (keysets := keysets) v jwksURL = (inl kf, v') ->
     JWTValidator.jwksCache v' !! jwksURL = Some kf /\
     JWTValidator.getKeyfunc (keysets := later) v' jwksURL = (inl kf, v') /\
     forall other, other <> jwksURL ->
       JWTValidator.jwksCache v' !! other = JWTValidator.jwksCache v !! other) /\
  (forall err v',
     JWTValidator.getKeyfunc (keysets := keysets) v jwksURL = (inr err, v') ->
     v' = v /\ JWTValidator.jwksCache v !! jwksURL = None).
Proof.
  unfold JWTValidator.getKeyfunc. split.
  - intros kf v'.
    destruct (JWTValidator.jwksCache v !! jwksURL) as [kf0|] eqn:Hc.
    + intros [= <- <-]. rewrite Hc. by repeat split.
    + destruct (JWTValidator.NewDefaultCtx jwksURL) as [kf1|e]; [|done].
      intros [= <- <-]. simpl. rewrite lookup_insert_eq.
      repeat split; try done.
      intros other Hne. by rewrite lookup_insert_ne.
  - intros err v'.
    destruct (JWTValidator.jwksCache v !! jwksURL) as [kf0|] eqn:Hc; [done|].
    destruct (JWTValidator.NewDefaultCtx jwksURL) as [kf1|e]; [done|].
    by intros [= <- <-].
Qed.

Lemma X6_key_set_is_cached_witness :
  exists kf,
    JWTValidator.getKeyfunc (keysets := ValidatorDemo.offline)
      ValidatorDemo.warm (JWKSEndpoint LaunchDemo.canvas)
    = (inl kf, ValidatorDemo.warm).
Proof.
  destruct (JWTValidator.getKeyfunc (keysets := LaunchDemo.keysets)
              JWTValidator.NewJWTValidator (JWKSEndpoint LaunchDemo.canvas))
    as [[kf|e] v'] eqn:E; [|vm_compute in E; discriminate].
  exists kf.
  destruct (proj1 (X6_key_set_is_cached LaunchDemo.keysets
                     ValidatorDemo.offline JWTValidator.NewJWTValidator
                     (JWKSEndpoint LaunchDemo.canvas)) kf v' E)
    as (_ & H & _).
  assert (v' = ValidatorDemo.warm) as <-; [|exact H].
  vm_compute in E. injection E as _ <-. reflexivity.
Defined.

(** X7: claims that [ValidateToken] returns come from a token the parser
    accepted with the platform's issuer and client id as expectations:
    their message type is a resource-link or a deep-linking request, their
    issuer is the platform's (when the platform has one), the platform's
    client id is among their audiences (when the platform has one), and they
    are neither expired nor not yet valid. *)
Theorem X7_validated_claims_match_platform
    (codec : jwt.Codec JWTValidator.LTIClaims) (crypto : jwt.Crypto)
    (keysets : JWTValidator.KeySets)
    (v v' : JWTValidator.t) (tok : string) (platform : Platform)
    (expectedNonce : string) (now : time.Time)
    (claims : JWTValidator.LTIClaims) :
  JWTValidator.ValidateToken v tok platform expectedNonce now
  = (inl claims, v') ->
  let registered := JWTValidator.RegisteredClaims claims in
  (JWTValidator.MessageType claims = "LtiResourceLinkRequest"
   \/ JWTValidator.MessageType claims = "LtiDeepLinkingRequest") /\
  (Issuer platform <> "" -> jwt.Issuer registered = Issuer platform) /\
  (ClientID platform <> "" -> ClientID platform ∈ jwt.Audience registered) /\
  (forall exp, jwt.ExpiresAt registered = Some exp -> now < exp) /\
  (forall nbf, jwt.NotBefore registered = Some nbf -> nbf <= now).
Proof.
  intros H registered.
  apply ValidateToken_accepts_inv in H
    as (kf & token & _ & Hp & <- & _ & Hm).
  apply ParseWithClaims_claims in Hp as (_ & _ & _ & _ & _ & Hv).
  apply Validate_nil_inv in Hv as (He & Hn & Ha & Hi).
  by repeat split.
Qed.

Lemma X7_validated_claims_match_platform_witness :
  jwt.Issuer (JWTValidator.RegisteredClaims (LaunchDemo.idClaims "nonce-b2"))
  = "https://canvas.example.com" /\
  "client-123"
    ∈ jwt.Audience (JWTValidator.RegisteredClaims
                      (LaunchDemo.idClaims "nonce-b2")).
Proof.
  destruct (X7_validated_claims_match_platform LaunchDemo.ltiCodec
              LaunchDemo.crypto LaunchDemo.keysets
              JWTValidator.NewJWTValidator ValidatorDemo.warm "id.fresh.sig"
              (withPlatformID 1 LaunchDemo.t0 LaunchDemo.canvas) "nonce-b2"
              LaunchDemo.t0 (LaunchDemo.idClaims "nonce-b2"))
    as (_ & Hi & Ha & _).
  - vm_compute. reflexivity.
  - split; [apply Hi|apply Ha]; discriminate.
Defined.

(** X8: a token is rejected when [NewDefaultCtx] returns an error (and
    then nothing is cached), when the key function has no key for the
    token, and when the signature does not verify under the key it gives;
    in the last two cases the key function is in the cache afterwards. The
    claims of the token play no part in this. A platform whose key set
    could not be downloaded is the second case: its key function holds no
    key, every token of the platform is rejected, and that key function is
    cached. *)
Theorem X8_unverifiable_token_is_rejected
    (codec : jwt.Codec JWTValidator.LTIClaims) (crypto : jwt.Crypto)
    (keysets : JWTValidator.KeySets)
    (v : JWTValidator.t) (tok : string) (platform : Platform)
    (expectedNonce : string) (now : time.Time) :
  (forall err v',
     JWTValidator.getKeyfunc v (JWKSEndpoint platform) = (inr err, v') ->
     JWTValidator.ValidateToken v tok platform expectedNonce now
     = (inr ("failed to get JWKS: " +:+ err), v)) /\
  (forall kf v' hdr c text seg m sig,
     JWTValidator.getKeyfunc v (JWKSEndpoint platform) = (inl kf, v') ->
     jwt.decodeParts tok = Some (hdr, c, text, seg) ->
     hdr !! "alg" = Some (jwt.Alg m) ->
     jwt.GetSigningMethod (jwt.Alg m) = Some m ->
     jwt.DecodeSegment seg = Some sig ->
     match kf (jwt.mkToken tok m hdr c sig false) with
     | inr _ => True
     | inl key => jwt.Verify m text sig key = false
     end ->
     JWTValidator.jwksCache v' !! JWKSEndpoint platform = Some kf /\
     exists err,
       JWTValidator.ValidateToken v tok platform expectedNonce now
       = (inr err, v')) /\
  (forall kf v',
     JWTValidator.getKeyfunc v (JWKSEndpoint platform) = (inl kf, v') ->
     (forall t, exists e, kf t = inr e) ->
     JWTValidator.jwksCache v' !! JWKSEndpoint platform = Some kf /\
     exists err,
       JWTValidator.ValidateToken v tok platform expectedNonce now
       = (inr err, v')).
Proof.
  split; [|split].
  - intros err v' Hk. unfold JWTValidator.ValidateToken. rewrite Hk.
    by rewrite (getKeyfunc_error v (JWKSEndpoint platform) err v' Hk).
  - intros kf v' hdr c text seg m sig Hk Hd Ha Hm Hs Hbad.
    split; [by apply (getKeyfunc_cached v)|].
    unfold JWTValidator.ValidateToken, jwt.ParseWithClaims.
    rewrite Hk, Hd. cbv beta iota. rewrite Ha, Hm. cbv beta iota.
    rewrite Hs. cbv beta iota zeta.
    destruct (kf _) as [key|e]; [|by eexists].
    rewrite Hbad. by eexists.
  - intros kf v' Hk Hempty. split; [by apply (getKeyfunc_cached v)|].
    unfold JWTValidator.ValidateToken, jwt.ParseWithClaims. rewrite Hk.
    destruct (jwt.decodeParts tok) as [[[[hdr c] text] seg]|];
      [|by eexists].
    destruct (hdr !! "alg") as [alg|]; [|by eexists].
    destruct (jwt.GetSigningMethod alg) as [m|]; [|by eexists].
    destruct (jwt.DecodeSegment seg) as [sig|]; [|by eexists].
    cbv zeta.
    destruct (Hempty (jwt.mkToken tok m hdr c sig false)) as [e ->].
    by eexists.
Qed.

Lemma X8_unverifiable_token_is_rejected_witness :
  (exists err v',
     JWTValidator.ValidateToken (codec := LaunchDemo.ltiCodec)
       (crypto := LaunchDemo.crypto) (keysets := ValidatorDemo.offline)
       JWTValidator.NewJWTValidator "id.fresh.sig" LaunchDemo.canvas
       "nonce-b2" LaunchDemo.t0 = (inr err, v') /\
     is_Some (JWTValidator.jwksCache v' !! JWKSEndpoint LaunchDemo.canvas)) /\
  JWTValidator.ValidateToken (codec := LaunchDemo.ltiCodec)
    (crypto := LaunchDemo.crypto) (keysets := ValidatorDemo.malformed)
    JWTValidator.NewJWTValidator "id.fresh.sig" LaunchDemo.canvas
    "nonce-b2" LaunchDemo.t0
  = (inr "failed to get JWKS: failed to parse given URL",
     JWTValidator.NewJWTValidator).
Proof.
  split.
  2:{ apply (proj1 (X8_unverifiable_token_is_rejected LaunchDemo.ltiCodec
                      LaunchDemo.crypto ValidatorDemo.malformed
                      JWTValidator.NewJWTValidator "id.fresh.sig"
                      LaunchDemo.canvas "nonce-b2" LaunchDemo.t0)
               "failed to parse given URL" JWTValidator.NewJWTValidator).
      reflexivity. }
  destruct (JWTValidator.getKeyfunc (keysets := ValidatorDemo.offline)
              JWTValidator.NewJWTValidator (JWKSEndpoint LaunchDemo.canvas))
    as [[kf|e] v'] eqn:E; [|vm_compute in E; discriminate].
  destruct (proj1 (proj2 (X8_unverifiable_token_is_rejected
                     LaunchDemo.ltiCodec
                     LaunchDemo.crypto ValidatorDemo.offline
                     JWTValidator.NewJWTValidator "id.fresh.sig"
                     LaunchDemo.canvas "nonce-b2" LaunchDemo.t0))
              kf v' LaunchDemo.rs256 (LaunchDemo.idClaims "nonce-b2")
              "id.fresh" "sig" (jwt.SigningMethodRSA jwt.SHA256) "sig" E)
    as [Hcached [err Herr]]; try (vm_compute; reflexivity).
  - vm_compute in E. injection E as <- _. exact I.
  - exists err, v'. split; [exact Herr|]. by exists kf.
Defined.

(* ================================================================== *)
(** * Further properties of the session manager *)

Section SessionLifetime.
Import SessionManager.
Context {codec : jwt.Codec SessionClaims} {crypto : jwt.Crypto}.


Lemma wrap64_in_range z :
  - 2 ^ 63 <= z < 2 ^ 63 -> time.wrap64 z = z.
Proof.
  intros H. unfold time.wrap64.
  rewrite Z.mod_small; lia.
Qed.

End SessionLifetime.



(* ================================================================== *)
(** * Further properties of the platform repository *)

Section RegistryInvariant.
Import PlatformRepository.

Lemma least_is_least rows p :
  least rows = Some p -> forall q, q ∈ rows -> pID p <= pID q.
Proof.
  revert p. induction rows as [|r rows IH]; intros p Hl q Hq.
  - by apply elem_of_nil in Hq.
  - simpl in Hl. destruct (least rows) as [m|] eqn:E.
    + specialize (IH m eq_refl).
      destruct (decide (pID r <= pID m)); injection Hl as <-;
        apply elem_of_cons in Hq as [->|Hq]; try lia.
      * specialize (IH q Hq). lia.
      * by apply IH.
    + injection Hl as <-. apply least_none in E. subst rows.
      apply elem_of_cons in Hq as [->|Hq]; [lia|].
      by apply elem_of_nil in Hq.
Qed.

Lemma First_least cond db p :
  First cond db = inl p ->
  forall q, q ∈ lti_platforms db -> live q = true -> cond q = true ->
    pID p <= pID q.
Proof.
  unfold First. destruct (down db); [done|].
  destruct (least _) as [m|] eqn:E; [|done]. intros [= <-] q Hq Hl Hc.
  apply (least_is_least _ _ E). apply list_elem_of_filter.
  by rewrite Hl, Hc.
Qed.

Lemma First_none cond db :
  down db = false ->
  (First cond db = inr gorm.ErrRecordNotFound <->
   forall q, q ∈ lti_platforms db -> cond q = true -> live q = false).
Proof.
  intros Hup. unfold First. rewrite Hup. split.
  - destruct (least _) as [m|] eqn:E; [done|]. intros _ q Hq Hc.
    apply least_none in E. apply not_true_is_false. intros Hl.
    assert (Hin : q ∈ filter (fun p => live p && cond p = true)
                             (lti_platforms db)).
    { apply list_elem_of_filter. by rewrite Hl, Hc. }
    rewrite E in Hin. by apply elem_of_nil in Hin.
  - intros H. destruct (least _) as [m|] eqn:E; [|done].
    apply least_elem, list_elem_of_filter in E as [Hc Hin].
    apply andb_true_iff in Hc as [Hl Hc]. by rewrite (H m Hin Hc) in Hl.
Qed.

Lemma replaceRow_absent row (rows : list Platform) :
  (forall q, q ∈ rows -> pID q <> pID row) -> replaceRow row rows = rows.
Proof.
  intros H. unfold replaceRow. induction rows as [|q rows IH]; [done|].
  simpl. destruct (decide (pID q = pID row)) as [Heq|_].
  - destruct (H q); [apply list_elem_of_here|done].
  - f_equal. apply IH. intros r Hr. apply H. by apply list_elem_of_further.
Qed.

Lemma issuerTaken_elim iss id (rows : list Platform) q :
  issuerTaken iss id rows = false -> q ∈ rows -> Issuer q = iss -> pID q = id.
Proof.
  intros Ht Hq Hi. destruct (decide (pID q = id)) as [|Hne]; [done|].
  assert (issuerTaken iss id rows = true); [|congruence].
  apply existsb_exists. exists q. split; [by apply list_elem_of_In|].
  rewrite bool_decide_eq_true_2 by done. simpl.
  by rewrite bool_decide_eq_false_2.
Qed.

Lemma hasID_elim id (rows : list Platform) q :
  hasID id rows = false -> q ∈ rows -> pID q <> id.
Proof.
  intros Hh Hq Heq.
  assert (hasID id rows = true); [|congruence].
  apply existsb_exists. exists q. split; [by apply list_elem_of_In|].
  by apply bool_decide_eq_true.
Qed.

Lemma replaceRow_issuers_nodup row (rows : list Platform) :
  NoDup (map pID rows) -> NoDup (map Issuer rows) ->
  issuerTaken (Issuer row) (pID row) rows = false ->
  NoDup (map Issuer (replaceRow row rows)).
Proof.
  induction rows as [|q rows IH]; intros Hids Hiss Ht; [done|].
  simpl in Hids, Hiss. apply NoDup_cons in Hids as [Hq1 Hids].
  apply NoDup_cons in Hiss as [Hq2 Hiss].
  assert (Ht' : issuerTaken (Issuer row) (pID row) rows = false).
  { apply issuerTaken_false. intros r Hr Hi.
    apply (issuerTaken_elim (Issuer row) (pID row) (q :: rows) r Ht);
      [by apply list_elem_of_further|done]. }
  change (replaceRow row (q :: rows))
    with ((if decide (pID q = pID row) then row else q)
            :: replaceRow row rows).
  destruct (decide (pID q = pID row)) as [Heq|Hne]; simpl.
  - rewrite replaceRow_absent.
    2:{ intros r Hr Hid. apply Hq1. rewrite Heq, <- Hid.
        by apply elem_of_map. }
    apply NoDup_cons. split; [|done].
    intros Hin. apply list_elem_of_In, in_map_iff in Hin as (r & Hi & Hr).
    apply list_elem_of_In in Hr.
    apply Hq1. rewrite Heq.
    rewrite <- (issuerTaken_elim _ _ rows r Ht' Hr Hi).
    by apply elem_of_map.
  - apply NoDup_cons. split; [|by apply IH].
    intros Hin. apply list_elem_of_In, in_map_iff in Hin as (r & Hi & Hr).
    apply in_map_iff in Hr as (r0 & Hr0 & Hin0).
    apply list_elem_of_In in Hin0.
    destruct (decide (pID r0 = pID row)); subst r.
    + apply Hne. apply (issuerTaken_elim _ _ (q :: rows) q Ht);
        [apply list_elem_of_here|done].
    + apply Hq2. rewrite <- Hi. by apply elem_of_map.
Qed.

Lemma consistent_append db row seq :
  consistent db -> 0 < pID row ->
  hasID (pID row) (lti_platforms db) = false ->
  issuerTaken (Issuer row) (pID row) (lti_platforms db) = false ->
  consistent (setPlatforms (lti_platforms db ++ [row])
                (Z.max (lti_platforms_seq db) seq) db).
Proof.
  intros (Hids & Hiss & Hpos & Hseq) Hrow Hh Ht.
  unfold consistent. simpl. rewrite !map_app. simpl. repeat split.
  - apply NoDup_app. repeat split; [done| |apply NoDup_singleton].
    intros x Hx Hx'. apply list_elem_of_singleton in Hx'. subst x.
    apply list_elem_of_In, in_map_iff in Hx as (q & Hq & Hin).
    apply list_elem_of_In in Hin. by apply (hasID_elim _ _ q Hh).
  - apply NoDup_app. repeat split; [done| |apply NoDup_singleton].
    intros x Hx Hx'. apply list_elem_of_singleton in Hx'. subst x.
    apply list_elem_of_In, in_map_iff in Hx as (q & Hq & Hin).
    apply list_elem_of_In in Hin.
    apply (hasID_elim _ _ q Hh Hin).
    by apply (issuerTaken_elim _ _ _ q Ht).
  - apply Forall_app. split; [done|]. by apply Forall_singleton.
  - lia.
Qed.

Lemma consistent_replace db row :
  consistent db -> 0 < pID row ->
  issuerTaken (Issuer row) (pID row) (lti_platforms db) = false ->
  consistent (setPlatforms (replaceRow row (lti_platforms db))
                (lti_platforms_seq db) db).
Proof.
  intros (Hids & Hiss & Hpos & Hseq) Hrow Ht.
  unfold consistent. simpl. rewrite replaceRow_ids. repeat split; try done.
  - by apply replaceRow_issuers_nodup.
  - apply Forall_forall. intros q Hq.
    apply list_elem_of_In, in_map_iff in Hq as (q' & <- & Hq').
    apply list_elem_of_In in Hq'. rewrite Forall_forall in Hpos.
    destruct (decide (pID q' = pID row)); [done|by apply Hpos].
Qed.

Lemma dbCreate_consistent p now db :
  consistent db -> 0 <= pID p -> consistent (dbCreate p now db).1.1.
Proof.
  intros Hc Hp. unfold dbCreate. destruct (down db); [done|].
  set (id := if decide (pID p = 0) then _ else _).
  destruct (hasID id (lti_platforms db)) eqn:Hh; [done|].
  destruct (issuerTaken (Issuer p) id (lti_platforms db)) eqn:Ht; [done|].
  simpl. apply consistent_append; simpl; try done.
  destruct Hc as (_ & _ & _ & Hseq).
  pose proof (maxID_nonneg (lti_platforms db)).
  subst id. destruct (decide (pID p = 0)); lia.
Qed.

Lemma dbSave_consistent p now db :
  consistent db -> 0 <= pID p -> consistent (dbSave p now db).1.1.
Proof.
  intros Hc Hp. unfold dbSave. destruct (down db) eqn:Hup; [done|].
  destruct (decide (pID p = 0)); [by apply dbCreate_consistent|].
  destruct (issuerTaken (Issuer p) (pID p) (lti_platforms db)) eqn:Ht;
    [done|].
  destruct (existsb _ (lti_platforms db)).
  - simpl. apply consistent_replace; simpl; try done. lia.
  - destruct (find _ (lti_platforms db)) as [old|] eqn:Hf; simpl.
    + apply consistent_replace; simpl; try done. lia.
    + apply consistent_append; simpl; try done; [lia|].
      apply not_true_is_false. intros Hh.
      apply existsb_exists in Hh as (q & Hin & Hq).
      by rewrite (find_none _ _ Hf q Hin) in Hq.
Qed.

Lemma Delete_maps id now (rows : list Platform) :
  let rows' := map (fun q => if bool_decide (pID q = id) && live q
                             then withPlatformDeleted (Some now) q else q)
                   rows in
  map pID rows' = map pID rows /\ map Issuer rows' = map Issuer rows.
Proof.
  simpl. rewrite !map_map. split; apply map_ext; intros q;
    by destruct (bool_decide (pID q = id) && live q).
Qed.

Lemma Delete_consistent id now db :
  consistent db -> consistent (Delete id now db).1.
Proof.
  intros (Hids & Hiss & Hpos & Hseq). unfold Delete.
  destruct (down db); [done|]. unfold consistent. simpl.
  destruct (Delete_maps id now (lti_platforms db)) as [-> ->].
  repeat split; try done.
  apply Forall_forall. intros q Hq.
  apply list_elem_of_In, in_map_iff in Hq as (q' & <- & Hq').
  apply list_elem_of_In in Hq'. rewrite Forall_forall in Hpos.
  specialize (Hpos q' Hq').
  by destruct (bool_decide (pID q' = id) && live q').
Qed.

End RegistryInvariant.

(** X11: the table of platforms stays consistent under every operation of
    the repository, successful or not: after [Create], [Update], [Delete]
    or [Upsert] the primary keys are still positive and pairwise different,
    and no two rows, deleted rows included, have the same issuer. *)
Theorem X11_repository_keeps_issuers_unique (p : Platform) (id : Z)
    (now : time.Time) (db : DB) :
  PlatformRepository.consistent db -> 0 <= pID p ->
  PlatformRepository.consistent (PlatformRepository.Create p now db).1.1 /\
  PlatformRepository.consistent (PlatformRepository.Update p now db).1.1 /\
  PlatformRepository.consistent (PlatformRepository.Delete id now db).1 /\
  PlatformRepository.consistent (PlatformRepository.Upsert p now db).1.1.
Proof.
  intros Hc Hp. split; [by apply dbCreate_consistent|].
  split; [by apply dbSave_consistent|].
  split; [by apply Delete_consistent|].
  unfold PlatformRepository.Upsert.
  destruct (PlatformRepository.FindByIssuer (Issuer p) db)
    as [existing|err] eqn:Hf.
  - apply dbSave_consistent; [done|]. simpl.
    apply First_found in Hf as (_ & Hin & _).
    destruct Hc as (_ & _ & Hpos & _). rewrite Forall_forall in Hpos.
    specialize (Hpos _ Hin). lia.
  - by apply dbCreate_consistent.
Qed.

Lemma X11_repository_keeps_issuers_unique_witness :
  PlatformRepository.consistent
    (PlatformRepository.Upsert RegistryDemo.again (LaunchDemo.t0 + 2)
       RegistryDemo.registered).1.1.
Proof.
  refine (proj2 (proj2 (proj2 (X11_repository_keeps_issuers_unique
            RegistryDemo.again 0 (LaunchDemo.t0 + 2) RegistryDemo.registered
            _ _)))).
  - repeat split; vm_compute;
      try apply NoDup_singleton; try (apply Forall_singleton; reflexivity);
      discriminate.
  - vm_compute. discriminate.
Defined.

Section RegistryLookups.
Import PlatformRepository.

Lemma FindByID_live db row :
  consistent db -> down db = false ->
  row ∈ lti_platforms db -> live row = true ->
  FindByID (pID row) db = inl row.
Proof.
  intros (Hids & _) Hup Hin Hlive.
  unfold FindByID, First. rewrite Hup.
  destruct (least _) as [q|] eqn:E.
  - apply least_elem, list_elem_of_filter in E as [Hc Hq].
    apply andb_true_iff in Hc as [_ Hi]. apply bool_decide_eq_true in Hi.
    f_equal. by apply (same_key_same_row pID (lti_platforms db)).
  - apply least_none in E.
    assert (row ∈ filter (fun p => live p && bool_decide (pID p = pID row)
                                   = true) (lti_platforms db)) as Hrow.
    { apply list_elem_of_filter. split; [|done].
      rewrite Hlive. by rewrite bool_decide_eq_true_2. }
    rewrite E in Hrow. by apply elem_of_nil in Hrow.
Qed.

Lemma dbCreate_taken p now db q :
  down db = false -> q ∈ lti_platforms db -> Issuer q = Issuer p ->
  dbCreate p now db = (db, p, Some gorm.ErrDuplicatedKey).
Proof.
  intros Hup Hq Hi. unfold dbCreate. rewrite Hup.
  set (id := if decide (pID p = 0) then _ else _).
  destruct (hasID id (lti_platforms db)) eqn:Hh; [done|].
  destruct (issuerTaken (Issuer p) id (lti_platforms db)) eqn:Ht; [done|].
  destruct (hasID_elim _ _ q Hh Hq).
  by apply (issuerTaken_elim _ _ _ q Ht).
Qed.

Lemma live_after_delete id now (rows : list Platform) :
  filter (fun p => live p = true)
    (map (fun q => if bool_decide (pID q = id) && live q
                   then withPlatformDeleted (Some now) q else q) rows)
  = filter (fun p => pID p <> id) (filter (fun p => live p = true) rows).
Proof.
  induction rows as [|q rows IH]; [done|].
  simpl. rewrite !filter_cons.
  destruct (live q) eqn:Hl.
  - destruct (bool_decide (pID q = id)) eqn:Hb; simpl.
    + apply bool_decide_eq_true in Hb.
      destruct (decide (live (withPlatformDeleted (Some now) q) = true));
        [done|].
      destruct (decide (true = true)); [|done].
      rewrite filter_cons. by destruct (decide (pID q <> id)).
    + apply bool_decide_eq_false in Hb. rewrite Hl.
      destruct (decide (true = true)); [|done].
      rewrite filter_cons. destruct (decide (pID q <> id)); [|done].
      by rewrite IH.
  - rewrite andb_false_r. rewrite Hl.
    destruct (decide (false = true)); [done|]. exact IH.
Qed.

End RegistryLookups.

(** X12: a platform created under an issuer that no row holds gets a new
    positive id and can be read back: [FindByIssuer] with its issuer and
    [FindByID] with its id return the row that was written, which has the
    fields of the platform given to [Create], and [List] shows it after
    the platforms it showed before. *)
Theorem X12_created_platform_is_found (p : Platform) (now : time.Time)
    (db : DB) :
  PlatformRepository.consistent db -> down db = false ->
  PlatformRepository.recordsFor (Issuer p) db = [] ->
  pID p = 0 -> pDeletedAt p = None ->
  exists db' row,
    PlatformRepository.Create p now db = (db', row, None) /\
    0 < pID row /\
    (forall q, q ∈ lti_platforms db -> pID q <> pID row) /\
    (Issuer row, ClientID row, JWKSEndpoint row, AuthEndpoint row)
    = (Issuer p, ClientID p, JWKSEndpoint p, AuthEndpoint p) /\
    PlatformRepository.FindByIssuer (Issuer p) db' = inl row /\
    PlatformRepository.FindByID (pID row) db' = inl row /\
    exists before,
      PlatformRepository.List db = inl before /\
      PlatformRepository.List db' = inl (before ++ [row]).
Proof.
  intros Hc Hup Hnone Hzero Hlive.
  destruct (Upsert_creates_missing p now db Hc Hup Hnone Hzero)
    as (Hupsert & Hrec & Hc').
  set (id := Z.max _ _ + 1) in *.
  set (row := withPlatformID _ _ _) in *.
  set (db' := setPlatforms _ _ _) in *.
  assert (Hcreate : PlatformRepository.Create p now db = (db', row, None)).
  { unfold PlatformRepository.Upsert in Hupsert.
    rewrite FindByIssuer_none in Hupsert; [done|done|].
    intros q Hq Hi.
    by destruct (filter_nil_not_elem_of _ _ q Hnone Hi). }
  assert (Hin : row ∈ lti_platforms db').
  { simpl. apply elem_of_app. right. apply list_elem_of_here. }
  assert (Hrl : PlatformRepository.live row = true).
  { unfold PlatformRepository.live. simpl. by rewrite Hlive. }
  exists db', row. split; [done|].
  destruct Hc as (_ & _ & _ & Hseq).
  pose proof (maxID_nonneg (lti_platforms db)).
  split; [simpl; lia|]. split.
  { intros q Hq. pose proof (maxID_bound _ _ Hq). simpl. lia. }
  split; [done|].
  split; [by apply (FindByIssuer_live db' row)|].
  split; [by apply (FindByID_live db' row)|].
  unfold PlatformRepository.List. rewrite Hup. simpl. rewrite Hup.
  eexists. split; [reflexivity|].
  rewrite filter_app. f_equal. rewrite filter_cons.
  by destruct (decide (PlatformRepository.live row = true)).
Qed.

Lemma X12_created_platform_is_found_witness :
  exists db' row,
    PlatformRepository.Create LaunchDemo.canvas LaunchDemo.t0
      LaunchDemo.emptyDB = (db', row, None) /\
    PlatformRepository.FindByIssuer "https://canvas.example.com" db' = inl row.
Proof.
  destruct (X12_created_platform_is_found LaunchDemo.canvas LaunchDemo.t0
              LaunchDemo.emptyDB)
    as (db' & row & Hcr & _ & _ & _ & Hf & _); try reflexivity.
  - repeat split; vm_compute; try apply NoDup_nil_2; try apply Forall_nil_2.
    discriminate.
  - by exists db', row.
Defined.

(** X13: the unique index on the issuer. [Create] of a platform whose
    issuer some row already holds, deleted or not, fails with a duplicate
    key error, and so does an [Update] that would give a platform the
    issuer of another row; in both cases the table is as before. *)
Theorem X13_duplicate_issuer_is_refused (p q : Platform) (now : time.Time)
    (db : DB) :
  down db = false -> q ∈ lti_platforms db -> Issuer q = Issuer p ->
  PlatformRepository.Create p now db = (db, p, Some gorm.ErrDuplicatedKey) /\
  (pID q <> pID p ->
   PlatformRepository.Update p now db = (db, p, Some gorm.ErrDuplicatedKey)).
Proof.
  intros Hup Hq Hi. split; [by apply (dbCreate_taken p now db q)|].
  intros Hne. unfold PlatformRepository.Update, PlatformRepository.dbSave.
  rewrite Hup. destruct (decide (pID p = 0));
    [by apply (dbCreate_taken p now db q)|].
  destruct (PlatformRepository.issuerTaken _ _ _) eqn:Ht; [done|].
  by destruct (Hne (issuerTaken_elim _ _ _ q Ht Hq Hi)).
Qed.

Lemma X13_duplicate_issuer_is_refused_witness :
  PlatformRepository.Create RegistryDemo.again (LaunchDemo.t0 + 2)
    RegistryDemo.registered
  = (RegistryDemo.registered, RegistryDemo.again,
     Some gorm.ErrDuplicatedKey).
Proof.
  refine (proj1 (X13_duplicate_issuer_is_refused RegistryDemo.again
            (withPlatformID 1 LaunchDemo.t0
               (withPlatformTimes LaunchDemo.t0 LaunchDemo.t0
                  LaunchDemo.canvas))
            (LaunchDemo.t0 + 2) RegistryDemo.registered _ _ _)).
  - reflexivity.
  - vm_compute. apply list_elem_of_here.
  - reflexivity.
Defined.

(** X14: [Delete] is a soft deletion. It removes no row, yet afterwards
    [FindByID] does not find the id and [List] shows the platforms it
    showed before except the one with that id; deleting the id again
    changes nothing. *)
Theorem X14_delete_hides_platform (id : Z) (now later : time.Time)
    (db : DB) :
  down db = false ->
  let db' := (PlatformRepository.Delete id now db).1 in
  (PlatformRepository.Delete id now db).2 = None /\
  length (lti_platforms db') = length (lti_platforms db) /\
  PlatformRepository.FindByID id db' = inr gorm.ErrRecordNotFound /\
  (exists before,
     PlatformRepository.List db = inl before /\
     PlatformRepository.List db'
     = inl (filter (fun q => pID q <> id) before)) /\
  PlatformRepository.Delete id later db' = (db', None).
Proof.
  intros Hup db'. subst db'. unfold PlatformRepository.Delete.
  rewrite Hup. simpl. split; [done|]. split; [by rewrite length_map|].
  split; [|split].
  - apply First_none; [done|]. simpl. intros q Hq Hc.
    apply bool_decide_eq_true in Hc.
    apply list_elem_of_In, in_map_iff in Hq as (q' & <- & _).
    destruct (bool_decide (pID q' = id)) eqn:Hb; simpl.
    + destruct (PlatformRepository.live q') eqn:Hl; simpl; [done|].
      exact Hl.
    + apply bool_decide_eq_false in Hb. by destruct Hb.
  - unfold PlatformRepository.List. simpl. rewrite Hup.
    eexists. split; [reflexivity|]. f_equal. apply live_after_delete.
  - rewrite Hup. f_equal. unfold setPlatforms. simpl. f_equal.
    rewrite map_map. apply map_ext. intros q.
    destruct (bool_decide (pID q = id) && PlatformRepository.live q) eqn:E;
      simpl.
    + by rewrite andb_false_r.
    + by rewrite E.
Qed.

Lemma X14_delete_hides_platform_witness :
  PlatformRepository.FindByID 1 RegistryDemo.deleted
  = inr gorm.ErrRecordNotFound.
Proof.
  refine (proj1 (proj2 (proj2 (X14_delete_hides_platform 1
            (LaunchDemo.t0 + 1) (LaunchDemo.t0 + 1) RegistryDemo.registered
            _)))).
  reflexivity.
Defined.

(** X15: a lookup by client id returns a live platform with that client id,
    and among several the one with the least id; it reports that there is
    none exactly when no live platform has the client id. Client ids are
    not unique, so the platform found need not be the one meant. *)
Theorem X15_find_by_client_id_returns_oldest (clientID : string) (db : DB) :
  (forall p,
     PlatformRepository.FindByClientID clientID db = inl p ->
     p ∈ lti_platforms db /\ pDeletedAt p = None /\ ClientID p = clientID /\
     forall q, q ∈ lti_platforms db -> pDeletedAt q = None ->
       ClientID q = clientID -> pID p <= pID q) /\
  (down db = false ->
   (PlatformRepository.FindByClientID clientID db
    = inr gorm.ErrRecordNotFound <->
    forall q, q ∈ lti_platforms db -> ClientID q = clientID ->
      pDeletedAt q <> None)).
Proof.
  split.
  - intros p Hf.
    pose proof (First_least _ _ _ Hf) as Hmin.
    apply First_found in Hf as (_ & Hin & Hl & Hc).
    apply bool_decide_eq_true in Hl. apply bool_decide_eq_true in Hc.
    repeat split; try done.
    intros q Hq Hql Hqc. apply Hmin; [done| |];
      by apply bool_decide_eq_true.
  - intros Hup. unfold PlatformRepository.FindByClientID.
    rewrite (First_none _ db Hup). split.
    + intros H q Hq Hc Hl. specialize (H q Hq).
      rewrite bool_decide_eq_true_2 in H by done. specialize (H eq_refl).
      apply bool_decide_eq_false in H. done.
    + intros H q Hq Hc. apply bool_decide_eq_true in Hc.
      apply bool_decide_eq_false. by apply H.
Qed.

(* ================================================================== *)
(** * Further properties of the handlers *)

Section LoginOutcomes.
Import Handler.
Context {runtime : http.Runtime}.

(** The exits of [LoginInitiation]. *)
Lemma LoginInitiation_exits h c random1 random2 now w :
  let res := LoginInitiation h c random1 random2 now w in
  (exists msg, res = (http.JSONError http.StatusBadRequest msg, w)) \/
  (exists msg, res = (http.JSONError http.StatusInternalServerError msg, w)) \/
  (exists b1 b2 platform data store1 s2,
     random1 = Some b1 /\ random2 = Some b2 /\
     PlatformRepository.FindByIssuer
       (http.DefaultQuery c "iss" (http.PostForm c "iss")) (db w)
     = inl platform /\
     StateStore.alloc
       (StateStore.mkStateData (http.EncodeToString b2)
          (http.DefaultQuery c "target_link_uri"
             (http.PostForm c "target_link_uri"))
          (ClientID platform) 0) (stateStore w) = (data, store1) /\
     StateStore.Store (http.EncodeToString b1) data now store1 = Some s2 /\
     res.2 = mkWorld (db w) s2 (jwtValidator w) /\
     ((res.1 = http.JSONError http.StatusInternalServerError
                 "invalid auth endpoint")
      \/ (http.Status res.1 = http.StatusFound /\ http.Cookies res.1 = []
          /\ http.Error res.1 = None))).
Proof.
  unfold LoginInitiation.
  repeat (case_decide; [left; by eexists|]).
  destruct (PlatformRepository.FindByIssuer _ _) as [platform|e] eqn:Hf;
    [|left; by eexists].
  case_decide; [left; by eexists|].
  unfold GenerateState, GenerateNonce.
  destruct random1 as [b1|]; [|right; left; by eexists].
  destruct random2 as [b2|]; [|right; left; by eexists].
  right. right.
  destruct (StateStore.alloc _ _) as [data store1] eqn:Ha.
  assert (Hs : exists s2,
    StateStore.Store (http.EncodeToString b1) data now store1 = Some s2).
  { unfold StateStore.alloc in Ha. injection Ha as <- <-.
    unfold StateStore.Store. simpl. rewrite lookup_insert_eq. by eexists. }
  destruct Hs as [s2 Hs]. rewrite Hs. simpl.
  exists b1, b2, platform, data, store1, s2.
  destruct (http.Parse (AuthEndpoint platform)); simpl.
  - repeat split; try done. by right.
  - repeat split; try done. by left.
Qed.

Lemma LoginInitiation_wf h c random1 random2 now w :
  StateStore.wf (stateStore w) ->
  StateStore.wf (stateStore (LoginInitiation h c random1 random2 now w).2).
Proof.
  intros W.
  pose proof (LoginInitiation_exits h c random1 random2 now w) as Hex.
  simpl in Hex.
  destruct Hex as [[msg ->]|[[msg ->]|Hex]]; [done..|].
  destruct Hex as (b1 & b2 & platform & data & store1 & s2 & _ & _ & _
                   & Ha & Hs & -> & _). simpl.
  pose proof (step_wf (StateStore.New
                (StateStore.mkStateData (http.EncodeToString b2)
                   (http.DefaultQuery c "target_link_uri"
                      (http.PostForm c "target_link_uri"))
                   (ClientID platform) 0)) _ W) as W1.
  cbn [StateStore.step] in W1. rewrite Ha in W1. cbn [snd] in W1.
  pose proof (step_wf (StateStore.CallStore (http.EncodeToString b1) data now)
                _ W1) as W2.
  cbn [StateStore.step] in W2. by rewrite Hs in W2.
Qed.

End LoginOutcomes.

(** X16: a login initiation answers 302, 400 or 500 and never sets a
    cookie; it never touches the database or the key-set cache. A request
    it rejects with 400 (a missing iss, login_hint or target_link_uri,
    reported in this order, an unknown issuer, a client_id that is not the
    platform's) leaves the world exactly as it was: no state entry is
    stored for it. *)
Theorem X16_rejected_login_leaves_no_trace (runtime : http.Runtime)
    (h : Handler.t) (c : http.Request) (random1 random2 : option string)
    (now : time.Time) (w : Handler.World) :
  let res := Handler.LoginInitiation h c random1 random2 now w in
  let param := fun key => http.DefaultQuery c key (http.PostForm c key) in
  (http.Status res.1 = http.StatusFound
   \/ http.Status res.1 = http.StatusBadRequest
   \/ http.Status res.1 = http.StatusInternalServerError) /\
  http.Cookies res.1 = [] /\
  Handler.db res.2 = Handler.db w /\
  Handler.jwtValidator res.2 = Handler.jwtValidator w /\
  (http.Status res.1 = http.StatusBadRequest ->
   res.2 = w /\ http.Redirect res.1 = None) /\
  (param "iss" = "" ->
   res = (http.JSONError http.StatusBadRequest "missing iss parameter", w)) /\
  (param "iss" <> "" -> param "login_hint" = "" ->
   res = (http.JSONError http.StatusBadRequest
            "missing login_hint parameter", w)) /\
  (param "iss" <> "" -> param "login_hint" <> "" ->
   param "target_link_uri" = "" ->
   res = (http.JSONError http.StatusBadRequest
            "missing target_link_uri parameter", w)) /\
  (param "iss" <> "" -> param "login_hint" <> "" ->
   param "target_link_uri" <> "" ->
   forall err,
     PlatformRepository.FindByIssuer (param "iss") (Handler.db w) = inr err ->
     res = (http.JSONError http.StatusBadRequest
              "unknown platform issuer", w)) /\
  (param "iss" <> "" -> param "login_hint" <> "" ->
   param "target_link_uri" <> "" ->
   forall platform,
     PlatformRepository.FindByIssuer (param "iss") (Handler.db w)
     = inl platform ->
     param "client_id" <> "" -> param "client_id" <> ClientID platform ->
     res = (http.JSONError http.StatusBadRequest "client_id mismatch", w)).
Proof.
  intros res param.
  pose proof (LoginInitiation_exits h c random1 random2 now w) as Hex.
  fold res in Hex. simpl in Hex.
  assert (Hfirst :
    (http.Status res.1 = http.StatusFound
     \/ http.Status res.1 = http.StatusBadRequest
     \/ http.Status res.1 = http.StatusInternalServerError) /\
    http.Cookies res.1 = [] /\
    Handler.db res.2 = Handler.db w /\
    Handler.jwtValidator res.2 = Handler.jwtValidator w /\
    (http.Status res.1 = http.StatusBadRequest ->
     res.2 = w /\ http.Redirect res.1 = None)).
  { destruct Hex as [[msg ->]|[[msg ->]|Hex]].
    - simpl. repeat split; try done. right. by left.
    - simpl. repeat split; try done. right. by right.
    - destruct Hex as (b1 & b2 & platform & data & store1 & s2 & _ & _ & _
                       & _ & _ & -> & [->|(Hs & Hc & _)]).
      + simpl. repeat split; try done. right. by right.
      + rewrite Hs, Hc. repeat split; try done; try by left.
        all: intros Hbad; discriminate Hbad. }
  destruct Hfirst as (H1 & H2 & H3 & H4 & H5).
  repeat (split; [done|]).
  subst res. unfold Handler.LoginInitiation. fold (param "iss").
  fold (param "login_hint"). fold (param "target_link_uri").
  fold (param "client_id").
  repeat split.
  - intros Hi. by destruct (decide (param "iss" = "")).
  - intros Hi Hl. destruct (decide (param "iss" = "")); [done|].
    by destruct (decide (param "login_hint" = "")).
  - intros Hi Hl Ht. destruct (decide (param "iss" = "")); [done|].
    destruct (decide (param "login_hint" = "")); [done|].
    by destruct (decide (param "target_link_uri" = "")).
  - intros Hi Hl Ht err Hf. destruct (decide (param "iss" = "")); [done|].
    destruct (decide (param "login_hint" = "")); [done|].
    destruct (decide (param "target_link_uri" = "")); [done|].
    by rewrite Hf.
  - intros Hi Hl Ht platform Hf Hc1 Hc2.
    destruct (decide (param "iss" = "")); [done|].
    destruct (decide (param "login_hint" = "")); [done|].
    destruct (decide (param "target_link_uri" = "")); [done|].
    rewrite Hf.
    destruct (decide (param "client_id" <> ""
                      /\ param "client_id" <> ClientID platform)) as [|Hn];
      [done|]. by destruct Hn.
Qed.

(** X17: a login initiation leaves the pending logins of others alone. The
    state store stays well formed, every object that existed keeps its
    contents, and every state other than the newly generated one leads to
    what it led to before. *)
Theorem X17_login_keeps_other_states (runtime : http.Runtime)
    (h : Handler.t) (c : http.Request) (random1 random2 : option string)
    (now : time.Time) (w : Handler.World) :
  StateStore.wf (Handler.stateStore w) ->
  let res := Handler.LoginInitiation h c random1 random2 now w in
  StateStore.wf (Handler.stateStore res.2) /\
  (forall p d,
     StateStore.deref (Handler.stateStore w) p = Some d ->
     StateStore.deref (Handler.stateStore res.2) p = Some d) /\
  (forall k,
     (forall b1, random1 = Some b1 -> k <> http.EncodeToString b1) ->
     StateStore.Peek k (Handler.stateStore res.2)
     = StateStore.Peek k (Handler.stateStore w)).
Proof.
  intros W res.
  pose proof (LoginInitiation_exits h c random1 random2 now w) as Hex.
  fold res in Hex. simpl in Hex.
  destruct Hex as [[msg ->]|[[msg ->]|Hex]]; [by repeat split..|].
  destruct Hex as (b1 & b2 & platform & data & store1 & s2 & -> & _ & _
                   & Ha & Hs & -> & _). simpl.
  unfold StateStore.alloc in Ha. injection Ha as <- <-.
  unfold StateStore.Store in Hs. simpl in Hs.
  rewrite lookup_insert_eq in Hs. injection Hs as <-.
  assert (Hfresh : forall p, is_Some (StateStore.heap (Handler.stateStore w) !! p)
                     -> p <> fresh (dom (StateStore.heap (Handler.stateStore w)))).
  { intros p Hp ->. apply elem_of_dom in Hp. by apply is_fresh in Hp. }
  split; [|split].
  - intros k p Hk. simpl in *.
    destruct (decide (k = http.EncodeToString b1)) as [->|Hne].
    + rewrite lookup_insert_eq in Hk. injection Hk as <-.
      rewrite lookup_insert_eq. by eexists.
    + rewrite lookup_insert_ne in Hk by done.
      pose proof (W k p Hk) as Hp.
      rewrite !lookup_insert_ne by (apply not_eq_sym; by apply Hfresh).
      done.
  - intros p d Hd. unfold StateStore.deref in *. simpl.
    rewrite !lookup_insert_ne; [done|apply not_eq_sym..];
      apply Hfresh; by eexists.
  - intros k Hk. unfold StateStore.Peek. simpl.
    rewrite lookup_insert_ne; [done|].
    apply not_eq_sym. by apply Hk.
Qed.

Lemma X17_login_keeps_other_states_witness :
  StateStore.wf (Handler.stateStore (LaunchDemo.login LaunchDemo.canvas).2).
Proof.
  refine (proj1 (X17_login_keeps_other_states LaunchDemo.runtime
            LaunchDemo.handler LaunchDemo.loginRequest (Some "state-b1")
            (Some "nonce-b2") LaunchDemo.t0
            (LaunchDemo.world LaunchDemo.canvas) _)).
  intros k p H. vm_compute in H. discriminate.
Defined.

Section LaunchOutcomes.
Import Handler.
Context {runtime : http.Runtime}
        {ltiCodec : jwt.Codec JWTValidator.LTIClaims}
        {sessionCodec : jwt.Codec SessionManager.SessionClaims}
        {crypto : jwt.Crypto} {keysets : JWTValidator.KeySets}.

(** Whatever its exit, [Launch] leaves the store it got from [Get]. *)
Lemma Launch_store h c now w :
  http.PostForm c "id_token" <> "" -> http.PostForm c "state" <> "" ->
  stateStore (after (Launch h c now w))
  = (StateStore.Get (http.PostForm c "state") (stateStore w)).2.
Proof.
  intros Hid Hst. unfold Launch.
  destruct (decide (http.PostForm c "id_token" = "")); [done|].
  destruct (decide (http.PostForm c "state" = "")); [done|].
  destruct (StateStore.Get _ _) as [[data|] store1] eqn:Hget.
  2:{ unfold StateStore.Get in Hget. simpl.
      destruct (StateStore.states _ !! _); [done|]. by injection Hget as <-. }
  destruct (StateStore.deref store1 data); [|done].
  destruct (PlatformRepository.FindByClientID _ _); [|done].
  destruct (JWTValidator.ValidateToken _ _ _ _ _) as [[claims|e] v']; [|done].
  destruct (findOrCreateUser _ _ _ _) as [[user|e] d']; [|done].
  by destruct (SessionManager.CreateToken _ _ _ _ _ _).
Qed.

Lemma Launch_unknown_state h c now w :
  http.PostForm c "id_token" <> "" -> http.PostForm c "state" <> "" ->
  StateStore.states (stateStore w) !! http.PostForm c "state" = None ->
  Launch h c now w
  = respond (http.JSONError http.StatusBadRequest "invalid or expired state")
            w.
Proof.
  intros Hid Hst Hnone. unfold Launch.
  destruct (decide (http.PostForm c "id_token" = "")); [done|].
  destruct (decide (http.PostForm c "state" = "")); [done|].
  unfold StateStore.Get. by rewrite Hnone.
Qed.

Lemma CreateToken_succeeds m u e c r now :
  exists tok, SessionManager.CreateToken m u e c r now = inl tok.
Proof.
  unfold SessionManager.CreateToken, jwt.SignedString. simpl. by eexists.
Qed.

Lemma maxUserID_bound (rows : list User) q :
  q ∈ rows -> uID q <= maxUserID rows.
Proof.
  induction rows as [|r rows IH]; intros Hin.
  - by apply elem_of_nil in Hin.
  - simpl. apply elem_of_cons in Hin as [->|Hin]; [lia|].
    specialize (IH Hin). lia.
Qed.

Lemma createUser_fresh u now d :
  down d = false -> uID u = 0 ->
  let id := Z.max (users_seq d) (maxUserID (users d)) + 1 in
  let row := mkUser id (CanvasUserID u) (CanvasInstanceURL u)
               (DisplayName u) (Email u)
               (if time.IsZero (uCreatedAt u) then now else uCreatedAt u)
               (if time.IsZero (uUpdatedAt u) then now else uUpdatedAt u)
               (uDeletedAt u) in
  createUser u now d
  = (setUsers (users d ++ [row]) (Z.max (users_seq d) id) d, row, None).
Proof.
  intros Hup Hz. unfold createUser. rewrite Hup.
  destruct (decide (uID u = 0)); [|done].
  replace (existsb _ (users d)) with false; [done|].
  symmetry. apply not_true_is_false. intros Ht.
  apply existsb_exists in Ht as (q & Hq & Hid).
  apply bool_decide_eq_true in Hid. apply list_elem_of_In in Hq.
  pose proof (maxUserID_bound _ _ Hq). lia.
Qed.

Lemma findOrCreateUser_up claims platform now d :
  down d = false ->
  exists user d', findOrCreateUser claims platform now d = (inl user, d').
Proof.
  intros Hup. unfold findOrCreateUser.
  destruct (firstUser _ _ d) as [user|err] eqn:Hf.
  - case_decide; [by eexists _, _|].
    destruct (saveUser _ _ _). by eexists _, _.
  - unfold firstUser in Hf. rewrite Hup in Hf.
    destruct (leastUser _); [done|]. injection Hf as <-.
    rewrite createUser_fresh by done. by eexists _, _.
Qed.

End LaunchOutcomes.

(** X18: a launch consumes its state whether it succeeds or not. After a
    launch that carried an id_token and a state, the state is gone from
    the store also when the platform was not found or the token was
    rejected, and the same request sent again is answered with 400
    "invalid or expired state" and changes nothing. *)
Theorem X18_launch_state_is_single_use (runtime : http.Runtime)
    (ltiCodec : jwt.Codec JWTValidator.LTIClaims)
    (sessionCodec : jwt.Codec SessionManager.SessionClaims)
    (crypto : jwt.Crypto) (keysets : JWTValidator.KeySets)
    (h : Handler.t) (c : http.Request) (now now' : time.Time)
    (w : Handler.World) :
  http.PostForm c "id_token" <> "" -> http.PostForm c "state" <> "" ->
  let first := Handler.Launch h c now w in
  let second := Handler.Launch h c now' (Handler.after first) in
  StateStore.Peek (http.PostForm c "state")
    (Handler.stateStore (Handler.after first)) = None /\
  Handler.response second
  = Some (http.JSONError http.StatusBadRequest "invalid or expired state") /\
  Handler.minted second = [] /\
  Handler.after second = Handler.after first.
Proof.
  intros Hid Hst first second.
  assert (Hgone : StateStore.states (Handler.stateStore (Handler.after first))
                    !! http.PostForm c "state" = None).
  { subst first. rewrite Launch_store by done.
    unfold StateStore.Get.
    destruct (StateStore.states (Handler.stateStore w)
                !! http.PostForm c "state") eqn:E; simpl; [|done].
    apply lookup_delete_eq. }
  split; [done|]. subst second.
  by rewrite Launch_unknown_state.
Qed.

Lemma X18_launch_state_is_single_use_witness :
  Handler.response
    (Handler.Launch (runtime := LaunchDemo.runtime)
       (ltiCodec := LaunchDemo.ltiCodec) (sessionCodec := SessionDemo.codec)
       (crypto := LaunchDemo.crypto) (keysets := LaunchDemo.keysets)
       LaunchDemo.handler (LaunchDemo.launchRequest "id.stale.sig")
       (LaunchDemo.t0 + 6 * time.Second)
       (Handler.after (LaunchDemo.launch "id.stale.sig")))
  = Some (http.JSONError http.StatusBadRequest "invalid or expired state").
Proof.
  refine (proj1 (proj2 (X18_launch_state_is_single_use
            LaunchDemo.runtime LaunchDemo.ltiCodec SessionDemo.codec
            LaunchDemo.crypto LaunchDemo.keysets LaunchDemo.handler
            (LaunchDemo.launchRequest "id.stale.sig")
            (LaunchDemo.t0 + 5 * time.Second)
            (LaunchDemo.t0 + 6 * time.Second)
            (LaunchDemo.login LaunchDemo.canvas).2 _ _)));
    vm_compute; discriminate.
Defined.

(** X19: on a well-formed state store (any store built through the store's
    own operations) [Launch] always writes a response, with status 302,
    400, 401 or 500: the nil [StateData] it would panic on cannot be in
    the store. *)
Theorem X19_launch_always_responds (runtime : http.Runtime)
    (ltiCodec : jwt.Codec JWTValidator.LTIClaims)
    (sessionCodec : jwt.Codec SessionManager.SessionClaims)
    (crypto : jwt.Crypto) (keysets : JWTValidator.KeySets)
    (h : Handler.t) (c : http.Request) (now : time.Time)
    (w : Handler.World) :
  StateStore.wf (Handler.stateStore w) ->
  exists r,
    Handler.response (Handler.Launch h c now w) = Some r /\
    (http.Status r = http.StatusFound
     \/ http.Status r = http.StatusBadRequest
     \/ http.Status r = http.StatusUnauthorized
     \/ http.Status r = http.StatusInternalServerError) /\
    StateStore.wf (Handler.stateStore (Handler.after (Handler.Launch h c now w))).
Proof.
  intros W. unfold Handler.Launch.
  destruct (decide (http.PostForm c "id_token" = "")).
  { eexists. simpl. repeat split; try done. right. by left. }
  destruct (decide (http.PostForm c "state" = "")).
  { eexists. simpl. repeat split; try done. right. by left. }
  pose proof (step_wf (StateStore.CallGet (http.PostForm c "state")) _ W)
    as W1. simpl in W1.
  destruct (StateStore.Get _ _) as [[data|] store1] eqn:Hget.
  2:{ eexists. simpl. repeat split; try done. right. by left. }
  simpl in W1.
  assert (Hd : is_Some (StateStore.deref store1 data)).
  { unfold StateStore.Get in Hget.
    destruct (StateStore.states _ !! _) as [p|] eqn:E; [|done].
    injection Hget as <- <-. by apply (W (http.PostForm c "state")). }
  destruct Hd as [sd Hd]. rewrite Hd.
  destruct (PlatformRepository.FindByClientID _ _).
  2:{ eexists. simpl. repeat split; try done. right. by left. }
  destruct (JWTValidator.ValidateToken _ _ _ _ _) as [[claims|e] v'].
  2:{ eexists. simpl. repeat split; try done. right. right. by left. }
  destruct (Handler.findOrCreateUser _ _ _ _) as [[user|e] d'].
  2:{ eexists. simpl. repeat split; try done. by repeat right. }
  destruct (SessionManager.CreateToken _ _ _ _ _ _).
  - eexists. simpl. repeat split; try done. by left.
  - eexists. simpl. repeat split; try done. by repeat right.
Qed.

Lemma X19_launch_always_responds_witness :
  exists r, Handler.response (LaunchDemo.launch "no.such.token") = Some r.
Proof.
  destruct (X19_launch_always_responds LaunchDemo.runtime
              LaunchDemo.ltiCodec SessionDemo.codec LaunchDemo.crypto
              LaunchDemo.keysets LaunchDemo.handler
              (LaunchDemo.launchRequest "no.such.token")
              (LaunchDemo.t0 + 5 * time.Second)
              (LaunchDemo.login LaunchDemo.canvas).2) as (r & Hr & _).
  - apply (LoginInitiation_wf LaunchDemo.handler LaunchDemo.loginRequest
             (Some "state-b1") (Some "nonce-b2") LaunchDemo.t0
             (LaunchDemo.world LaunchDemo.canvas)).
    intros k p H. vm_compute in H. discriminate.
  - by exists r.
Defined.

Section UserFacts.
Import Handler.

Lemma leastUser_elem rows u : leastUser rows = Some u -> u ∈ rows.
Proof.
  revert u. induction rows as [|q rows IH]; intros u; simpl; [done|].
  destruct (leastUser rows) as [r|].
  - destruct (decide (uID q <= uID r)); intros [= <-].
    + apply list_elem_of_here.
    + apply list_elem_of_further. by apply IH.
  - intros [= <-]. apply list_elem_of_here.
Qed.

Lemma leastUser_none rows : leastUser rows = None -> rows = [].
Proof.
  destruct rows as [|q rows]; simpl; [done|].
  destruct (leastUser rows); [|done]. by destruct (decide _).
Qed.

Lemma firstUser_found sub iss d u :
  firstUser sub iss d = inl u ->
  down d = false /\ u ∈ users d /\ uDeletedAt u = None /\
  CanvasUserID u = sub /\ CanvasInstanceURL u = iss.
Proof.
  unfold firstUser. destruct (down d); [done|].
  destruct (leastUser _) as [q|] eqn:E; [|done]. intros [= <-].
  apply leastUser_elem, list_elem_of_filter in E as [(Hl & Hs & Hi) Hin].
  apply bool_decide_eq_true in Hl. by repeat split.
Qed.

Lemma firstUser_absent sub iss d :
  firstUser sub iss d = inr gorm.ErrRecordNotFound ->
  down d = false /\
  filter (fun u => userLive u = true /\ CanvasUserID u = sub
                   /\ CanvasInstanceURL u = iss) (users d) = [].
Proof.
  unfold firstUser. destruct (down d); [done|].
  destruct (leastUser _) as [q|] eqn:E; [done|]. intros _.
  split; [done|]. by apply leastUser_none.
Qed.

Lemma kept_or_claimed (stored claimed : string) :
  default stored (if decide (claimed <> "" /\ stored <> claimed)
                  then Some claimed else None)
  = if decide (claimed = "") then stored else claimed.
Proof.
  destruct (decide (claimed = "")) as [->|Hne].
  - by destruct (decide ("" <> "" /\ stored <> "")) as [[H _]|_].
  - destruct (decide (claimed <> "" /\ stored <> claimed)) as [_|Hn];
      [done|]. simpl.
    destruct (decide (stored = claimed)); [done|]. by destruct Hn.
Qed.

End UserFacts.

(** X20: finding or creating the user of a launch is idempotent. When no
    live user has the subject and issuer of the claims, the first call adds
    one row, with a new id, that subject and issuer and the name and email
    of the claims; a second call with the same claims returns that very
    user and changes nothing: no second row for the identity. *)
Theorem X20_user_is_created_once (claims : JWTValidator.LTIClaims)
    (platform : Platform) (now later : time.Time) (d : DB) :
  Handler.firstUser (jwt.Subject (JWTValidator.RegisteredClaims claims))
    (Issuer platform) d = inr gorm.ErrRecordNotFound ->
  exists user d',
    Handler.findOrCreateUser claims platform now d = (inl user, d') /\
    users d' = users d ++ [user] /\
    (forall q, q ∈ users d -> uID q < uID user) /\
    (CanvasUserID user, CanvasInstanceURL user, DisplayName user, Email user)
    = (jwt.Subject (JWTValidator.RegisteredClaims claims), Issuer platform,
       JWTValidator.Name claims, JWTValidator.Email claims) /\
    lti_platforms d' = lti_platforms d /\
    Handler.findOrCreateUser claims platform later d' = (inl user, d').
Proof.
  intros Hf. pose proof (firstUser_absent _ _ _ Hf) as [Hup Hnone].
  unfold Handler.findOrCreateUser at 1. rewrite Hf.
  rewrite createUser_fresh by done. simpl.
  eexists _, _. split; [reflexivity|]. simpl.
  split; [done|]. split.
  { intros q Hq. pose proof (maxUserID_bound _ _ Hq). lia. }
  split; [done|]. split; [done|].
  unfold Handler.findOrCreateUser, Handler.firstUser. simpl.
  rewrite Hup, filter_app, Hnone. simpl. rewrite filter_cons.
  case_decide as Hm; simpl.
  2:{ destruct Hm. by repeat split. }
  destruct (decide (JWTValidator.Name claims <> ""
                    /\ JWTValidator.Name claims <> JWTValidator.Name claims))
    as [[_ Hx]|_]; [by destruct Hx|].
  destruct (decide (JWTValidator.Email claims <> ""
                    /\ JWTValidator.Email claims <> JWTValidator.Email claims))
    as [[_ Hx]|_]; [by destruct Hx|].
  by destruct (decide (_ /\ _)) as [_|Hn]; [|destruct Hn].
Qed.

Lemma X20_user_is_created_once_witness :
  exists user d',
    Handler.findOrCreateUser (LaunchDemo.idClaims "nonce-b2")
      LaunchDemo.canvas LaunchDemo.t0 (LaunchDemo.register LaunchDemo.canvas)
    = (inl user, d') /\
    Handler.findOrCreateUser (LaunchDemo.idClaims "nonce-b2")
      LaunchDemo.canvas (LaunchDemo.t0 + 1) d' = (inl user, d').
Proof.
  destruct (X20_user_is_created_once (LaunchDemo.idClaims "nonce-b2")
              LaunchDemo.canvas LaunchDemo.t0 (LaunchDemo.t0 + 1)
              (LaunchDemo.register LaunchDemo.canvas))
    as (user & d' & H1 & _ & _ & _ & _ & H2).
  - vm_compute. reflexivity.
  - by exists user, d'.
Defined.

(** X21: for a user that exists, finding or creating keeps the id and the
    identity (subject and issuer), adds no row and does not touch the
    platforms; the name and the email become those of the claims where the
    claims have them, and an empty name or email in the claims never
    erases what is stored. When nothing differs the database is not
    written at all. *)
Theorem X21_existing_user_is_updated_in_place
    (claims : JWTValidator.LTIClaims) (platform : Platform)
    (now : time.Time) (d : DB) (user : User) :
  Handler.firstUser (jwt.Subject (JWTValidator.RegisteredClaims claims))
    (Issuer platform) d = inl user ->
  exists user' d',
    Handler.findOrCreateUser claims platform now d = (inl user', d') /\
    (uID user', CanvasUserID user', CanvasInstanceURL user')
    = (uID user, CanvasUserID user, CanvasInstanceURL user) /\
    DisplayName user'
    = (if decide (JWTValidator.Name claims = "") then DisplayName user
       else JWTValidator.Name claims) /\
    Email user'
    = (if decide (JWTValidator.Email claims = "") then Email user
       else JWTValidator.Email claims) /\
    length (users d') = length (users d) /\
    lti_platforms d' = lti_platforms d /\
    ((JWTValidator.Name claims = ""
      \/ JWTValidator.Name claims = DisplayName user) ->
     (JWTValidator.Email claims = ""
      \/ JWTValidator.Email claims = Email user) ->
     user' = user /\ d' = d).
Proof.
  intros Hf. pose proof (firstUser_found _ _ _ _ Hf) as (Hup & _).
  unfold Handler.findOrCreateUser. rewrite Hf.
  set (name := if decide (JWTValidator.Name claims <> "" /\ _) then _ else _).
  set (email := if decide (JWTValidator.Email claims <> "" /\ _) then _ else _).
  pose proof (kept_or_claimed (DisplayName user) (JWTValidator.Name claims))
    as Hname. fold name in Hname.
  pose proof (kept_or_claimed (Email user) (JWTValidator.Email claims))
    as Hemail. fold email in Hemail.
  destruct (decide (name = None /\ email = None)) as [[Hn He]|Hchg].
  - exists user, d. rewrite Hn in Hname. rewrite He in Hemail.
    simpl in Hname, Hemail. by repeat split.
  - unfold Handler.saveUser. rewrite Hup. simpl.
    eexists _, _. split; [reflexivity|]. simpl.
    rewrite length_map.
    assert (Hsame : (JWTValidator.Name claims = ""
                     \/ JWTValidator.Name claims = DisplayName user) ->
                    (JWTValidator.Email claims = ""
                     \/ JWTValidator.Email claims = Email user) -> False).
    { intros Hn He. destruct Hchg. subst name email.
      clear Hname Hemail. split.
      - destruct (decide (_ /\ _)) as [[Hx1 Hx2]|_]; [|done].
        destruct Hn; congruence.
      - destruct (decide (_ /\ _)) as [[Hx1 Hx2]|_]; [|done].
        destruct He; congruence. }
    repeat split; try done; exfalso; auto.
Qed.

Lemma X21_existing_user_is_updated_in_place_witness :
  exists user' d',
    Handler.findOrCreateUser LaunchDemo.renamed LaunchDemo.canvas
      (LaunchDemo.t0 + 1) LaunchDemo.enrolled = (inl user', d') /\
    uID user' = 1 /\
    DisplayName user' = "Ada Lovelace" /\
    Email user' = "ada@example.com" /\
    length (users d') = 1%nat.
Proof.
  edestruct (X21_existing_user_is_updated_in_place LaunchDemo.renamed
               LaunchDemo.canvas (LaunchDemo.t0 + 1) LaunchDemo.enrolled)
    as (user' & d' & Hfind & Hid & Hname & Hemail & Hlen & _).
  - vm_compute. reflexivity.
  - exists user', d'. split; [exact Hfind|].
    injection Hid as Hid _ _. repeat split.
    + exact Hid.
    + exact Hname.
    + exact Hemail.
    + exact Hlen.
Defined.

Section LoginThenLaunch.
Import Handler.
Context {runtime : http.Runtime}.

Lemma First_some cond db q :
  down db = false -> q ∈ lti_platforms db ->
  PlatformRepository.live q = true -> cond q = true ->
  exists p, PlatformRepository.First cond db = inl p.
Proof.
  intros Hup Hq Hl Hc. unfold PlatformRepository.First. rewrite Hup.
  destruct (PlatformRepository.least _) as [p|] eqn:E; [by exists p|].
  apply least_none in E.
  assert (Hin : q ∈ filter (fun p => PlatformRepository.live p && cond p = true)
                      (lti_platforms db)).
  { apply list_elem_of_filter. split; [|done]. by rewrite Hl, Hc. }
  rewrite E in Hin. by apply elem_of_nil in Hin.
Qed.

Lemma LoginInitiation_stored h c b1 b2 now w r w' :
  LoginInitiation h c (Some b1) (Some b2) now w = (r, w') ->
  http.Status r = http.StatusFound ->
  exists platform data,
    PlatformRepository.FindByIssuer
      (http.DefaultQuery c "iss" (http.PostForm c "iss")) (db w)
    = inl platform /\
    db w' = db w /\ jwtValidator w' = jwtValidator w /\
    StateStore.states (stateStore w') !! http.EncodeToString b1 = Some data /\
    StateStore.heap (stateStore w') !! data
    = Some (StateStore.mkStateData (http.EncodeToString b2)
              (http.DefaultQuery c "target_link_uri"
                 (http.PostForm c "target_link_uri"))
              (ClientID platform) now) /\
    http.DefaultQuery c "target_link_uri" (http.PostForm c "target_link_uri")
    <> "".
Proof.
  intros Hlogin Hstatus.
  assert (Htarget : http.DefaultQuery c "target_link_uri"
                      (http.PostForm c "target_link_uri") <> "").
  { unfold LoginInitiation in Hlogin. cbv zeta in Hlogin.
    destruct (decide (http.DefaultQuery c "iss" _ = ""));
      [by injection Hlogin as <- _|].
    destruct (decide (http.DefaultQuery c "login_hint" _ = ""));
      [by injection Hlogin as <- _|].
    by destruct (decide (http.DefaultQuery c "target_link_uri" _ = ""));
      [injection Hlogin as <- _|]. }
  pose proof (LoginInitiation_exits h c (Some b1) (Some b2) now w) as Hex.
  cbv zeta in Hex. rewrite Hlogin in Hex.
  destruct Hex as [[msg [= -> _]]|[[msg [= -> _]]|Hex]]; [done|done|].
  destruct Hex as (b1' & b2' & platform & data & store1 & s2 & [= <-] & [= <-]
                   & Hfind & Halloc & Hstore & Hw & _).
  simpl in Hw. subst w'. exists platform, data.
  pose proof (Store_fresh (http.EncodeToString b1)
                (StateStore.mkStateData (http.EncodeToString b2)
                   (http.DefaultQuery c "target_link_uri"
                      (http.PostForm c "target_link_uri"))
                   (ClientID platform) 0) now (stateStore w)) as Hfresh.
  rewrite Halloc, Hstore in Hfresh. simpl in Hfresh.
  destruct Hfresh as [Hpeek Hderef]. by repeat split.
Qed.

End LoginThenLaunch.

(** X22: login and launch compose. After a login that was answered with
    the redirect, a launch that posts the state of that login and an
    id_token finds the state, looks the platform up by the client id of the
    login's platform (which always finds one, possibly an older platform
    with the same client id), and validates the token against the nonce of
    that login. A rejected token gives 401 and leaves the database alone; an
    accepted one always ends in a 302 to the target_link_uri of the login
    (never to the frontend URL) with one session cookie holding the token
    that was created. Either way the state is gone afterwards. *)
Theorem X22_launch_after_login (runtime : http.Runtime)
    (ltiCodec : jwt.Codec JWTValidator.LTIClaims)
    (sessionCodec : jwt.Codec SessionManager.SessionClaims)
    (crypto : jwt.Crypto) (keysets : JWTValidator.KeySets)
    (h : Handler.t) (c c2 : http.Request) (b1 b2 : string)
    (now later : time.Time) (w w' : Handler.World) (r : http.Response) :
  Handler.LoginInitiation h c (Some b1) (Some b2) now w = (r, w') ->
  http.Status r = http.StatusFound ->
  http.PostForm c2 "id_token" <> "" ->
  http.PostForm c2 "state" = http.EncodeToString b1 ->
  http.EncodeToString b1 <> "" ->
  let target :=
    http.DefaultQuery c "target_link_uri"
      (http.PostForm c "target_link_uri") in
  let out := Handler.Launch h c2 later w' in
  exists loginPlatform platform,
    PlatformRepository.FindByIssuer
      (http.DefaultQuery c "iss" (http.PostForm c "iss")) (Handler.db w)
    = inl loginPlatform /\
    PlatformRepository.FindByClientID (ClientID loginPlatform) (Handler.db w)
    = inl platform /\
    StateStore.Peek (http.EncodeToString b1)
      (Handler.stateStore (Handler.after out)) = None /\
    match JWTValidator.ValidateToken (Handler.jwtValidator w)
            (http.PostForm c2 "id_token") platform
            (http.EncodeToString b2) later with
    | (inr err, _) =>
        Handler.response out
        = Some (http.JSONError http.StatusUnauthorized
                  ("token validation failed: " +:+ err)) /\
        Handler.minted out = [] /\
        Handler.db (Handler.after out) = Handler.db w
    | (inl claims, _) =>
        exists cookie tok,
          Handler.response out
          = Some {| http.Status := http.StatusFound; http.Error := None;
                    http.Redirect := Some (http.ToString target);
                    http.Cookies := [cookie] |} /\
          Handler.minted out = [tok] /\
          http.Name cookie = "session" /\
          http.Value cookie = http.QueryEscape tok
    end.
Proof.
  intros Hlogin Hstatus Hid Hst Hne target out.
  destruct (LoginInitiation_stored _ _ _ _ _ _ _ _ Hlogin Hstatus)
    as (lp & data & Hfind & Hdb & Hv & Hstates & Hheap & Htarget).
  pose proof (First_found _ _ _ Hfind) as (Hup & Hin & Hl & _).
  destruct (First_some (fun p => bool_decide (ClientID p = ClientID lp))
              (Handler.db w) lp Hup Hin Hl) as [p Hp];
    [by apply bool_decide_eq_true|].
  exists lp, p. split; [done|]. split; [done|]. split.
  { subst out. rewrite Launch_store by (by rewrite ?Hst).
    rewrite Hst, (Get_found _ _ _ Hstates). apply lookup_delete_eq. }
  subst out. unfold Handler.Launch. rewrite Hst.
  rewrite (decide_False (P := http.PostForm c2 "id_token" = "")) by done.
  rewrite (decide_False (P := http.EncodeToString b1 = "")) by done.
  rewrite (Get_found _ _ _ Hstates). unfold StateStore.deref.
  cbn [StateStore.heap]. rewrite Hheap. cbn [StateStore.ClientID
    StateStore.Nonce StateStore.TargetLinkURI]. rewrite Hdb, Hv.
  unfold PlatformRepository.FindByClientID in Hp |- *. rewrite Hp.
  destruct (JWTValidator.ValidateToken _ _ _ _ _) as [[claims|err] v'];
    [|done].
  destruct (findOrCreateUser_up claims p later (Handler.db w) Hup)
    as (user & d' & ->).
  destruct (CreateToken_succeeds (Handler.sessionManager h) (uID user)
              (jwt.Subject (JWTValidator.RegisteredClaims claims))
              (JWTValidator.GetContextID claims)
              (if JWTValidator.IsInstructor claims
               then "instructor" else "learner") later) as [tok ->].
  rewrite decide_True by done. by eexists _, _.
Qed.

Lemma X22_launch_after_login_witness :
  exists cookie tok,
    Handler.response (LaunchDemo.launch "id.fresh.sig")
    = Some {| http.Status := http.StatusFound; http.Error := None;
              http.Redirect := Some (http.ToString "https://app.com/launch");
              http.Cookies := [cookie] |} /\
    Handler.minted (LaunchDemo.launch "id.fresh.sig") = [tok].
Proof.
  destruct (X22_launch_after_login LaunchDemo.runtime LaunchDemo.ltiCodec
              SessionDemo.codec LaunchDemo.crypto LaunchDemo.keysets
              LaunchDemo.handler LaunchDemo.loginRequest
              (LaunchDemo.launchRequest "id.fresh.sig")
              "state-b1" "nonce-b2" LaunchDemo.t0
              (LaunchDemo.t0 + 5 * time.Second)
              (LaunchDemo.world LaunchDemo.canvas)
              (LaunchDemo.login LaunchDemo.canvas).2
              (LaunchDemo.login LaunchDemo.canvas).1)
    as (lp & p & Hlp & Hp & _ & Hm).
  - apply surjective_pairing.
  - vm_compute. reflexivity.
  - vm_compute. discriminate.
  - vm_compute. reflexivity.
  - vm_compute. discriminate.
  - vm_compute in Hlp. injection Hlp as <-.
    vm_compute in Hp. injection Hp as <-.
    destruct Hm as (cookie & tok & Hr & Hmint & _).
    exists cookie, tok. split; [exact Hr|exact Hmint].
Defined.

(* ================================================================== *)
(** * The age of the session cookie *)

Section Float64Facts.

Lemma digits2_size p : digits2_pos p = Pos.size p.
Proof. induction p as [p IH|p IH|]; simpl; congruence. Qed.

Lemma digits2_bound p : Z.pos p < 2 ^ 53 -> Z.pos (digits2_pos p) <= 53.
Proof.
  intros H. rewrite digits2_size.
  pose proof (Pos.size_le p) as Hs.
  assert (Hz : 2 ^ Z.pos (Pos.size p) <= 2 * Z.pos p).
  { change (2 * Z.pos p) with (Z.pos p~0).
    rewrite <- (Pos2Z.inj_pow 2 (Pos.size p)). by apply Pos2Z.pos_le_pos. }
  destruct (Z_le_gt_dec (Z.pos (Pos.size p)) 53) as [|Hgt]; [done|].
  assert (2 ^ 54 <= 2 ^ Z.pos (Pos.size p)) by (apply Z.pow_le_mono_r; lia).
  lia.
Qed.

Lemma iter_xO_value p k : Z.pos (Pos.iter xO p k) = Z.pos p * 2 ^ Z.pos k.
Proof.
  induction k as [|k IH] using Pos.peano_ind.
  - simpl. lia.
  - rewrite Pos.iter_succ, Pos2Z.inj_xO, IH, Pos2Z.inj_succ, Z.pow_succ_r;
      lia.
Qed.

Lemma iter_xO_digits p k :
  digits2_pos (Pos.iter xO p k) = (digits2_pos p + k)%positive.
Proof.
  induction k as [|k IH] using Pos.peano_ind.
  - simpl. lia.
  - rewrite Pos.iter_succ. simpl. rewrite IH. lia.
Qed.

(** A mantissa that is already in place is left alone. *)
Lemma binary_round_aux_exact m e :
  Z.pos (digits2_pos m) + e = 53 + e -> -1074 <= e <= 971 ->
  binary_round_aux float64.prec float64.emax false (Z.pos m) e loc_Exact
  = S754_finite false m e.
Proof.
  intros Hd He.
  assert (Hf : fexp float64.prec float64.emax (Z.pos (digits2_pos m) + e) - e
               = 0).
  { unfold fexp, emin, float64.prec, float64.emax. lia. }
  unfold binary_round_aux, shr_fexp. cbn [Zdigits2 shr_record_of_loc].
  rewrite Hf. cbn [shr shr_m loc_of_shr_record round_nearest_even Zdigits2
                   shr_record_of_loc].
  rewrite Hf. cbn [shr shr_m].
  unfold float64.emax, float64.prec.
  destruct (Z.leb_spec e (1024 - 53)); [done|lia].
Qed.

(** The integers below 2^53 are floating-point numbers. *)
Lemma ofInt_pos p :
  Z.pos p < 2 ^ 53 ->
  exists m e,
    float64.ofInt (Z.pos p) = S754_finite false m e /\
    -52 <= e <= 0 /\ Z.pos m = Z.pos p * 2 ^ (- e).
Proof.
  intros H. pose proof (digits2_bound p H) as Hd.
  unfold float64.ofInt, binary_normalize, binary_round.
  assert (Hf : fexp float64.prec float64.emax (Z.pos (digits2_pos p) + 0)
               = Z.pos (digits2_pos p) - 53).
  { unfold fexp, emin, float64.prec, float64.emax. lia. }
  rewrite Hf. unfold shl_align.
  destruct (Z.pos (digits2_pos p) - 53 - 0) as [|k|k] eqn:Hk; [|lia|].
  - exists p, 0. rewrite binary_round_aux_exact by lia.
    split; [done|]. split; [lia|]. simpl. lia.
  - exists (Pos.iter xO p k), (Z.pos (digits2_pos p) - 53).
    rewrite binary_round_aux_exact.
    + split; [done|]. split; [lia|]. rewrite iter_xO_value.
      f_equal. f_equal. lia.
    + rewrite iter_xO_digits. lia.
    + lia.
Qed.

Lemma toInt_ofInt z : 0 <= z < 2 ^ 53 -> float64.toInt (float64.ofInt z) = z.
Proof.
  intros H. destruct z as [|p|p]; [done| |lia].
  destruct (ofInt_pos p) as (m & e & -> & He & Hm); [lia|].
  unfold float64.toInt. rewrite Hm.
  destruct (Z.leb_spec 0 e).
  - replace e with 0 by lia. simpl. lia.
  - rewrite Z.div_mul; [done|]. apply Z.pow_nonzero; lia.
Qed.

(** The seconds of a whole number of seconds come out exactly. *)
Lemma Seconds_whole n :
  0 <= n <= 9223372036 ->
  float64.toInt (time.Seconds (n * time.Second)) = n.
Proof.
  intros H. unfold time.Seconds. cbv zeta.
  rewrite Z.quot_mul, Z.rem_mul by done.
  change (float64.div (float64.ofInt 0) (float64.ofInt 1000000000))
    with (S754_zero false).
  destruct n as [|p|p]; [done| |lia].
  destruct (ofInt_pos p) as (m & e & Hp & He & Hm); [lia|].
  rewrite <- (toInt_ofInt (Z.pos p)) at 2 by lia.
  by rewrite Hp.
Qed.

End Float64Facts.

(** X9: for a maximum age of 0 to 9223372036 seconds (the range of a
    [time.Duration]) the session manager of a handler built by
    [NewHandlerWithConfig] keeps exactly that many seconds, and every
    cookie [Launch] sets has the configured number as its max-age: the way
    through [Duration.Seconds], a [float64], and back to [int] loses
    nothing. For the 9223372037 values after that range the product with
    [time.Second] wraps around and is no longer the configured age. *)
Theorem X9_max_age_seconds_round_trip (runtime : http.Runtime)
    (ltiCodec : jwt.Codec JWTValidator.LTIClaims)
    (sessionCodec : jwt.Codec SessionManager.SessionClaims)
    (crypto : jwt.Crypto) (keysets : JWTValidator.KeySets)
    (secret frontendURL : string) (maxAgeSeconds : Z)
    (c : http.Request) (now : time.Time) (w : Handler.World) :
  0 <= maxAgeSeconds <= 9223372036 ->
  let h := Handler.NewHandlerWithConfig secret maxAgeSeconds frontendURL in
  let m := Handler.sessionManager h in
  m = SessionManager.NewSessionManager secret maxAgeSeconds /\
  SessionManager.maxAge m = maxAgeSeconds * time.Second /\
  (forall r cookie,
     Handler.response (Handler.Launch h c now w) = Some r ->
     cookie ∈ http.Cookies r ->
     http.MaxAge cookie = maxAgeSeconds) /\
  SessionManager.maxAge
    (SessionManager.NewSessionManager secret (maxAgeSeconds + 9223372037))
  <> (maxAgeSeconds + 9223372037) * time.Second.
Proof.
  intros H h m.
  assert (Hw : SessionManager.maxAge (Handler.sessionManager h)
               = maxAgeSeconds * time.Second).
  { subst h. simpl. apply wrap64_in_range. unfold time.Second. lia. }
  split; [done|]. split; [done|]. split.
  - intros r cookie. unfold Handler.Launch.
    destruct (decide (http.PostForm c "id_token" = ""));
      [intros [= <-] Hin; by apply elem_of_nil in Hin|].
    destruct (decide (http.PostForm c "state" = ""));
      [intros [= <-] Hin; by apply elem_of_nil in Hin|].
    destruct (StateStore.Get _ _) as [[data|] store1];
      [|intros [= <-] Hin; by apply elem_of_nil in Hin].
    destruct (StateStore.deref store1 data); [|done].
    destruct (PlatformRepository.FindByClientID _ _);
      [|intros [= <-] Hin; by apply elem_of_nil in Hin].
    destruct (JWTValidator.ValidateToken _ _ _ _ _) as [[claims|e] v'];
      [|intros [= <-] Hin; by apply elem_of_nil in Hin].
    destruct (Handler.findOrCreateUser _ _ _ _) as [[user|e] d'];
      [|intros [= <-] Hin; by apply elem_of_nil in Hin].
    destruct (SessionManager.CreateToken _ _ _ _ _ _);
      [|intros [= <-] Hin; by apply elem_of_nil in Hin].
    cbn [Handler.response]. intros [= <-]. cbn [http.Cookies].
    intros Hin. apply list_elem_of_singleton in Hin. subst cookie.
    cbn [http.MaxAge].
    change (time.wrap64 (maxAgeSeconds * time.Second))
      with (SessionManager.maxAge (Handler.sessionManager h)).
    rewrite Hw. by apply Seconds_whole.
  - unfold SessionManager.NewSessionManager. simpl.
    unfold time.wrap64, time.Second.
    pose proof (Z.mod_pos_bound
                  ((maxAgeSeconds + 9223372037) * 1000000000 + 2 ^ 63)
                  (2 ^ 64) ltac:(lia)).
    lia.
Qed.

Lemma X9_max_age_seconds_round_trip_witness :
  exists r cookie,
    Handler.response (LaunchDemo.launch "id.fresh.sig") = Some r /\
    http.Cookies r = [cookie] /\
    http.MaxAge cookie = 86400.
Proof.
  destruct (Handler.response (LaunchDemo.launch "id.fresh.sig"))
    as [r|] eqn:Hr; [|vm_compute in Hr; discriminate].
  destruct (http.Cookies r) as [|cookie [|]] eqn:Hc;
    [vm_compute in Hr; injection Hr as <-; vm_compute in Hc; discriminate|
    |vm_compute in Hr; injection Hr as <-; vm_compute in Hc; discriminate].
  exists r, cookie. split; [done|]. split; [done|].
  refine (proj1 (proj2 (proj2
            (X9_max_age_seconds_round_trip LaunchDemo.runtime
               LaunchDemo.ltiCodec SessionDemo.codec LaunchDemo.crypto
               LaunchDemo.keysets "change-me-in-production" "/" 86400
               (LaunchDemo.launchRequest "id.fresh.sig")
               (LaunchDemo.t0 + 5 * time.Second)
               (LaunchDemo.login LaunchDemo.canvas).2 _))) r cookie Hr _).
  - lia.
  - rewrite Hc. apply list_elem_of_here.
Defined.

(* ================================================================== *)
(** * Properties of the authentication middleware *)

Section MiddlewareFacts.
Import Middleware.

Lemma lower_space a :
  lower a = Ascii.ascii_of_nat 32 <-> a = Ascii.ascii_of_nat 32.
Proof.
  destruct a as [[] [] [] [] [] [] [] []]; vm_compute; split; congruence.
Qed.

Lemma cut_lower_none s : cut (lowerString s) = None -> cut s = None.
Proof.
  induction s as [|a s IH]; [done|]. simpl.
  destruct (Ascii.eqb_spec (lower a) (Ascii.ascii_of_nat 32)) as [|Hl];
    [done|].
  destruct (Ascii.eqb_spec a (Ascii.ascii_of_nat 32)) as [Ha|_].
  { by apply lower_space in Ha. }
  destruct (cut (lowerString s)) as [[x y]|]; [done|]. intros _.
  by rewrite IH.
Qed.

Lemma EqualFold_Bearer_no_space s :
  EqualFold s "Bearer" = true -> cut s = None.
Proof.
  unfold EqualFold. intros H. apply String.eqb_eq in H.
  apply cut_lower_none. by rewrite H.
Qed.

Lemma cut_app x y : cut x = None -> cut (x +:+ " " +:+ y) = Some (x, y).
Proof.
  induction x as [|a x IH]; [done|]. simpl.
  destruct (Ascii.eqb a (Ascii.ascii_of_nat 32)); [done|].
  destruct (cut x) as [[x' y']|]; [done|]. intros _. by rewrite IH.
Qed.

Lemma cut_Some s x y :
  cut s = Some (x, y) -> s = x +:+ " " +:+ y /\ cut x = None.
Proof.
  revert x. induction s as [|a s IH]; [done|]. intros x. simpl.
  destruct (Ascii.eqb_spec a (Ascii.ascii_of_nat 32)) as [->|Hne].
  { by intros [= <- <-]. }
  destruct (cut s) as [[x' y']|]; [|done]. intros [= <- <-].
  destruct (IH x' eq_refl) as [-> Hx]. split; [done|]. simpl.
  destruct (Ascii.eqb_spec a (Ascii.ascii_of_nat 32)); [done|].
  by rewrite Hx.
Qed.

Lemma setClaims_keys claims c :
  Keys (setClaims claims c) !! ContextKeyUserID
    = Some (Uint (SessionManager.UserID claims)) /\
  Keys (setClaims claims c) !! ContextKeyCanvasID
    = Some (Str (SessionManager.CanvasID claims)) /\
  Keys (setClaims claims c) !! ContextKeyCourseID
    = Some (Str (SessionManager.CourseID claims)) /\
  Keys (setClaims claims c) !! ContextKeyRole
    = Some (Str (SessionManager.Role claims)) /\
  Keys (setClaims claims c) !! ContextKeyClaims = Some (Claims claims).
Proof.
  unfold setClaims, SetKey. cbn [Keys].
  repeat split;
    repeat (rewrite lookup_insert_eq || (rewrite lookup_insert_ne by done));
    done.
Qed.

Lemma newClaims_valid `{jwt.Codec SessionManager.SessionClaims} `{jwt.Crypto}
    m u e c r now now' :
  now <= now' ->
  now' < time.TruncateSecond (time.Add now (SessionManager.maxAge m)) ->
  jwt.Validate jwt.noOptions now'
    (SessionManager.RegisteredClaims (SessionManager.newClaims m u e c r now))
  = [].
Proof.
  intros Hle Hexp. unfold jwt.Validate. simpl.
  destruct (decide (now' < _)) as [|Hn]; [|by destruct Hn].
  pose proof (TruncateSecond_le now).
  destruct (decide (now' < time.TruncateSecond now)); [lia|done].
Qed.

End MiddlewareFacts.

(** X23: where the session token is taken from. A session cookie whose
    unescaped value is not empty wins over any Authorization header. Without
    such a cookie, a header made of the word Bearer in any mix of upper and
    lower case, one space and a rest gives that rest whole (later spaces
    included); a header of any other shape is taken as the token itself,
    scheme and all; and the token is empty exactly when the header is empty
    or is the word Bearer followed by one space and nothing. *)
Theorem X23_extract_token_sources (unescape : Middleware.Unescape)
    (c : Middleware.Context) :
  let cookie := default "" (Middleware.Cookie c "session") in
  let auth := http.HeaderGet (Middleware.Request c) "Authorization" in
  let bearer scheme := Middleware.EqualFold scheme "Bearer" = true in
  (cookie <> "" -> Middleware.extractToken c = cookie) /\
  (cookie = "" ->
   (forall scheme tok,
      bearer scheme -> auth = scheme +:+ " " +:+ tok ->
      Middleware.extractToken c = tok) /\
   ((forall scheme tok, bearer scheme -> auth <> scheme +:+ " " +:+ tok) ->
    Middleware.extractToken c = auth) /\
   (Middleware.extractToken c = "" <->
    auth = "" \/ exists scheme, bearer scheme /\ auth = scheme +:+ " ")).
Proof.
  intros cookie auth bearer.
  assert (Hcookie : Middleware.extractToken c
                    = if decide (cookie <> "") then cookie
                      else if decide (auth = "") then ""
                      else match Middleware.SplitN2 auth with
                           | [scheme; token] =>
                               if Middleware.EqualFold scheme "Bearer"
                               then token else auth
                           | _ => auth
                           end).
  { unfold Middleware.extractToken. subst cookie. fold auth.
    destruct (Middleware.Cookie c "session") as [t|]; simpl; [done|].
    by destruct (decide ("" <> "")). }
  rewrite Hcookie. split.
  { intros Hc. by rewrite decide_True. }
  intros Hc. rewrite decide_False by (by intros []).
  assert (Hbearer : forall scheme tok,
            bearer scheme -> auth = scheme +:+ " " +:+ tok ->
            (if decide (auth = "") then ""
             else match Middleware.SplitN2 auth with
                  | [scheme; token] =>
                      if Middleware.EqualFold scheme "Bearer"
                      then token else auth
                  | _ => auth
                  end) = tok).
  { intros scheme tok Hb Ha.
    destruct (decide (auth = "")) as [E|_].
    { rewrite E in Ha. by destruct scheme. }
    unfold Middleware.SplitN2.
    rewrite Ha, (cut_app _ _ (EqualFold_Bearer_no_space _ Hb)).
    unfold bearer in Hb. by rewrite Hb. }
  split; [exact Hbearer|]. split.
  - intros Hnot. destruct (decide (auth = "")) as [E|_]; [done|].
    unfold Middleware.SplitN2.
    destruct (Middleware.cut auth) as [[x y]|] eqn:E; [|done].
    destruct (Middleware.EqualFold x "Bearer") eqn:Hx; [|done].
    apply cut_Some in E as [E _]. by destruct (Hnot x y).
  - split.
    + destruct (decide (auth = "")) as [E|Hne]; [by left|].
      unfold Middleware.SplitN2.
      destruct (Middleware.cut auth) as [[x y]|] eqn:E; [|done].
      destruct (Middleware.EqualFold x "Bearer") eqn:Hx; [|done].
      intros ->. apply cut_Some in E as [E _]. right. by exists x.
    + intros [E|(scheme & Hb & Ha)].
      * by rewrite decide_True.
      * by apply (Hbearer scheme "").
Qed.

(** X24: the helpers read what the authentication middleware sets. After
    its five [c.Set] calls, whatever the context held before, every helper
    finds its key with the type it asserts: the user id, the Canvas id, the
    course id, the role and the claims themselves, and the role tests
    compare the role of the claims with "instructor" and "learner"; the
    request and the abort state are not touched. On a context without keys
    every helper reports that nothing is there. *)
Theorem X24_helpers_read_what_is_set
    (claims : SessionManager.SessionClaims) (c : Middleware.Context) :
  let c' := Middleware.setClaims claims c in
  (Middleware.GetUserID c' = (SessionManager.UserID claims, true) /\
   Middleware.GetCanvasID c' = (SessionManager.CanvasID claims, true) /\
   Middleware.GetCourseID c' = (SessionManager.CourseID claims, true) /\
   Middleware.GetRole c' = (SessionManager.Role claims, true) /\
   Middleware.GetSessionClaims c' = (Some claims, true) /\
   Middleware.IsAuthenticated c' = true /\
   Middleware.IsInstructor c'
   = bool_decide (SessionManager.Role claims = "instructor") /\
   Middleware.IsLearner c'
   = bool_decide (SessionManager.Role claims = "learner") /\
   Middleware.Request c' = Middleware.Request c /\
   Middleware.Aborted c' = Middleware.Aborted c) /\
  (Middleware.Keys c = ∅ ->
   Middleware.GetUserID c = (0, false) /\
   Middleware.GetCanvasID c = ("", false) /\
   Middleware.GetCourseID c = ("", false) /\
   Middleware.GetRole c = ("", false) /\
   Middleware.GetSessionClaims c = (None, false) /\
   Middleware.IsAuthenticated c = false /\
   Middleware.IsInstructor c = false /\ Middleware.IsLearner c = false).
Proof.
  intros c'. split.
  - destruct (setClaims_keys claims c) as (Hu & Hc & Hk & Hr & Hcl).
    fold c' in Hu, Hc, Hk, Hr, Hcl.
    unfold Middleware.IsInstructor, Middleware.IsLearner,
      Middleware.IsAuthenticated, Middleware.GetUserID,
      Middleware.GetCanvasID, Middleware.GetCourseID, Middleware.GetRole,
      Middleware.GetSessionClaims, Middleware.Get.
    rewrite Hu, Hc, Hk, Hr, Hcl. repeat split; try done.
  - intros He.
    unfold Middleware.IsInstructor, Middleware.IsLearner,
      Middleware.IsAuthenticated, Middleware.GetUserID,
      Middleware.GetCanvasID, Middleware.GetCourseID, Middleware.GetRole,
      Middleware.GetSessionClaims, Middleware.Get.
    rewrite He, !lookup_empty. by repeat split.
Qed.

(** X25: [AuthMiddleware] lets a request through only with a session it
    has verified. Either it aborts with 401, keeps the keys of the context
    as they were and runs no later handler, or it runs the rest of the chain
    on the context with the claims set, and then the token it extracted is
    not empty, names an HMAC method, carries the HMAC of its signing text
    under the secret of the session manager, and is not expired and not
    before its time at the moment of the check. *)
Theorem X25_auth_middleware_admits_verified_sessions
    (codec : jwt.Codec SessionManager.SessionClaims) (crypto : jwt.Crypto)
    (unescape : Middleware.Unescape) (m : SessionManager.t)
    (now : time.Time) (next : Middleware.Context -> Middleware.Context)
    (c : Middleware.Context) :
  let out := Middleware.AuthMiddleware m now next c in
  let token := Middleware.extractToken c in
  (exists msg,
     out = Middleware.AbortWithStatusJSON http.StatusUnauthorized msg c /\
     Middleware.Keys out = Middleware.Keys c /\
     forall next', Middleware.AuthMiddleware m now next' c = out) \/
  (exists claims hdr text seg h,
     out = next (Middleware.setClaims claims c) /\
     token <> "" /\
     jwt.decodeParts token = Some (hdr, claims, text, seg) /\
     hdr !! "alg" = Some (jwt.Alg (jwt.SigningMethodHMAC h)) /\
     jwt.DecodeSegment seg
     = Some (jwt.hmacSum h (SessionManager.secret m) text) /\
     (forall exp,
        jwt.ExpiresAt (SessionManager.RegisteredClaims claims) = Some exp ->
        now < exp) /\
     (forall nbf,
        jwt.NotBefore (SessionManager.RegisteredClaims claims) = Some nbf ->
        nbf <= now)).
Proof.
  intros out token. subst out. unfold Middleware.AuthMiddleware.
  fold token. destruct (decide (token = "")) as [|Hne].
  { left. by eexists. }
  destruct (SessionManager.ValidateToken m token now) as [claims|err] eqn:E.
  2:{ left. by eexists. }
  right. apply ValidateToken_inv in E
    as (hdr & text & seg & h & sig & Hd & Ha & Hs & -> & Hv).
  exists claims, hdr, text, seg, h. repeat split; try done.
  - intros exp He. by apply (Validate_unexpired _ _ _ _ Hv).
  - intros nbf Hn. unfold jwt.Validate in Hv. rewrite Hn in Hv.
    destruct (decide (now < nbf)); [|lia].
    by destruct (match jwt.ExpiresAt _ with Some _ => _ | None => _ end).
Qed.

(** X26: the role gate behind the authentication middleware. On a route
    with [AuthMiddleware] followed by [RequireRole role], a request without
    a valid session is answered 401 before the role is looked at; one with
    a valid session of another role is answered 403; one with a valid
    session of that role reaches the handlers behind the gate, with the
    claims in the context. [RequireRole] on a context that carries no role
    (no authentication middleware before it, or [OptionalAuthMiddleware]
    without a valid token) answers 401. *)
Theorem X26_role_gate
    (codec : jwt.Codec SessionManager.SessionClaims) (crypto : jwt.Crypto)
    (unescape : Middleware.Unescape) (m : SessionManager.t)
    (now : time.Time) (role : string) (rest : list Middleware.HandlerFunc)
    (c : Middleware.Context) :
  let token := Middleware.extractToken c in
  let route :=
    Middleware.AuthMiddleware m now :: Middleware.RequireRole role :: rest in
  let optional :=
    Middleware.OptionalAuthMiddleware m now
      :: Middleware.RequireRole role :: rest in
  let unauthorized msg :=
    Middleware.AbortWithStatusJSON http.StatusUnauthorized msg c in
  ((token = "" \/
    exists err, SessionManager.ValidateToken m token now = inr err) ->
   (exists msg, Middleware.chain route c = unauthorized msg) /\
   (Middleware.Keys c !! Middleware.ContextKeyRole = None ->
    Middleware.chain optional c = unauthorized "authentication required")) /\
  (forall claims,
     token <> "" -> SessionManager.ValidateToken m token now = inl claims ->
     Middleware.chain optional c = Middleware.chain route c /\
     (SessionManager.Role claims <> role ->
      Middleware.chain route c
      = Middleware.AbortWithStatusJSON Middleware.StatusForbidden
          "insufficient permissions" (Middleware.setClaims claims c)) /\
     (SessionManager.Role claims = role ->
      Middleware.chain route c
      = Middleware.chain rest (Middleware.setClaims claims c))) /\
  (Middleware.Keys c !! Middleware.ContextKeyRole = None ->
   Middleware.chain (Middleware.RequireRole role :: rest) c
   = unauthorized "authentication required").
Proof.
  intros token route optional unauthorized.
  assert (Hnone : Middleware.Keys c !! Middleware.ContextKeyRole = None ->
                  Middleware.chain (Middleware.RequireRole role :: rest) c
                  = unauthorized "authentication required").
  { intros Hk. simpl. unfold Middleware.RequireRole, Middleware.Get.
    by rewrite Hk. }
  split; [|split; [|done]].
  - intros Hbad. subst route optional. cbn [Middleware.chain].
    unfold Middleware.AuthMiddleware, Middleware.OptionalAuthMiddleware.
    fold token. destruct (decide (token = "")) as [|Hne].
    { split; [by eexists|]. exact Hnone. }
    destruct Hbad as [|[err Herr]]; [done|]. rewrite Herr.
    split; [by eexists|]. exact Hnone.
  - intros claims Hne Hok. subst route optional. cbn [Middleware.chain].
    unfold Middleware.AuthMiddleware, Middleware.OptionalAuthMiddleware.
    fold token. destruct (decide (token = "")); [done|]. rewrite Hok.
    split; [done|].
    destruct (setClaims_keys claims c) as (_ & _ & _ & Hr & _).
    unfold Middleware.RequireRole, Middleware.Get. rewrite Hr.
    split; intros Hrole.
    + by rewrite decide_True.
    + by rewrite decide_False by (by intros []).
Qed.

(** X27: [OptionalAuthMiddleware] never aborts: the handlers behind it
    always run, on the context as it came when there is no token or the
    token is not valid, and on the context [AuthMiddleware] would have
    passed on when that one admits the request. On a context that came
    without keys the handlers see an authenticated request exactly when the
    token was not empty and valid. *)
Theorem X27_optional_auth_never_aborts
    (codec : jwt.Codec SessionManager.SessionClaims) (crypto : jwt.Crypto)
    (unescape : Middleware.Unescape) (m : SessionManager.t)
    (now : time.Time) (next : Middleware.Context -> Middleware.Context)
    (c : Middleware.Context) :
  let token := Middleware.extractToken c in
  let valid :=
    token <> "" /\
    exists claims, SessionManager.ValidateToken m token now = inl claims in
  (exists c', Middleware.OptionalAuthMiddleware m now next c = next c' /\
              Middleware.Aborted c' = Middleware.Aborted c /\
              Middleware.Request c' = Middleware.Request c /\
              (Middleware.Keys c = ∅ ->
               Middleware.IsAuthenticated c' = true <-> valid)) /\
  (valid ->
   Middleware.OptionalAuthMiddleware m now next c
   = Middleware.AuthMiddleware m now next c) /\
  (~ valid -> Middleware.OptionalAuthMiddleware m now next c = next c).
Proof.
  intros token valid. subst valid.
  assert (Hanon : Middleware.Keys c = ∅ ->
                  Middleware.IsAuthenticated c = true -> False).
  { intros He Ha. unfold Middleware.IsAuthenticated, Middleware.Get in Ha.
    rewrite He, lookup_empty in Ha. apply bool_decide_eq_true in Ha.
    by destruct Ha. }
  unfold Middleware.OptionalAuthMiddleware, Middleware.AuthMiddleware.
  fold token. destruct (decide (token = "")) as [Hemp|Hne].
  { split; [|split; [by intros []|done]].
    exists c. split; [done|]. split; [done|]. split; [done|].
    intros He. split; [|by intros []].
    intros Ha. by destruct (Hanon He Ha). }
  destruct (SessionManager.ValidateToken m token now) as [claims|err].
  - split; [|split; [done|]].
    + exists (Middleware.setClaims claims c).
      split; [done|]. split; [done|]. split; [done|].
      intros _. split.
      * intros _. split; [done|]. by exists claims.
      * intros _. apply bool_decide_eq_true_2.
        destruct (setClaims_keys claims c) as (Hu & _).
        unfold Middleware.Get. by rewrite Hu.
    + intros Hn. destruct Hn. split; [done|]. by exists claims.
  - split; [|split; [by intros [_ [? ?]]|done]].
    exists c. split; [done|]. split; [done|]. split; [done|].
    intros He. split; [|by intros [_ [? ?]]].
    intros Ha. by destruct (Hanon He Ha).
Qed.

(** X28: the session cookie of a launch authenticates later requests. A
    token made by [CreateToken], sent back in the session cookie in the
    escaped form [SetCookie] gave it, is the token the middleware extracts,
    whatever the Authorization header says. Until the token expires
    [AuthMiddleware] runs the rest of the chain with exactly the user id,
    Canvas id, course id and role the token was created with, and
    [RequireInstructor] behind it lets the request pass exactly when that
    role is "instructor" (403 otherwise); from the expiry on the same
    cookie is answered 401. The wire format and the escaping are parameters:
    the statement asks that the token decodes to what was encoded and that
    unescaping undoes the escaping of the cookie value. *)
Theorem X28_session_cookie_authenticates (runtime : http.Runtime)
    (codec : jwt.Codec SessionManager.SessionClaims) (crypto : jwt.Crypto)
    (unescape : Middleware.Unescape) (m : SessionManager.t) (u : Z)
    (e crs r : string) (now now' : time.Time)
    (rest : list Middleware.HandlerFunc) (c : Middleware.Context) :
  let claims := SessionManager.newClaims m u e crs r now in
  let text := jwt.SigningString (jwt.headerOf jwt.SigningMethodHS256) claims in
  let sig := jwt.hmacSum jwt.SHA256 (SessionManager.secret m) text in
  let tok := text +:+ "." +:+ jwt.EncodeSegment sig in
  let expiry := time.TruncateSecond (time.Add now (SessionManager.maxAge m)) in
  jwt.decodeParts tok
    = Some (jwt.headerOf jwt.SigningMethodHS256, claims, text,
            jwt.EncodeSegment sig) ->
  jwt.DecodeSegment (jwt.EncodeSegment sig) = Some sig ->
  Middleware.RequestCookies c !! "session" = Some (http.QueryEscape tok) ->
  Middleware.QueryUnescape (http.QueryEscape tok) = Some tok ->
  SessionManager.CreateToken m u e crs r now = inl tok /\
  Middleware.extractToken c = tok /\
  (now <= now' -> now' < expiry ->
   Middleware.chain (Middleware.AuthMiddleware m now' :: rest) c
   = Middleware.chain rest (Middleware.setClaims claims c) /\
   Middleware.GetUserID (Middleware.setClaims claims c) = (u, true) /\
   Middleware.GetRole (Middleware.setClaims claims c) = (r, true) /\
   Middleware.chain
     (Middleware.AuthMiddleware m now' :: Middleware.RequireInstructor :: rest)
     c
   = if decide (r = "instructor")
     then Middleware.chain rest (Middleware.setClaims claims c)
     else Middleware.AbortWithStatusJSON Middleware.StatusForbidden
            "insufficient permissions" (Middleware.setClaims claims c)) /\
  (expiry <= now' ->
   Middleware.chain (Middleware.AuthMiddleware m now' :: rest) c
   = Middleware.AbortWithStatusJSON http.StatusUnauthorized
       "invalid or expired session" c).
Proof.
  intros claims text sig tok expiry Hd Hs Hcookie Hun.
  assert (Hne : tok <> "") by (subst tok; by destruct text).
  assert (Htok : Middleware.extractToken c = tok).
  { unfold Middleware.extractToken, Middleware.Cookie.
    rewrite Hcookie, Hun. simpl. by rewrite decide_True. }
  split; [done|]. split; [done|].
  cbn [Middleware.chain]. unfold Middleware.AuthMiddleware.
  rewrite Htok. destruct (decide (tok = "")) as [|_]; [done|]. split.
  - intros Hle Hexp.
    pose proof (newClaims_valid m u e crs r now now' Hle Hexp) as Hv.
    rewrite (ValidateToken_created m tok claims text sig now' Hd Hs Hv).
    rewrite bool_decide_eq_true_2 by done.
    destruct (setClaims_keys claims c) as (Hu & _ & _ & Hr & _).
    split; [done|].
    unfold Middleware.GetUserID, Middleware.GetRole,
      Middleware.RequireInstructor, Middleware.RequireRole, Middleware.Get.
    rewrite Hu, Hr. split; [done|]. split; [done|].
    change (SessionManager.Role claims) with r.
    by destruct (decide (r = "instructor")), (decide (r <> "instructor")).
  - intros Hexp.
    destruct (SessionManager.ValidateToken m tok now') as [cl|err] eqn:E;
      [|done].
    apply ValidateToken_inv in E as (hdr & text' & seg & h & sig' & Hd' & _
                                     & _ & _ & Hok).
    rewrite Hd in Hd'. injection Hd' as _ <- _ _.
    by destruct (Validate_expired jwt.noOptions now'
                   (SessionManager.RegisteredClaims claims) expiry eq_refl
                   Hexp).
Qed.

Lemma X28_session_cookie_authenticates_witness :
  Middleware.GetUserID
    (Middleware.chain
       [Middleware.AuthMiddleware (codec := SessionDemo.codec)
          (crypto := SessionDemo.crypto) (unescape := MiddlewareDemo.unescape)
          SessionDemo.manager MiddlewareDemo.during;
        Middleware.RequireInstructor]
       (MiddlewareDemo.withCookie SessionDemo.token "Bearer other"))
  = (123, true).
Proof.
  pose proof (X28_session_cookie_authenticates LaunchDemo.runtime
                SessionDemo.codec SessionDemo.crypto MiddlewareDemo.unescape
                SessionDemo.manager 123 "canvas-user-1" "course-456"
                "instructor" SessionDemo.issued MiddlewareDemo.during []
                (MiddlewareDemo.withCookie SessionDemo.token "Bearer other"))
    as W.
  cbv zeta in W. destruct W as (_ & _ & Hpass & _).
  - vm_compute. reflexivity.
  - reflexivity.
  - vm_compute. reflexivity.
  - vm_compute. reflexivity.
  - destruct Hpass as (_ & Hid & _ & Hgate).
    + vm_compute. discriminate.
    + vm_compute. reflexivity.
    + rewrite Hgate. exact Hid.
Defined.
